(** * The dashboard statistics and reconciliation layer of the OTP admin site

    A shallow embedding of [website/config/database.js] (validation
    utilities, record store accessor, metrics aggregator, dashboard cache
    updater), of [website/api/sync-status.js] (sync status reporter and
    its handler) and of the routes of [website/server-optimized.js] that
    add and delete servers, with the properties the specification states
    about them and further properties read off the code.

    How the program is read:
    - a JavaScript string is the list of its UTF-16 code units, a number
      is an IEEE 754 binary64 value ([spec_float] at precision 53), with
      [parseFloat], [parseInt] and [toFixed] computed exactly;
    - a document is one of the shapes the code reads, under an [_id]; a
      collection is the list of its documents in natural order, the
      database a finite map from collection names to collections;
    - an asynchronous method is an operation of a state-and-exception
      monad over the process and the store, awaited calls run in program
      order, nothing else writes to the store meanwhile;
    - a round trip to the store fails when a fault plan, part of the
      state, says so: every failure of the store is one plan;
    - the clock stands still during one operation and local time is at a
      fixed offset from UTC;
    - [$sum] adds the balances up in natural order, in binary64. *)

From Stdlib Require Import ZArith NArith List Bool Lia String Ascii.
From Stdlib Require Import Permutation.
From Stdlib Require Import SpecFloat.
From stdpp Require Import base option list gmap.

Local Open Scope Z_scope.

(** ** Strings *)

(** A JavaScript string: its UTF-16 code units.  [length] of the list is
    the [.length] of the string. *)
Abbreviation jsstring := (list N).

(** The code units of an ASCII literal of the source. *)
Definition str (s : string) : jsstring :=
  map (fun a => N_of_ascii a) (list_ascii_of_string s).

(** The five characters of the class of the sanitizing pattern: less-than,
    greater-than, double quote, single quote, ampersand (code units 60, 62,
    34, 39, 38). *)
Definition dangerous (c : N) : bool :=
  (N.eqb c 60 || N.eqb c 62 || N.eqb c 34 || N.eqb c 39 || N.eqb c 38)%bool.

(** [prefix_eqb p s]: [s] starts with [p]. *)
Fixpoint prefix_eqb (p s : jsstring) : bool :=
  match p, s with
  | [], _ => true
  | _ :: _, [] => false
  | a :: p', b :: s' => (N.eqb a b && prefix_eqb p' s')%bool
  end.

(** [String.prototype.replace] with a string pattern and the empty
    replacement: the first occurrence of [pat] is removed, wherever
    it is; the rest of the string is kept. *)
Fixpoint replaceFirst (pat s : jsstring) : jsstring :=
  if prefix_eqb pat s then skipn (length pat) s
  else match s with
       | [] => []
       | c :: s' => c :: replaceFirst pat s'
       end.

(** ** Numbers: IEEE 754 binary64 *)

Abbreviation number := spec_float.

Definition prec64 : Z := 53.
Definition emax64 : Z := 1024.

Definition num_add : number -> number -> number := SFadd prec64 emax64.
Definition num_mul : number -> number -> number := SFmul prec64 emax64.
Definition num_div : number -> number -> number := SFdiv prec64 emax64.

Definition zero : number := S754_zero false.
Definition NaN : number := S754_nan.

(** The double nearest to the integer [z] (ties to even). *)
Definition num_of_Z (z : Z) : number :=
  binary_normalize prec64 emax64 z 0 false.

Definition isNaN (x : number) : bool :=
  match x with S754_nan => true | _ => false end.

(** [x || 0] on a number: [0], [-0] and [NaN] are falsy. *)
Definition num_truthy (x : number) : bool :=
  match x with
  | S754_zero _ | S754_nan => false
  | _ => true
  end.

(** *** Reading numbers: [parseFloat] and [parseInt] *)

(** WhiteSpace and LineTerminator code units, skipped by [parseFloat] and
    [parseInt] at the start of their argument. *)
Definition isWhiteSpace (c : N) : bool :=
  ((9 <=? c) && (c <=? 13) || (c =? 32) || (c =? 160) || (c =? 5760)
   || (8192 <=? c) && (c <=? 8202) || (c =? 8232) || (c =? 8233)
   || (c =? 8239) || (c =? 8287) || (c =? 12288) || (c =? 65279))%N%bool.

Fixpoint trimStart (s : jsstring) : jsstring :=
  match s with
  | c :: s' => if isWhiteSpace c then trimStart s' else s
  | [] => []
  end.

Definition isDigit (c : N) : bool := ((48 <=? c) && (c <=? 57))%N%bool.

(** The longest run of decimal digits at the start of [s], as digit
    values, and the rest of [s]. *)
Fixpoint spanDigits (s : jsstring) : list Z * jsstring :=
  match s with
  | c :: s' =>
      if isDigit c
      then let '(ds, r) := spanDigits s' in (Z.of_N (c - 48) :: ds, r)
      else ([], s)
  | [] => ([], [])
  end.

Definition digitsValue (radix : Z) (ds : list Z) : Z :=
  fold_left (fun acc d => acc * radix + d) ds 0.

(** An optional sign: [true] for a minus. *)
Definition spanSign (s : jsstring) : bool * jsstring :=
  match s with
  | 43%N :: r => (false, r)
  | 45%N :: r => (true, r)
  | _ => (false, s)
  end.

(** The double nearest to [m * 10^e10] (ties to even), for [0 <= m]. *)
Definition decToNum (neg : bool) (m e10 : Z) : number :=
  match m with
  | Zpos p =>
      if 0 <=? e10
      then binary_normalize prec64 emax64 (cond_Zopp neg (m * 10 ^ e10)) 0 false
      else num_div (S754_finite neg p 0)
                   (S754_finite false (Z.to_pos (10 ^ (- e10))) 0)
  | _ => S754_zero neg
  end.

(** The exponent part of a decimal literal: [e] or [E], an optional sign
    and at least one digit; 0 when there is none. *)
Definition spanExponent (s : jsstring) : Z :=
  match s with
  | c :: r =>
      if ((c =? 101) || (c =? 69))%N%bool
      then let '(neg, r') := spanSign r in
           let '(ds, _) := spanDigits r' in
           match ds with
           | [] => 0
           | _ => cond_Zopp neg (digitsValue 10 ds)
           end
      else 0
  | [] => 0
  end.

(** [parseFloat(string)]: the longest prefix of the trimmed string that
    is a decimal literal; [NaN] when there is none. *)
Definition parseFloat (s : jsstring) : number :=
  let '(neg, s1) := spanSign (trimStart s) in
  if prefix_eqb (str "Infinity") s1 then S754_infinity neg
  else
    let '(ip, s2) := spanDigits s1 in
    let '(fp, s3) := match s2 with
                     | 46%N :: r => spanDigits r
                     | _ => ([], s2)
                     end in
    match ip ++ fp with
    | [] => NaN
    | ds => decToNum neg (digitsValue 10 ds)
                     (spanExponent s3 - Z.of_nat (length fp))
    end.

Definition hexDigitValue (c : N) : option Z :=
  if isDigit c then Some (Z.of_N (c - 48))
  else if ((97 <=? c) && (c <=? 102))%N%bool then Some (Z.of_N (c - 87))
  else if ((65 <=? c) && (c <=? 70))%N%bool then Some (Z.of_N (c - 55))
  else None.

Fixpoint spanHexDigits (s : jsstring) : list Z :=
  match s with
  | c :: s' =>
      match hexDigitValue c with
      | Some d => d :: spanHexDigits s'
      | None => []
      end
  | [] => []
  end.

(** [parseInt(string)] with no radix argument: decimal, or hexadecimal
    after a [0x] or [0X] prefix.  [None] stands for the argument
    [undefined], which reads as [NaN]. *)
Definition parseInt (o : option jsstring) : number :=
  match o with
  | None => NaN
  | Some s =>
      let '(neg, s1) := spanSign (trimStart s) in
      let '(radix, ds) :=
        match s1 with
        | 48%N :: x :: r =>
            if ((x =? 120) || (x =? 88))%N%bool then (16, spanHexDigits r)
            else (10, fst (spanDigits s1))
        | _ => (10, fst (spanDigits s1))
        end in
      match ds with
      | [] => NaN
      | _ => match digitsValue radix ds with
             | Zpos p => num_of_Z (cond_Zopp neg (Zpos p))
             | _ => S754_zero neg
             end
      end
  end.

(** *** Printing numbers: [toFixed] *)

Fixpoint uintChars (u : Decimal.uint) : jsstring :=
  match u with
  | Decimal.Nil => []
  | Decimal.D0 u' => 48%N :: uintChars u'
  | Decimal.D1 u' => 49%N :: uintChars u'
  | Decimal.D2 u' => 50%N :: uintChars u'
  | Decimal.D3 u' => 51%N :: uintChars u'
  | Decimal.D4 u' => 52%N :: uintChars u'
  | Decimal.D5 u' => 53%N :: uintChars u'
  | Decimal.D6 u' => 54%N :: uintChars u'
  | Decimal.D7 u' => 55%N :: uintChars u'
  | Decimal.D8 u' => 56%N :: uintChars u'
  | Decimal.D9 u' => 57%N :: uintChars u'
  end.

(** The decimal digits of a non-negative integer, without leading zeros
    (the single digit 0 for zero). *)
Definition decimalDigits (n : Z) : jsstring :=
  match n with
  | Zpos p => uintChars (Pos.to_uint p)
  | _ => [48%N]
  end.

(** The integer [n] for which [n / 10^f] is closest to [m * 2^e]; of two
    such integers the larger one. *)
Definition scaledNearest (m : positive) (e : Z) (f : nat) : Z :=
  let s := Zpos m * 10 ^ Z.of_nat f in
  if 0 <=? e then s * 2 ^ e
  else (2 * s + 2 ^ (- e)) / (2 * 2 ^ (- e)).

(** The digits of [n] with a decimal point before the last [f] of them,
    padded with zeros on the left to [f + 1] digits. *)
Definition fixedDigits (n : Z) (f : nat) : jsstring :=
  let m := decimalDigits n in
  match f with
  | O => m
  | _ =>
      let m' := repeat 48%N (S f - length m) ++ m in
      let k := length m' in
      firstn (k - f) m' ++ 46%N :: skipn (k - f) m'
  end.

(** [10^21 <= m * 2^e]. *)
Definition atLeast1e21 (m : positive) (e : Z) : bool :=
  if 0 <=? e then 10 ^ 21 <=? Zpos m * 2 ^ e
  else 10 ^ 21 * 2 ^ (- e) <=? Zpos m.

(** The integer nearest to [a / b] (ties to even), for [0 < b]. *)
Definition divNearestEven (a b : Z) : Z :=
  let q := a / b in
  let r := a mod b in
  match 2 * r ?= b with
  | Lt => q
  | Gt => q + 1
  | Eq => if Z.even q then q else q + 1
  end.

(** Whether the integer [y] reads back as the integral double of value
    [x]: the double nearest to [y] is the one nearest to [x]. *)
Definition readsBack (x y : Z) : bool :=
  match num_of_Z x, num_of_Z y with
  | S754_finite _ m1 e1, S754_finite _ m2 e2 =>
      ((m1 =? m2)%positive && (e1 =? e2))%bool
  | _, _ => false
  end.

(** The shortest decimal significand that reads back as the integral
    double of value [x], searched over [k = 17 - fuel, .., 17] digits;
    [n] is the number of decimal digits of [x].  A significand of [k]
    digits that reads back is next to [x] on the grid of step
    [10^(n-k)], below or above: of the two the one nearer to [x] is
    tried first (the even one on a tie), then the other.  The result is
    the significand and the decimal exponent. *)
Fixpoint shortestDigits (fuel : nat) (x : Z) (n : Z) (k : Z) : Z * Z :=
  let step := 10 ^ (n - k) in
  let nearest := divNearestEven x step in
  let other := if nearest =? x / step then nearest + 1 else nearest - 1 in
  let normal (s : Z) :=
    if s =? 10 ^ k then (10 ^ (k - 1), n + 1) else (s, n) in
  match fuel with
  | O => normal nearest
  | S fuel' =>
      if readsBack x (nearest * step) then normal nearest
      else if readsBack x (other * step) then normal other
      else shortestDigits fuel' x n (k + 1)
  end.

Fixpoint stripTrailingZeros (rev_digits : jsstring) : jsstring :=
  match rev_digits with
  | 48%N :: r => stripTrailingZeros r
  | _ => rev_digits
  end.

(** [Number::toString] of a finite double of value [x >= 10^21]: the
    shortest significand in exponential notation. *)
Definition toStringLarge (x : Z) : jsstring :=
  let n := Z.of_nat (length (decimalDigits x)) in
  let '(s, n') := shortestDigits 16 x n 1 in
  let ds := rev (stripTrailingZeros (rev (decimalDigits s))) in
  let expo := str "e+" ++ decimalDigits (n' - 1) in
  match ds with
  | [] => str "0"
  | [d] => d :: expo
  | d :: rest => d :: 46%N :: rest ++ expo
  end.

(** [Number.prototype.toFixed(f)], for [0 <= f <= 100]. *)
Definition toFixed (x : number) (f : nat) : jsstring :=
  match x with
  | S754_nan => str "NaN"
  | S754_infinity s => if s then str "-Infinity" else str "Infinity"
  | S754_zero _ => fixedDigits 0 f
  | S754_finite s m e =>
      (if s then [45%N] else []) ++
      (if atLeast1e21 m e then toStringLarge (Zpos m * 2 ^ e)
       else fixedDigits (scaledNearest m e f) f)
  end.

(** ** Values *)

(** The JavaScript values the modelled functions are applied to.  An
    [ObjectId] is its 12 bytes, read as one number below [2^96]. *)
Inductive value : Type :=
  | VUndefined
  | VNull
  | VBoolean (b : bool)
  | VNumber (x : number)
  | VString (s : jsstring)
  | VObjectId (oid : N).

(** [!v] is [negb (truthy v)]. *)
Definition truthy (v : value) : bool :=
  match v with
  | VUndefined | VNull => false
  | VBoolean b => b
  | VNumber x => num_truthy x
  | VString s => match s with [] => false | _ => true end
  | VObjectId _ => true
  end.

(** ** Input validation utilities: [validateInput] *)

Module validateInput.

(** [validateInput.string(value, maxLength = 100)].  [None] is [null]. *)
Definition string (v : value) (maxLength : nat) : option jsstring :=
  match v with
  | VString s =>
      if (maxLength <? length s)%nat then None
      else Some (List.filter (fun c => negb (dangerous c)) s)
  | _ => None
  end.

Definition isHexDigit (c : N) : bool :=
  ((48 <=? c) && (c <=? 57) || (97 <=? c) && (c <=? 102)
   || (65 <=? c) && (c <=? 70))%N%bool.

(** [validateInput.objectId(value)]: a non-empty string of exactly 24
    hexadecimal digits, in either case. *)
Definition objectId (v : value) : option jsstring :=
  if negb (truthy v) then None
  else match v with
       | VString s =>
           if ((length s =? 24)%nat && forallb isHexDigit s)%bool
           then Some s else None
       | _ => None
       end.

End validateInput.

(** [!validateInput.string(..)] and [validateInput.string(..) || dflt]:
    [null] and the empty string are falsy. *)
Definition str_truthy (o : option jsstring) : bool :=
  match o with
  | Some (_ :: _) => true
  | _ => false
  end.

Definition str_or (o : option jsstring) (dflt : jsstring) : jsstring :=
  match o with
  | Some (c :: s) => c :: s
  | _ => dflt
  end.

(** ** Documents *)

Module Transaction.
(** An entry of a user's embedded [transaction_history]. *)
Record t := mk {
  type : jsstring;
  reason : jsstring;
  amount : number;
  created_at : Z
}.
End Transaction.

Module User.
Record t := mk {
  balance : number;
  created_at : Z;
  transaction_history : list Transaction.t
}.
End User.

Module Service.
(** [price] is whatever the document holds (a currency-prefixed string
    when well formed); [users] is absent or a number. *)
Record t := mk {
  name : jsstring;
  price : value;
  users : option number
}.
End Service.

Module Server.
Record t := mk {
  server_name : jsstring;
  country : jsstring;
  flag : jsstring;
  status : jsstring;
  description : jsstring;
  createdAt : Z;
  updatedAt : Z
}.
End Server.

Module Flag.
Record t := mk {
  country : jsstring;
  flag : jsstring;
  createdAt : Z;
  updatedAt : Z
}.
End Flag.

Module Stats.
(** The cached dashboard document, matched by [type]. *)
Record t := mk {
  type : jsstring;
  todaysEarnings : jsstring;
  totalEarnings : jsstring;
  todaysUsers : number;
  totalUsers : number;
  todaysSold : number;
  totalSold : nat;
  updatedAt : Z
}.
End Stats.

(** Documents are loosely shaped: a collection may hold documents of any
    of these shapes, and a field a shape lacks reads as [undefined]. *)
Inductive Body : Type :=
  | BUser (u : User.t)
  | BService (s : Service.t)
  | BServer (s : Server.t)
  | BFlag (f : Flag.t)
  | BStats (s : Stats.t).

(** A stored document: its [_id] (an ObjectId), the [last_sync] stamp the
    sync job may have left on it, and its fields.  Times are milliseconds
    since the epoch. *)
Record Doc := mkDoc {
  _id : N;
  last_sync : option Z;
  body : Body
}.

(** [doc.balance], as [$sum] reads it: a missing field adds nothing. *)
Definition docBalance (d : Doc) : number :=
  match body d with
  | BUser u => User.balance u
  | _ => zero
  end.

(** [doc.created_at]. *)
Definition docCreatedAt (d : Doc) : option Z :=
  match body d with
  | BUser u => Some (User.created_at u)
  | _ => None
  end.

(** [doc.transaction_history], as [$unwind] reads it: a document without
    the field yields no entry. *)
Definition docTransactions (d : Doc) : list Transaction.t :=
  match body d with
  | BUser u => User.transaction_history u
  | _ => []
  end.

(** [service.price] and [service.users]. *)
Definition docPrice (d : Doc) : value :=
  match body d with
  | BService s => Service.price s
  | _ => VUndefined
  end.

Definition docUsers (d : Doc) : option number :=
  match body d with
  | BService s => Service.users s
  | _ => None
  end.

(** [flag.country] and [flag.flag]; [None] is [undefined]. *)
Definition fieldCountry (b : Body) : option jsstring :=
  match b with
  | BFlag f => Some (Flag.country f)
  | BServer s => Some (Server.country s)
  | _ => None
  end.

Definition fieldFlag (b : Body) : option jsstring :=
  match b with
  | BFlag f => Some (Flag.flag f)
  | BServer s => Some (Server.flag s)
  | _ => None
  end.

(** [doc.type], at the top level of the document. *)
Definition docType (d : Doc) : option jsstring :=
  match body d with
  | BStats s => Some (Stats.type s)
  | _ => None
  end.

(** ** The process and its store *)

(** [process.env]: the variables the modelled code reads, each absent or
    a string; and the offset of local time from UTC in milliseconds (a
    fixed-offset zone). *)
Record Env := mkEnv {
  MONGODB_COLLECTION : option jsstring;
  DEFAULT_TODAYS_EARNINGS : option jsstring;
  DEFAULT_TODAYS_USERS : option jsstring;
  DEFAULT_TODAYS_SOLD : option jsstring;
  tzOffset : Z
}.

(** The state the code runs against.
    - [dbHandle], [isConnected]: [this.db] is set, [this.isConnected];
    - [store]: every collection of the database by name, in natural
      order; a collection that was never written is empty;
    - [faults]: for each coming store round trip, whether it fails (the
      driver rejects the promise); none fails once the list is used up;
    - [oidGen], [oidNext]: the ObjectIds the driver generates, and how
      many it has handed out;
    - [now]: the clock [new Date()] reads, still during one operation. *)
Record World := mkWorld {
  dbHandle : bool;
  isConnected : bool;
  store : gmap (list N) (list Doc);
  faults : list bool;
  oidGen : nat -> N;
  oidNext : nat;
  now : Z;
  env : Env
}.

Definition setStore (w : World) (s : gmap (list N) (list Doc)) : World :=
  mkWorld (dbHandle w) (isConnected w) s (faults w) (oidGen w) (oidNext w)
          (now w) (env w).

Definition setFaults (w : World) (fs : list bool) : World :=
  mkWorld (dbHandle w) (isConnected w) (store w) fs (oidGen w) (oidNext w)
          (now w) (env w).

Definition setOidNext (w : World) (n : nat) : World :=
  mkWorld (dbHandle w) (isConnected w) (store w) (faults w) (oidGen w) n
          (now w) (env w).

(** The documents of the collection named [c]. *)
Definition coll (w : World) (c : jsstring) : list Doc :=
  default [] (store w !! c).

(** ** Exceptions and the monad of operations *)

Inductive Error : Type :=
  | NotConnected          (* Database not connected. Call connect() first. *)
  | InvalidCollectionName (* Invalid collection name *)
  | InvalidServerData     (* Invalid server data: ... are required *)
  | InvalidServerId       (* Invalid server ID format *)
  | TypeError             (* a method called on a value that lacks it *)
  | DuplicateKey          (* E11000, raised by the store *)
  | StoreFailure.         (* a round trip to the store failed *)

Inductive Result (A : Type) : Type :=
  | Returned (a : A)
  | Thrown (e : Error).
Arguments Returned {A} a.
Arguments Thrown {A} e.

(** An operation: run on a world, it returns or throws, and leaves a
    world. *)
Definition M (A : Type) : Type := World -> Result A * World.

Definition ret {A} (a : A) : M A := fun w => (Returned a, w).

Definition throw {A} (e : Error) : M A := fun w => (Thrown e, w).

Definition bind {A B} (m : M A) (k : A -> M B) : M B :=
  fun w => match m w with
           | (Returned a, w') => k a w'
           | (Thrown e, w') => (Thrown e, w')
           end.

(** [try { m } catch (error) { h error }]. *)
Definition try_catch {A} (m : M A) (h : Error -> M A) : M A :=
  fun w => match m w with
           | (Returned a, w') => (Returned a, w')
           | (Thrown e, w') => h e w'
           end.

(** [try { m } finally { f }], where [f] does not throw. *)
Definition try_finally {A} (m : M A) (f : M unit) : M A :=
  fun w => let '(r, w') := m w in (r, snd (f w')).

Definition get : M World := fun w => (Returned w, w).

Definition put (w' : World) : M unit := fun _ => (Returned tt, w').

Declare Scope op_scope.
Delimit Scope op_scope with op.
Notation "x <- c1 ;; c2" := (bind c1 (fun x => c2))
  (at level 100, c1 at next level, right associativity) : op_scope.
Notation "c1 ;; c2" := (bind c1 (fun _ => c2))
  (at level 100, right associativity) : op_scope.
Local Open Scope op_scope.

(** [new Date()]. *)
Definition newDate : M Z := w <- get ;; ret (now w).

(** *** The driver *)

(** One round trip to the store: it fails when the fault plan says so. *)
Definition roundTrip : M unit :=
  w <- get ;;
  match faults w with
  | [] => ret tt
  | b :: fs =>
      put (setFaults w fs) ;; if b then throw StoreFailure else ret tt
  end.

(** The next ObjectId of the driver: 12 bytes. *)
Definition newObjectId : M N :=
  w <- get ;;
  put (setOidNext w (S (oidNext w))) ;;
  ret (oidGen w (oidNext w) mod 2 ^ 96)%N.

Definition hasId (i : N) (d : Doc) : bool := N.eqb (_id d) i.

(** [collection.countDocuments(filter)]. *)
Definition countDocuments (c : jsstring) (filter : Doc -> bool) : M nat :=
  roundTrip ;;
  w <- get ;;
  ret (length (List.filter filter (coll w c))).

(** [collection.aggregate(pipeline).toArray()]: the pipeline is a function
    of the documents of the collection. *)
Definition aggregate {R} (c : jsstring) (pipeline : list Doc -> list R)
  : M (list R) :=
  roundTrip ;;
  w <- get ;;
  ret (pipeline (coll w c)).

(** [collection.find({})...toArray()]: the cursor options are a function of
    the documents in natural order. *)
Definition find (c : jsstring) (cursor : list Doc -> list Doc)
  : M (list Doc) :=
  roundTrip ;;
  w <- get ;;
  ret (cursor (coll w c)).

(** [collection.insertOne(doc)]: the driver gives the document its [_id],
    the store refuses an [_id] the collection already has.  The result is
    the [insertedId]. *)
Definition insertOne (c : jsstring) (b : Body) : M N :=
  i <- newObjectId ;;
  roundTrip ;;
  w <- get ;;
  if existsb (hasId i) (coll w c) then throw DuplicateKey
  else put (setStore w (<[c := coll w c ++ [mkDoc i None b]]> (store w))) ;;
       ret i.

(** [collection.insertMany(docs)], ordered: the driver gives every
    document its [_id] first, then the store inserts them in order and
    stops at the first one it refuses. *)
Fixpoint newObjectIds (n : nat) : M (list N) :=
  match n with
  | O => ret []
  | S n' => i <- newObjectId ;; ids <- newObjectIds n' ;; ret (i :: ids)
  end.

Fixpoint insertEach (c : jsstring) (ds : list Doc) : M unit :=
  match ds with
  | [] => ret tt
  | d :: ds' =>
      w <- get ;;
      if existsb (hasId (_id d)) (coll w c) then throw DuplicateKey
      else put (setStore w (<[c := coll w c ++ [d]]> (store w))) ;;
           insertEach c ds'
  end.

Definition insertMany (c : jsstring) (bs : list Body) : M unit :=
  ids <- newObjectIds (length bs) ;;
  roundTrip ;;
  insertEach c (map (fun '(i, b) => mkDoc i None b) (combine ids bs)).

(** The list without its first element satisfying [f], and how many were
    removed (0 or 1). *)
Fixpoint removeFirst (f : Doc -> bool) (ds : list Doc) : list Doc * nat :=
  match ds with
  | [] => ([], O)
  | d :: ds' =>
      if f d then (ds', 1%nat)
      else let '(r, n) := removeFirst f ds' in (d :: r, n)
  end.

(** [collection.deleteOne(filter)]: the result is the [deletedCount]. *)
Definition deleteOne (c : jsstring) (filter : Doc -> bool) : M nat :=
  roundTrip ;;
  w <- get ;;
  let '(r, n) := removeFirst filter (coll w c) in
  match n with
  | O => ret O
  | _ => put (setStore w (<[c := r]> (store w))) ;; ret n
  end.

(** [db.collection(name)]: a handle is the name of its collection. *)
Definition collection (name : jsstring) : jsstring := name.

(** [collection.findOne({}, { sort: { last_sync: -1 } })]: the first
    document in descending order of [last_sync], a missing stamp below
    every stamp. *)
Definition later (a b : option Z) : bool :=
  match a, b with
  | Some x, Some y => y <? x
  | Some _, None => true
  | None, _ => false
  end.

Fixpoint latestBy (best : Doc) (ds : list Doc) : Doc :=
  match ds with
  | [] => best
  | d :: ds' =>
      latestBy (if later (last_sync d) (last_sync best) then d else best) ds'
  end.

Definition findOneLatest (c : jsstring) : M (option Doc) :=
  roundTrip ;;
  w <- get ;;
  ret (match coll w c with
       | [] => None
       | d :: ds => Some (latestBy d ds)
       end).

(** [collection.updateOne(filter, { $set: .. }, { upsert: true })]: the
    first matching document is rewritten by [set]; when there is none, the
    document [fresh] is inserted under a new [_id]. *)
Fixpoint updateFirst (f : Doc -> bool) (set : Body -> Body) (ds : list Doc)
  : option (list Doc) :=
  match ds with
  | [] => None
  | d :: ds' =>
      if f d then Some (mkDoc (_id d) (last_sync d) (set (body d)) :: ds')
      else option_map (cons d) (updateFirst f set ds')
  end.

Definition updateOneUpsert (c : jsstring) (f : Doc -> bool)
           (set : Body -> Body) (fresh : Body) : M unit :=
  roundTrip ;;
  w <- get ;;
  match updateFirst f set (coll w c) with
  | Some ds => put (setStore w (<[c := ds]> (store w)))
  | None =>
      i <- newObjectId ;;
      w' <- get ;;
      if existsb (hasId i) (coll w' c) then throw DuplicateKey
      else put (setStore w' (<[c := coll w' c ++ [mkDoc i None fresh]]>
                               (store w')))
  end.

(** ** The record store accessor: [class Database] *)

Fixpoint str_eqb (a b : jsstring) : bool :=
  match a, b with
  | [], [] => true
  | x :: a', y :: b' => (N.eqb x y && str_eqb a' b')%bool
  | _, _ => false
  end.

(** [process.env.X || dflt]. *)
Definition envOr (o : option jsstring) (dflt : jsstring) : jsstring :=
  str_or o dflt.

(** [getCollection(collectionName)]. *)
Definition getCollection (collectionName : jsstring) : M jsstring :=
  w <- get ;;
  if (negb (dbHandle w) || negb (isConnected w))%bool
  then throw NotConnected
  else if negb (str_truthy (validateInput.string (VString collectionName) 50))
  then throw InvalidCollectionName
  else ret (collection collectionName).

(** *** Metrics aggregator: [getBotStats] *)

Record BotStats := mkBotStats {
  totalUsers : nat;
  todaysUsers : nat;
  totalBalance : number;
  todaysTransactions : nat;
  totalTransactions : nat;
  todaysNumbersSold : nat;
  totalNumbersSold : nat
}.

(** [today.setHours(0, 0, 0, 0)]: local midnight of the day of [t]. *)
Definition setHoursZero (offset t : Z) : Z :=
  t - (t + offset) mod 86400000.

(** [yesterday.setDate(yesterday.getDate() - 1)]: the same local time one
    calendar day earlier. *)
Definition setDateBack (t : Z) : Z := t - 86400000.

(** [{ $group: { _id: null, totalBalance: { $sum: "$balance" } } }]: no
    result for no document, else one result, the balances added up in
    natural order. *)
Definition groupSumBalance (ds : list Doc) : list number :=
  match ds with
  | [] => []
  | _ => [fold_left (fun acc d => num_add acc (docBalance d)) ds zero]
  end.

(** [{ $unwind: "$transaction_history" }]: the entries of every document,
    each document's own in their stored order. *)
Definition unwind (ds : list Doc) : list Transaction.t :=
  flat_map docTransactions ds.

(** [{ $match: .. }] and [{ $count: "count" }]; [$count] yields no
    result on no input. *)
Definition matchStage (p : Transaction.t -> bool) (ts : list Transaction.t)
  : list Transaction.t := List.filter p ts.

Definition countStage (ts : list Transaction.t) : list nat :=
  match ts with
  | [] => []
  | _ => [length ts]
  end.

(** [result.length > 0 ? result[0].field : 0]. *)
Definition firstOr {A} (l : list A) (dflt : A) : A :=
  match l with
  | x :: _ => x
  | [] => dflt
  end.

(** The [i] flag: the letters A to Z fold onto a to z, every other code
    unit is compared as it is. *)
Definition foldCase (c : N) : N :=
  if ((65 <=? c) && (c <=? 90))%N%bool then (c + 32)%N else c.

Fixpoint ci_prefix (pat s : jsstring) : bool :=
  match pat, s with
  | [], _ => true
  | _ :: _, [] => false
  | p :: pat', c :: s' =>
      (N.eqb (foldCase c) (foldCase p) && ci_prefix pat' s')%bool
  end.

(** A case-insensitive search of [pat] anywhere in [s]. *)
Fixpoint ci_search (pat s : jsstring) : bool :=
  (ci_prefix pat s ||
   match s with
   | [] => false
   | _ :: s' => ci_search pat s'
   end)%bool.

(** [{ $regex: /number|purchase|bought/i }]. *)
Definition purchaseWords : list jsstring :=
  [str "number"; str "purchase"; str "bought"].

Definition regexPurchase (reason : jsstring) : bool :=
  existsb (fun word => ci_search word reason) purchaseWords.

(** The [$match] of the number purchases:
    [type: "debit", reason: { $regex: .. }]. *)
Definition isNumberPurchase (t : Transaction.t) : bool :=
  (str_eqb (Transaction.type t) (str "debit")
   && regexPurchase (Transaction.reason t))%bool.

(** [created_at: { $gte: since }]. *)
Definition txSince (since : Z) (t : Transaction.t) : bool :=
  since <=? Transaction.created_at t.

Definition docSince (since : Z) (d : Doc) : bool :=
  match docCreatedAt d with
  | Some t => since <=? t
  | None => false
  end.

Definition everyDoc (d : Doc) : bool := true.

(** The object of the [catch] branch. *)
Definition zeroStats : BotStats := mkBotStats 0 0 zero 0 0 0 0.

(** The [try] block of [getBotStats]. *)
Definition getBotStats_try : M BotStats :=
  w <- get ;;
  usersCollection <-
    getCollection (envOr (MONGODB_COLLECTION (env w)) (str "users")) ;;
  totalUsers <- countDocuments usersCollection everyDoc ;;
  today <- newDate ;;
  let today := setHoursZero (tzOffset (env w)) today in
  todaysUsers <- countDocuments usersCollection (docSince today) ;;
  balanceResult <- aggregate usersCollection groupSumBalance ;;
  let totalBalance := firstOr balanceResult zero in
  yesterday <- newDate ;;
  let yesterday := setDateBack yesterday in
  recentTransactions <-
    aggregate usersCollection
      (fun ds => countStage (matchStage (txSince yesterday) (unwind ds))) ;;
  let todaysTransactions := firstOr recentTransactions O in
  numberPurchases <-
    aggregate usersCollection
      (fun ds => countStage (matchStage isNumberPurchase (unwind ds))) ;;
  let totalNumbersSold := firstOr numberPurchases O in
  todaysNumberPurchases <-
    aggregate usersCollection
      (fun ds => countStage
                   (matchStage
                      (fun t => (isNumberPurchase t && txSince yesterday t)%bool)
                      (unwind ds))) ;;
  let todaysNumbersSold := firstOr todaysNumberPurchases O in
  ret {| totalUsers := totalUsers;
         todaysUsers := todaysUsers;
         totalBalance := parseFloat (toFixed totalBalance 2);
         todaysTransactions := todaysTransactions;
         totalTransactions := 0;
         todaysNumbersSold := todaysNumbersSold;
         totalNumbersSold := totalNumbersSold |}.

(** [getBotStats()]. *)
Definition getBotStats : M BotStats :=
  try_catch getBotStats_try (fun _ => ret zeroStats).

(** *** The composed snapshot: [getDashboardData] *)

Record DashboardData := mkDashboardData {
  dd_todaysEarnings : jsstring;
  dd_totalEarnings : jsstring;
  dd_todaysUsers : nat;
  dd_totalUsers : nat;
  dd_todaysSold : nat;
  dd_totalSold : nat;
  dd_topServices : list Doc;
  dd_serverCount : nat;
  dd_serviceCount : nat;
  dd_createdAt : Z;
  dd_updatedAt : Z
}.

(** The rupee sign, one code unit. *)
Definition rupee : N := 8377%N.

(** [a] sorts strictly below [b] in the order of the store: a missing
    field below every number, [NaN] below every other number. *)
Definition usersBelow (a b : option number) : bool :=
  match a, b with
  | None, Some _ => true
  | Some x, Some y =>
      (isNaN x && negb (isNaN y) || SFltb x y)%bool
  | _, None => false
  end.

(** [.sort({ users: -1 })]: descending, documents of equal key in natural
    order. *)
Fixpoint insertDesc (d : Doc) (sorted : list Doc) : list Doc :=
  match sorted with
  | [] => [d]
  | x :: rest =>
      if usersBelow (docUsers x) (docUsers d) then d :: x :: rest
      else x :: insertDesc d rest
  end.

Definition sortUsersDesc (ds : list Doc) : list Doc :=
  fold_left (fun acc d => insertDesc d acc) ds [].

(** The [try] block of [getDashboardData]. *)
Definition getDashboardData_try : M DashboardData :=
  botStats <- getBotStats ;;
  servicesCollection <- getCollection (str "services") ;;
  serversCollection <- getCollection (str "servers") ;;
  topServices <-
    find servicesCollection (fun ds => firstn 3 (sortUsersDesc ds)) ;;
  serverCount <- countDocuments serversCollection everyDoc ;;
  serviceCount <- countDocuments servicesCollection everyDoc ;;
  createdAt <- newDate ;;
  updatedAt <- newDate ;;
  ret {| dd_todaysEarnings := rupee :: toFixed (totalBalance botStats) 2;
         dd_totalEarnings := rupee :: toFixed (totalBalance botStats) 2;
         dd_todaysUsers := todaysUsers botStats;
         dd_totalUsers := totalUsers botStats;
         dd_todaysSold := todaysNumbersSold botStats;
         dd_totalSold := totalNumbersSold botStats;
         dd_topServices := topServices;
         dd_serverCount := serverCount;
         dd_serviceCount := serviceCount;
         dd_createdAt := createdAt;
         dd_updatedAt := updatedAt |}.

(** The object of the [catch] branch, but for its two dates. *)
Definition fallbackData (createdAt updatedAt : Z) : DashboardData :=
  {| dd_todaysEarnings := [rupee; 48%N];
     dd_totalEarnings := [rupee; 48%N];
     dd_todaysUsers := 0;
     dd_totalUsers := 0;
     dd_todaysSold := 0;
     dd_totalSold := 0;
     dd_topServices := [];
     dd_serverCount := 0;
     dd_serviceCount := 0;
     dd_createdAt := createdAt;
     dd_updatedAt := updatedAt |}.

(** [getDashboardData()]. *)
Definition getDashboardData : M DashboardData :=
  try_catch getDashboardData_try
    (fun _ =>
       createdAt <- newDate ;;
       updatedAt <- newDate ;;
       ret (fallbackData createdAt updatedAt)).

(** *** Servers: [addServer], [deleteServer] *)

(** The argument of [addServer]: an object whose fields hold any value. *)
Record ServerData := mkServerData {
  sd_server_name : value;
  sd_country : value;
  sd_flag : value;
  sd_status : value;
  sd_description : value
}.

(** The result of [insertOne] and of [deleteOne]. *)
Record InsertOneResult := mkInsertOneResult { insertedId : N }.
Record DeleteResult := mkDeleteResult { deletedCount : nat }.

(** [addServer(serverData)]; its [catch] logs and throws the error again. *)
Definition addServer (serverData : ServerData) : M InsertOneResult :=
  try_catch
    (let server_name := validateInput.string (sd_server_name serverData) 100 in
     let country := validateInput.string (sd_country serverData) 10 in
     let flag := validateInput.string (sd_flag serverData) 50 in
     let status :=
       str_or (validateInput.string (sd_status serverData) 20) (str "active") in
     let description :=
       str_or (validateInput.string (sd_description serverData) 500) [] in
     if (negb (str_truthy server_name) || negb (str_truthy country)
         || negb (str_truthy flag))%bool
     then throw InvalidServerData
     else
       serversCollection <- getCollection (str "servers") ;;
       createdAt <- newDate ;;
       updatedAt <- newDate ;;
       i <- insertOne serversCollection
              (BServer (Server.mk (str_or server_name []) (str_or country [])
                                  (str_or flag []) status description
                                  createdAt updatedAt)) ;;
       ret (mkInsertOneResult i))
    (fun error => throw error).

(** [new ObjectId(hex)] on 24 hexadecimal digits: the 12 bytes they
    spell. *)
Definition ObjectId (hex : jsstring) : N :=
  Z.to_N (digitsValue 16 (spanHexDigits hex)).

Definition hexChar (d : N) : N :=
  if (d <? 10)%N then (48 + d)%N else (87 + d)%N.

Fixpoint hexDigitsOf (k : nat) (n : N) : jsstring :=
  match k with
  | O => []
  | S k' => hexDigitsOf k' (n / 16)%N ++ [hexChar (n mod 16)%N]
  end.

(** [objectId.toHexString()]: 24 lower-case hexadecimal digits. *)
Definition toHexString (oid : N) : jsstring := hexDigitsOf 24 oid.

(** [deleteServer(id)]; its [catch] logs and throws the error again. *)
Definition deleteServer (id : value) : M DeleteResult :=
  try_catch
    (match validateInput.objectId id with
     | None => throw InvalidServerId
     | Some validatedId =>
         serversCollection <- getCollection (str "servers") ;;
         let objectId := ObjectId validatedId in
         n <- deleteOne serversCollection (hasId objectId) ;;
         ret (mkDeleteResult n)
     end)
    (fun error => throw error).

(** *** Dashboard cache updater: [updateDashboardStats] *)

(** [service.users || 0]. *)
Definition usersOrZero (service : Doc) : number :=
  match docUsers service with
  | Some x => if num_truthy x then x else zero
  | None => zero
  end.

(** [parseFloat(service.price?.replace(rupee, empty) || 0)]: an absent
    price and a price that is nothing but the sign read as 0; a price
    that is not a string has no [replace] method. *)
Definition priceOf (service : Doc) : Result number :=
  match docPrice service with
  | VUndefined | VNull => Returned zero
  | VString s =>
      match replaceFirst [rupee] s with
      | [] => Returned zero
      | r => Returned (parseFloat r)
      end
  | _ => Thrown TypeError
  end.

(** The reducer of the earnings: [sum + price * users]. *)
Definition addEarnings (sum : number) (service : Doc) : Result number :=
  match priceOf service with
  | Returned price => Returned (num_add sum (num_mul price (usersOrZero service)))
  | Thrown e => Thrown e
  end.

(** [services.reduce(reducer, 0)], for a reducer that may throw. *)
Fixpoint reduce (f : number -> Doc -> Result number) (services : list Doc)
         (sum : number) : Result number :=
  match services with
  | [] => Returned sum
  | service :: rest =>
      match f sum service with
      | Returned sum' => reduce f rest sum'
      | Thrown e => Thrown e
      end
  end.

Definition totalEarningsOf (services : list Doc) : Result number :=
  reduce addEarnings services zero.

Definition totalUsersOf (services : list Doc) : number :=
  fold_left (fun sum service => num_add sum (usersOrZero service)) services zero.

Definition lift {A} (r : Result A) : M A :=
  match r with
  | Returned a => ret a
  | Thrown e => throw e
  end.

(** [parseInt(process.env.X) || 0]. *)
Definition parseIntOrZero (o : option jsstring) : number :=
  let x := parseInt o in if num_truthy x then x else zero.

Definition isDashboard (d : Doc) : bool :=
  match docType d with
  | Some t => str_eqb t (str "dashboard")
  | None => false
  end.

(** [updateDashboardStats()]; its [catch] logs and throws the error
    again. *)
Definition updateDashboardStats : M bool :=
  try_catch
    (w <- get ;;
     servicesCollection <- getCollection (str "services") ;;
     serversCollection <- getCollection (str "servers") ;;
     statsCollection <- getCollection (str "stats") ;;
     totalServices <- countDocuments servicesCollection everyDoc ;;
     totalServers <- countDocuments serversCollection everyDoc ;;
     services <- find servicesCollection (fun ds => ds) ;;
     let totalUsers := totalUsersOf services in
     totalEarnings <- lift (totalEarningsOf services) ;;
     updatedAt <- newDate ;;
     let stats :=
       Stats.mk (str "dashboard")
                (envOr (DEFAULT_TODAYS_EARNINGS (env w)) [rupee; 48%N])
                (rupee :: toFixed totalEarnings 2)
                (parseIntOrZero (DEFAULT_TODAYS_USERS (env w)))
                totalUsers
                (parseIntOrZero (DEFAULT_TODAYS_SOLD (env w)))
                totalServices
                updatedAt in
     updateOneUpsert statsCollection isDashboard
                     (fun _ => BStats stats) (BStats stats) ;;
     ret true)
    (fun error => throw error).

(** *** Flags: [getFlags] *)

Definition defaultFlags (t : Z) : list Body :=
  [ BFlag (Flag.mk (str "India") [55356; 56814; 55356; 56819]%N t t);
    BFlag (Flag.mk (str "USA") [55356; 56826; 55356; 56824]%N t t);
    BFlag (Flag.mk (str "UK") [55356; 56812; 55356; 56807]%N t t);
    BFlag (Flag.mk (str "Canada") [55356; 56808; 55356; 56806]%N t t);
    BFlag (Flag.mk (str "Australia") [55356; 56806; 55356; 56826]%N t t) ].

(** [flagsObject[flag.country] = flag.flag] on a plain object: the key is
    the country as a string; the key [__proto__] is the inherited
    accessor, which ignores a value that is not an object. *)
Definition assignFlag (flagsObject : gmap (list N) (option (list N)))
           (flag : Body) : gmap (list N) (option (list N)) :=
  let key := match fieldCountry flag with
             | Some s => s
             | None => str "undefined"
             end in
  if str_eqb key (str "__proto__") then flagsObject
  else <[key := fieldFlag flag]> flagsObject.

(** [getFlags()]; its [catch] logs and throws the error again. *)
Definition getFlags : M (gmap (list N) (option (list N))) :=
  try_catch
    (flagsCollection <- getCollection (str "flags") ;;
     found <- find flagsCollection (fun ds => ds) ;;
     flags <-
       match found with
       | [] =>
           t <- newDate ;;
           insertMany flagsCollection (defaultFlags t) ;;
           ret (defaultFlags t)
       | _ => ret (map body found)
       end ;;
     ret (fold_left assignFlag flags empty))
    (fun error => throw error).

(** ** The sync status reporter: [api/sync-status.js] *)

Record KindStatus := mkKindStatus {
  bot : nat;
  website : nat;
  synced : bool;
  ks_last_sync : option Z
}.

Record SyncData := mkSyncData {
  sy_users : KindStatus;
  sy_services : KindStatus;
  sy_servers : KindStatus;
  overall_sync : bool;
  timestamp : Z
}.

(** [{ success: true, data }] or [{ success: false, error, data: null }]. *)
Inductive SyncReport : Type :=
  | Success (data : SyncData)
  | Failure (error : Error).

(** [connectToDatabase()]: a client of its own, whose connecting is a
    round trip; its [catch] logs and throws the error again. *)
Definition connectToDatabase : M unit :=
  try_catch roundTrip (fun error => throw error).

(** [client.close()]. *)
Definition closeClient : M unit := ret tt.

(** [lastSync?.last_sync || null]. *)
Definition lastSyncOf (o : option Doc) : option Z :=
  match o with
  | Some d => last_sync d
  | None => None
  end.

(** The [try] block of [getSyncStatus].  The six counts are awaited
    together; the error of the first that fails is the error of all. *)
Definition getSyncStatus_try : M SyncReport :=
  w <- get ;;
  connectToDatabase ;;
  let botUsersCollection :=
    collection (envOr (MONGODB_COLLECTION (env w)) (str "users")) in
  let botServicesCollection := collection (str "services") in
  let botServersCollection := collection (str "servers") in
  let websiteUsersCollection := collection (str "website_users") in
  let websiteServicesCollection := collection (str "services") in
  let websiteServersCollection := collection (str "servers") in
  botUsersCount <- countDocuments botUsersCollection everyDoc ;;
  botServicesCount <- countDocuments botServicesCollection everyDoc ;;
  botServersCount <- countDocuments botServersCollection everyDoc ;;
  websiteUsersCount <- countDocuments websiteUsersCollection everyDoc ;;
  websiteServicesCount <- countDocuments websiteServicesCollection everyDoc ;;
  websiteServersCount <- countDocuments websiteServersCollection everyDoc ;;
  let usersSynced := Nat.eqb botUsersCount websiteUsersCount in
  let servicesSynced := Nat.eqb botServicesCount websiteServicesCount in
  let serversSynced := Nat.eqb botServersCount websiteServersCount in
  lastUserSync <- findOneLatest websiteUsersCollection ;;
  lastServiceSync <- findOneLatest websiteServicesCollection ;;
  lastServerSync <- findOneLatest websiteServersCollection ;;
  timestamp <- newDate ;;
  ret (Success
         {| sy_users :=
              mkKindStatus botUsersCount websiteUsersCount usersSynced
                           (lastSyncOf lastUserSync);
            sy_services :=
              mkKindStatus botServicesCount websiteServicesCount
                           servicesSynced (lastSyncOf lastServiceSync);
            sy_servers :=
              mkKindStatus botServersCount websiteServersCount
                           serversSynced (lastSyncOf lastServerSync);
            overall_sync :=
              (usersSynced && servicesSynced && serversSynced)%bool;
            timestamp := timestamp |}).

(** [getSyncStatus()]: an error is reported, not thrown, and the client
    is closed either way. *)
Definition getSyncStatus : M SyncReport :=
  try_finally
    (try_catch getSyncStatus_try (fun error => ret (Failure error)))
    closeClient.

(** ** What the specification says, in its own words *)

(** The characters the sanitizer strips. *)
Definition strippedChars : list N := [60; 62; 34; 39; 38]%N.

(** [stripped s r]: [r] is [s] with every occurrence of a stripped
    character removed, and nothing else changed. *)
Inductive stripped : list N -> list N -> Prop :=
  | stripped_nil : stripped [] []
  | stripped_drop c s r :
      In c strippedChars -> stripped s r -> stripped (c :: s) r
  | stripped_keep c s r :
      ~ In c strippedChars -> stripped s r -> stripped (c :: s) (c :: r).


(** The name of the collection of the bot's users. *)
Definition usersName (w : World) : list N :=
  envOr (MONGODB_COLLECTION (env w)) (str "users").

(** The name of the users collection passes [getCollection]. *)
Definition nameOk (w : World) : Prop :=
  str_truthy (validateInput.string (VString (usersName w)) 50) = true.

(** The connection of the accessor is established. *)
Definition connected (w : World) : Prop :=
  dbHandle w = true /\ isConnected w = true.

(** None of the next [n] round trips fails. *)
Definition noFaultIn (n : nat) (w : World) : Prop :=
  existsb (fun b => b) (firstn n (faults w)) = false.

(** The metrics of section 4.3, computed from the users of the store:
    the number of users, of users created since local midnight, the sum
    of the balances rounded to two decimals, the number of transaction
    entries of the trailing 24 hours, of number purchases, and of number
    purchases of the trailing 24 hours. *)
Definition metricsOf (w : World) : BotStats :=
  let ds := coll w (usersName w) in
  let ts := flat_map docTransactions ds in
  {| totalUsers := length ds;
     todaysUsers :=
       length (List.filter
                 (docSince (setHoursZero (tzOffset (env w)) (now w))) ds);
     totalBalance :=
       parseFloat
         (toFixed (fold_left (fun acc d => num_add acc (docBalance d)) ds zero)
                  2);
     todaysTransactions :=
       length (List.filter (txSince (setDateBack (now w))) ts);
     totalTransactions := 0;
     todaysNumbersSold :=
       length (List.filter
                 (fun t => (isNumberPurchase t
                            && txSince (setDateBack (now w)) t)%bool) ts);
     totalNumbersSold := length (List.filter isNumberPurchase ts) |}.

(** Reads leave everything but the fault plan as it is. *)
Definition sameData (w w' : World) : Prop :=
  exists fs, w' = setFaults w fs.

(** [reads m]: the operation [m] only reads. *)
Definition reads {A} (m : M A) : Prop :=
  forall w r w', m w = (r, w') -> sameData w w'.

(** The three kinds of a report. *)
Definition kinds (data : SyncData) : list KindStatus :=
  [sy_users data; sy_services data; sy_servers data].

(** A field that passes the check of [addServer]: the sanitizer accepts
    it and leaves at least one character. *)
Definition validField (v : value) (maxLength : nat) : Prop :=
  str_truthy (validateInput.string v maxLength) = true.

Definition validServerData (serverData : ServerData) : Prop :=
  validField (sd_server_name serverData) 100
  /\ validField (sd_country serverData) 10
  /\ validField (sd_flag serverData) 50.

(** The ObjectId the driver generates next, and the next [n] of them. *)
Definition nextId (w : World) : N := (oidGen w (oidNext w) mod 2 ^ 96)%N.

Definition nextIds (n : nat) (w : World) : list N :=
  map (fun k => (oidGen w (oidNext w + k) mod 2 ^ 96)%N) (seq 0 n).

(** The collection [c] has no document of the next ObjectId. *)
Definition nextIdFresh (w : World) (c : list N) : Prop :=
  existsb (hasId (nextId w)) (coll w c) = false.

(** The object [getFlags] builds from the documents [ds]. *)
Definition flagsObjectOf (ds : list Doc) : gmap (list N) (option (list N)) :=
  fold_left assignFlag (map body ds) empty.

(** [stats.totalEarnings] of the documents of a collection. *)
Definition cachedTotalEarnings (ds : list Doc) : list (list N) :=
  flat_map (fun d => match body d with
                     | BStats s => [Stats.totalEarnings s]
                     | _ => []
                     end) ds.

(** ** Sample states *)

Definition env0 : Env := mkEnv None None None None 0.

Definition gen0 (n : nat) : N := (N.of_nat n + 4096)%N.

(** A world with the default environment: a connection that is
    established or not, a store and a fault plan. *)
Definition world0 (up : bool) (st : gmap (list N) (list Doc))
           (fs : list bool) : World :=
  mkWorld up up st fs gen0 0 1700000000000 env0.

Definition storeOf (c : list N) (ds : list Doc) : gmap (list N) (list Doc) :=
  <[c := ds]> empty.

Definition emptyWorld : World := world0 true empty [].

(** A numeric literal: the double nearest to its decimal value. *)
Definition lit (s : string) : number := parseFloat (str s).

Definition user (b : number) : Body := BUser (User.mk b 0 []).

(** The balances of the scenario of section 8, and its three users. *)
Definition scenarioBalances : list number :=
  [lit "10.005"; lit "0"; lit "-5"].

Definition threeUsers : list Doc :=
  [mkDoc 1 None (user (lit "10.005")); mkDoc 2 None (user (lit "0"));
   mkDoc 3 None (user (lit "-5"))].

(** The three users on an established connection, and on a connection
    that was never established. *)
Definition scenarioWorld : World :=
  world0 true (storeOf (str "users") threeUsers) [].

Definition disconnectedWorld : World :=
  world0 false (storeOf (str "users") threeUsers) [].

(** A service with a price and a number of users. *)
Definition service (price : value) (n : number) : Body :=
  BService (Service.mk (str "otp") price (Some n)).

Definition twoServices : list Doc :=
  [mkDoc 11 None (service (VString (rupee :: str "20")) (lit "7"));
   mkDoc 12 None (service (VString (rupee :: str "150")) (lit "4"))].

(** An established connection whose next round trip, the first read of
    [getBotStats], fails; every later one succeeds. *)
Definition transientWorld : World :=
  world0 true (storeOf (str "services") twoServices) [true].

(** The service of the scenario of section 8: price [rupee 150], 4 users. *)
Definition wellFormedService : Doc :=
  mkDoc 32 None (service (VString (rupee :: str "150")) (lit "4")).

(** What the add-service form stores for the price entries [abc] and
    [rupee 150]: the route prefixes the entry with the rupee sign. *)
Definition nonNumericService : Doc :=
  mkDoc 31 None (service (VString (rupee :: str "abc")) (lit "2")).

Definition doubleSignService : Doc :=
  mkDoc 33 None (service (VString (rupee :: rupee :: str "150")) (lit "1")).

(** Two services, the first with a price that is not numeric. *)
Definition malformedServices : list Doc :=
  [nonNumericService; wellFormedService].

Definition malformedWorld : World :=
  world0 true (storeOf (str "services") malformedServices) [].

(** [n] documents, numbered from [i]. *)
Fixpoint someUsers (n : nat) (i : N) : list Doc :=
  match n with
  | O => []
  | S n' => mkDoc i None (user zero) :: someUsers n' (i + 1)%N
  end.

(** Five users of the bot and four users of the website. *)
Definition unsyncedWorld : World :=
  world0 true (<[str "website_users" := someUsers 4 100]>
                 (storeOf (str "users") (someUsers 5 1))) [].

(** A store that also holds three services, stamped at 50, at 70 and
    not at all, and two servers, of which the second is stamped. *)
Definition stampedServices : list Doc :=
  [mkDoc 21 (Some 50%Z) (service (VString (rupee :: str "20")) (lit "7"));
   mkDoc 22 (Some 70%Z) (service (VString (rupee :: str "150")) (lit "4"));
   mkDoc 23 None (service (VString (rupee :: str "5")) (lit "1"))].

Definition server (name : string) : Body :=
  BServer (Server.mk (str name) (str "IN") (str "flag") (str "active") []
                     0 0).

Definition twoServers : list Doc :=
  [mkDoc 7 None (server "Mumbai"); mkDoc 9 (Some 30%Z) (server "Pune")].

Definition stockedWorld : World :=
  world0 true
    (<[str "servers" := twoServers]>
       (<[str "services" := stampedServices]>
          (<[str "website_users" := someUsers 4 100]>
             (storeOf (str "users") (someUsers 5 1))))) [].

(** A server form whose name is made of stripped characters only, and
    one that is well formed. *)
Definition emptyNameData : ServerData :=
  mkServerData (VString (str "<>")) (VString (str "IN"))
               (VString [55356; 56814; 55356; 56819]%N) VUndefined VUndefined.

Definition goodServerData : ServerData :=
  mkServerData (VString (str "Mumbai 1")) (VString (str "IN"))
               (VString [55356; 56814; 55356; 56819]%N) VUndefined VUndefined.

(** A store with one flag. *)
Definition oneFlag : list Doc :=
  [mkDoc 21 None
         (BFlag (Flag.mk (str "Nepal") [55356; 56819; 55356; 56821]%N 5 5))].

Definition flagWorld : World := world0 true (storeOf (str "flags") oneFlag) [].


(** ** More of the validation utilities *)

(** The class of the e-mail pattern: any character but white space and
    the at sign (code unit 64). *)
Definition emailChar (c : N) : bool := negb (isWhiteSpace c || N.eqb c 64).

(** The longest run of [emailChar] at the start of [s], and the rest. *)
Fixpoint spanEmail (s : jsstring) : jsstring * jsstring :=
  match s with
  | c :: s' =>
      if emailChar c
      then let '(l, r) := spanEmail s' in (c :: l, r)
      else ([], s)
  | [] => ([], [])
  end.

(** [d] has a point (code unit 46) that is neither its first nor its
    last character. *)
Definition hasInnerDot (d : jsstring) : bool :=
  match d with
  | [] => false
  | _ :: t => existsb (N.eqb 46) (removelast t)
  end.

(** The test of the e-mail pattern, anchored at both ends: a run of the
    class, an at sign, a run of the class, a point, a run of the class.
    The first run cannot pass an at sign, so it is the longest one. *)
Definition emailRegex (s : jsstring) : bool :=
  match spanEmail s with
  | (_ :: _, 64%N :: d) => (forallb emailChar d && hasInnerDot d)%bool
  | _ => false
  end.

(** [validateInput.email(value)]. *)
Definition validateInput_email (v : value) : option jsstring :=
  if negb (truthy v) then None
  else match v with
       | VString s => if emailRegex s then Some s else None
       | _ => None
       end.

(** A hexadecimal digit in lower case. *)
Definition toLowerHex (c : N) : N :=
  if ((65 <=? c) && (c <=? 70))%N%bool then (c + 32)%N else c.

Definition toUpperHex (c : N) : N :=
  if ((97 <=? c) && (c <=? 102))%N%bool then (c - 32)%N else c.
(** [parseFloat(value)] on any value: the argument is first turned into a
    string.  [undefined], [null] and the booleans spell no number.  A
    number is spelt by the shortest decimal that reads back as itself, so
    it reads back as itself, but for [-0], which is spelt [0].  An
    ObjectId is spelt by its hexadecimal string. *)
Definition parseFloatOf (v : value) : number :=
  match v with
  | VUndefined | VNull | VBoolean _ => NaN
  | VNumber (S754_zero _) => zero
  | VNumber x => x
  | VString s => parseFloat s
  | VObjectId i => parseFloat (toHexString i)
  end.

(** [validateInput.number(value)]. *)
Definition validateInput_number (v : value) : option number :=
  let num := parseFloatOf v in
  if isNaN num then None else Some num.

(** The trimmed string starts, after an optional sign, with [Infinity],
    with a digit, or with a point and a digit. *)
Definition numericPrefix (s : jsstring) : bool :=
  let '(_, s1) := spanSign (trimStart s) in
  (prefix_eqb (str "Infinity") s1
   || match s1 with
      | c :: r =>
          (isDigit c
           || N.eqb c 46 && match r with
                            | c' :: _ => isDigit c'
                            | [] => false
                            end)
      | [] => false
      end)%bool.

(** ** More of the record store accessor *)

(** [collection.deleteMany(filter)]: the result is the [deletedCount]. *)
Definition deleteMany (c : jsstring) (filter : Doc -> bool) : M nat :=
  roundTrip ;;
  w <- get ;;
  let kept := List.filter (fun d => negb (filter d)) (coll w c) in
  match (length (coll w c) - length kept)%nat with
  | O => ret O
  | n => put (setStore w (<[c := kept]> (store w))) ;; ret n
  end.

(** [getServers()], [getServices()], [getUsers()]; each [catch] logs and
    throws the error again.  [getUsers] reads the collection named
    [users], whatever the environment names. *)
Definition getServers : M (list Doc) :=
  try_catch
    (serversCollection <- getCollection (str "servers") ;;
     find serversCollection (fun ds => ds))
    (fun error => throw error).

Definition getServices : M (list Doc) :=
  try_catch
    (servicesCollection <- getCollection (str "services") ;;
     find servicesCollection (fun ds => ds))
    (fun error => throw error).

Definition getUsers : M (list Doc) :=
  try_catch
    (usersCollection <- getCollection (str "users") ;;
     find usersCollection (fun ds => ds))
    (fun error => throw error).

(** [deleteAllServers()]. *)
Definition deleteAllServers : M DeleteResult :=
  try_catch
    (serversCollection <- getCollection (str "servers") ;;
     n <- deleteMany serversCollection everyDoc ;;
     ret (mkDeleteResult n))
    (fun error => throw error).

(** [addService(serviceData)]: the data is stored as it comes, without
    validation.  The two dates the method adds are not among the fields
    a service document is read for, and the document shape leaves them
    out. *)
Definition addService (serviceData : Service.t) : M InsertOneResult :=
  try_catch
    (servicesCollection <- getCollection (str "services") ;;
     createdAt <- newDate ;;
     updatedAt <- newDate ;;
     i <- insertOne servicesCollection (BService serviceData) ;;
     ret (mkInsertOneResult i))
    (fun error => throw error).

(** The argument of [addFlag]: what the flag routes build. *)
Record FlagData := mkFlagData {
  fd_country : jsstring;
  fd_flag : jsstring
}.

(** [addFlag(flagData)]. *)
Definition addFlag (flagData : FlagData) : M InsertOneResult :=
  try_catch
    (flagsCollection <- getCollection (str "flags") ;;
     createdAt <- newDate ;;
     updatedAt <- newDate ;;
     i <- insertOne flagsCollection
            (BFlag (Flag.mk (fd_country flagData) (fd_flag flagData)
                            createdAt updatedAt)) ;;
     ret (mkInsertOneResult i))
    (fun error => throw error).

(** [updateFlags(flagsData)]: the argument is an object whose values
    are strings, given by its entries in the order of [Object.entries];
    the result stands for the object [{ success: true, message }]. *)
Definition updateFlags (flagsData : list (jsstring * jsstring)) : M bool :=
  try_catch
    (flagsCollection <- getCollection (str "flags") ;;
     deleteMany flagsCollection everyDoc ;;
     t <- newDate ;;
     let flagsArray :=
       map (fun '(country, flag) => BFlag (Flag.mk country flag t t))
           flagsData in
     match flagsArray with
     | [] => ret true
     | _ => insertMany flagsCollection flagsArray ;; ret true
     end)
    (fun error => throw error).

(** [clearDashboardStats()]: whether a document was removed. *)
Definition clearDashboardStats : M bool :=
  try_catch
    (statsCollection <- getCollection (str "stats") ;;
     n <- deleteOne statsCollection isDashboard ;;
     ret (0 <? n)%nat)
    (fun error => throw error).

(** [w'] differs from [w] in the collection [c] at most, and in what the
    driver uses up: the fault plan and the ObjectIds handed out. *)
Definition touchesOnly (c : list N) (w w' : World) : Prop :=
  (forall c', c' <> c -> coll w' c' = coll w c')
  /\ now w' = now w /\ env w' = env w
  /\ dbHandle w' = dbHandle w /\ isConnected w' = isConnected w
  /\ oidGen w' = oidGen w.
(** The dashboard document [updateDashboardStats] writes, for total
    earnings [e]: the totals of the services of the store, the defaults of
    the environment and the time of the call. *)
Definition statsOf (w : World) (e : number) : Stats.t :=
  Stats.mk (str "dashboard")
           (envOr (DEFAULT_TODAYS_EARNINGS (env w)) [rupee; 48%N])
           (rupee :: toFixed e 2)
           (parseIntOrZero (DEFAULT_TODAYS_USERS (env w)))
           (totalUsersOf (coll w (str "services")))
           (parseIntOrZero (DEFAULT_TODAYS_SOLD (env w)))
           (length (coll w (str "services")))
           (now w).

(** The world at another time. *)
Definition setNow (w : World) (t : Z) : World :=
  mkWorld (dbHandle w) (isConnected w) (store w) (faults w) (oidGen w)
          (oidNext w) t (env w).

(** A document without the time of its last update. *)
Definition eraseUpdatedAt (d : Doc) : Doc :=
  match body d with
  | BStats s =>
      mkDoc (_id d) (last_sync d)
            (BStats (Stats.mk (Stats.type s) (Stats.todaysEarnings s)
                              (Stats.totalEarnings s) (Stats.todaysUsers s)
                              (Stats.totalUsers s) (Stats.todaysSold s)
                              (Stats.totalSold s) 0))
  | _ => d
  end.

(** ** The handler of [api/sync-status.js] *)

(** What the handler sends: nothing ([res.status(200).end()]), the
    object [{ error: Method not allowed }], the report of
    [getSyncStatus], or the object of its own [catch]. *)
Inductive SyncBody : Type :=
  | NoBody
  | MethodNotAllowed
  | Report (result : SyncReport)
  | InternalError (error : Error).

Record SyncResponse := mkSyncResponse {
  sr_headers : list (jsstring * jsstring);
  sr_status : nat;
  sr_body : SyncBody
}.

(** The three headers set on every answer. *)
Definition corsHeaders : list (jsstring * jsstring) :=
  [ (str "Access-Control-Allow-Origin", str "*");
    (str "Access-Control-Allow-Methods", str "GET, POST, OPTIONS");
    (str "Access-Control-Allow-Headers", str "Content-Type") ].

(** [module.exports = async (req, res) => ..], as a function of
    [req.method]. *)
Definition syncStatusHandler (method : jsstring) : M SyncResponse :=
  if str_eqb method (str "OPTIONS")
  then ret (mkSyncResponse corsHeaders 200 NoBody)
  else if negb (str_eqb method (str "GET"))
  then ret (mkSyncResponse corsHeaders 405 MethodNotAllowed)
  else
    try_catch
      (result <- getSyncStatus ;;
       match result with
       | Success _ => ret (mkSyncResponse corsHeaders 200 (Report result))
       | Failure _ => ret (mkSyncResponse corsHeaders 500 (Report result))
       end)
      (fun error => ret (mkSyncResponse corsHeaders 500 (InternalError error))).

(** The stamps of the documents of a collection, and [o] being the
    latest of them: [None] when there is none. *)
Definition stampsOf (ds : list Doc) : list Z :=
  flat_map (fun d => match last_sync d with
                     | Some t => [t]
                     | None => []
                     end) ds.

Definition latestOf (o : option Z) (stamps : list Z) : Prop :=
  match o with
  | Some t => In t stamps /\ Forall (fun x => x <= t)%Z stamps
  | None => stamps = []
  end.

(** The first document in descending order of [last_sync]. *)
Definition firstLatest (ds : list Doc) : option Doc :=
  match ds with
  | [] => None
  | d :: ds' => Some (latestBy d ds')
  end.

(** The report of a store all of whose reads succeed. *)
Definition reportOf (w : World) : SyncData :=
  let users := length (coll w (usersName w)) in
  let website_users := length (coll w (str "website_users")) in
  let services := length (coll w (str "services")) in
  let servers := length (coll w (str "servers")) in
  {| sy_users :=
       mkKindStatus users website_users (Nat.eqb users website_users)
         (lastSyncOf (firstLatest (coll w (str "website_users"))));
     sy_services :=
       mkKindStatus services services (Nat.eqb services services)
         (lastSyncOf (firstLatest (coll w (str "services"))));
     sy_servers :=
       mkKindStatus servers servers (Nat.eqb servers servers)
         (lastSyncOf (firstLatest (coll w (str "servers"))));
     overall_sync :=
       (Nat.eqb users website_users && Nat.eqb services services
        && Nat.eqb servers servers)%bool;
     timestamp := now w |}.

(** ** The routes of [server-optimized.js] that write servers *)

(** What a route answers: the HTTP status (200 when the route sets
    none) and the fields [status], [message] and [data] of the body. *)
Record Response := mkResponse {
  rs_code : nat;
  rs_status : nat;
  rs_message : jsstring;
  rs_data : option InsertOneResult
}.

(** The fields of the body that [/add-server] reads; a field the body
    lacks is [undefined]. *)
Record AddServerBody := mkAddServerBody {
  rb_name : value;
  rb_code : value;
  rb_flag : value
}.

(** [app.post(/add-server)], as a function of [req.body].  [None] is a
    request on which no parser has set a body: [req.body] is
    [undefined] and the destructuring, which is inside the [try],
    throws. *)
Definition addServerRoute (body : option AddServerBody) : M Response :=
  try_catch
    (match body with
     | None => throw TypeError
     | Some fields =>
         let name := rb_name fields in
         let code := rb_code fields in
         let flag := rb_flag fields in
         if (negb (truthy name) || negb (truthy code)
             || negb (truthy flag))%bool
         then ret (mkResponse 400 0 (str "All fields are required") None)
         else
           let serverData :=
             mkServerData name code flag VUndefined VUndefined in
           result <- addServer serverData ;;
           updateDashboardStats ;;
           ret (mkResponse 200 1 (str "Server added successfully!")
                           (Some result))
     end)
    (fun error => ret (mkResponse 500 0 (str "Error adding server") None)).

(** [app.delete(/delete-server/:id)], as a function of the parameter
    [id] of the path. *)
Definition deleteServerRoute (id : jsstring) : M Response :=
  try_catch
    (result <- deleteServer (VString id) ;;
     if (0 <? deletedCount result)%nat
     then updateDashboardStats ;;
          ret (mkResponse 200 1 (str "Server deleted successfully!") None)
     else ret (mkResponse 404 0 (str "Server not found") None))
    (fun error => ret (mkResponse 500 0 (str "Error deleting server") None)).

(** The dashboard document of the cache holds [totalSold] and was
    updated at [t]. *)
Definition cacheShows (w : World) (totalSold : nat) (t : Z) : Prop :=
  exists d s,
    List.find isDashboard (coll w (str "stats")) = Some d
    /\ body d = BStats s
    /\ Stats.totalSold s = totalSold /\ Stats.updatedAt s = t.

(** ** The page of servers, services and APIs: [getMyServicesData] *)

(** [getApis()].  The class defines the method twice; the second
    definition is the one in force. *)
Definition getApis : M (list Doc) :=
  try_catch
    (apisCollection <- getCollection (str "apis") ;;
     find apisCollection (fun ds => ds))
    (fun error => throw error).

(** [{ ...doc, id: doc._id.toString() }]. *)
Record Row := mkRow {
  row_doc : Doc;
  row_id : jsstring
}.

Definition withId (d : Doc) : Row := mkRow d (toHexString (_id d)).

Record PageSection := mkPageSection {
  ps_name : jsstring;
  ps_type : jsstring;
  ps_from : jsstring;
  ps_data : list Row;
  ps_paginateButtons : list nat;
  ps_limit : nat;
  ps_offset : nat;
  ps_paginateLink : jsstring
}.

(** [getMyServicesData()]; its [catch] logs and throws the error again. *)
Definition getMyServicesData : M (list PageSection) :=
  try_catch
    (servers <- getServers ;;
     services <- getServices ;;
     apis <- getApis ;;
     let processedServers := map withId servers in
     let processedServices := map withId services in
     let processedApis := map withId apis in
     ret [ mkPageSection (str "My Servers") (str "servers") (str "servers")
                         processedServers [1%nat] 10 0
                         (str "/my-services?page=1&");
           mkPageSection (str "My Services") (str "services") (str "services")
                         processedServices [1%nat] 10 0
                         (str "/my-services?page=1&");
           mkPageSection (str "My Connected APIs") (str "apis") (str "apis")
                         processedApis [1%nat] 10 0
                         (str "/my-services?page=1&") ])
    (fun error => throw error).

(** ** Connecting the accessor: [connect] *)

Definition setConnection (w : World) (handle established : bool) : World :=
  mkWorld handle established (store w) (faults w) (oidGen w) (oidNext w)
          (now w) (env w).

(** [connect()]: creating the client and connecting it is one round
    trip.  The result is [this.db], here whether it is a handle; the
    [catch] clears [isConnected] and throws the error again. *)
Definition connect : M bool :=
  try_catch
    (w <- get ;;
     if isConnected w then ret (dbHandle w)
     else
       roundTrip ;;
       w' <- get ;;
       put (setConnection w' true true) ;;
       ret true)
    (fun error =>
       w <- get ;;
       put (setConnection w (dbHandle w) false) ;;
       throw error).

(** * Properties *)

(** ** The monad *)

Lemma bind_Returned {A B} (m : M A) (k : A -> M B) w a w' :
  m w = (Returned a, w') -> bind m k w = k a w'.
Proof. intros H. unfold bind. now rewrite H. Qed.

Lemma bind_Thrown {A B} (m : M A) (k : A -> M B) w e w' :
  m w = (Thrown e, w') -> bind m k w = (Thrown e, w').
Proof. intros H. unfold bind. now rewrite H. Qed.

Lemma bind_inv {A B} (m : M A) (k : A -> M B) w b w2 :
  bind m k w = (Returned b, w2) ->
  exists a w1, m w = (Returned a, w1) /\ k a w1 = (Returned b, w2).
Proof.
  unfold bind. destruct (m w) as [[a|e] w1]; intros H; [eauto | discriminate].
Qed.

Lemma rethrow_id {A} (m : M A) w :
  try_catch m (fun error => throw error) w = m w.
Proof. unfold try_catch, throw. now destruct (m w) as [[a|e] w1]. Qed.

Lemma sameData_refl w : sameData w w.
Proof. exists (faults w). now destruct w. Qed.

Lemma sameData_trans w1 w2 w3 :
  sameData w1 w2 -> sameData w2 w3 -> sameData w1 w3.
Proof. intros [f1 ->] [f2 ->]. now exists f2. Qed.

Lemma sameData_coll w w' c : sameData w w' -> coll w' c = coll w c.
Proof. now intros [fs ->]. Qed.

Lemma sameData_now w w' : sameData w w' -> now w' = now w.
Proof. now intros [fs ->]. Qed.

Lemma sameData_store w w' : sameData w w' -> store w' = store w.
Proof. now intros [fs ->]. Qed.

(** ** The driver's reads *)

Lemma roundTrip_eq w :
  roundTrip w =
  match faults w with
  | [] => (Returned tt, w)
  | b :: fs => (if b then Thrown StoreFailure else Returned tt, setFaults w fs)
  end.
Proof.
  unfold roundTrip, bind, get, put, throw, ret.
  destruct (faults w) as [|[] fs]; reflexivity.
Qed.

Lemma roundTrip_sameData w r w' : roundTrip w = (r, w') -> sameData w w'.
Proof.
  rewrite roundTrip_eq. destruct (faults w) as [|b fs]; intros [= <- <-].
  - apply sameData_refl.
  - now exists fs.
Qed.

Lemma roundTrip_nofault w : faults w = [] -> roundTrip w = (Returned tt, w).
Proof. intros H. rewrite roundTrip_eq. now rewrite H. Qed.

Lemma newDate_eq w : newDate w = (Returned (now w), w).
Proof. reflexivity. Qed.

Lemma countDocuments_nofault w c f :
  faults w = [] ->
  countDocuments c f w = (Returned (length (List.filter f (coll w c))), w).
Proof.
  intros H. unfold countDocuments.
  now rewrite (bind_Returned _ _ _ _ _ (roundTrip_nofault w H)).
Qed.

Lemma find_nofault w c (p : list Doc -> list Doc) :
  faults w = [] -> find c p w = (Returned (p (coll w c)), w).
Proof.
  intros H. unfold find.
  now rewrite (bind_Returned _ _ _ _ _ (roundTrip_nofault w H)).
Qed.

Lemma findOneLatest_nofault w c :
  faults w = [] ->
  findOneLatest c w =
  (Returned (match coll w c with
             | [] => None
             | d :: ds => Some (latestBy d ds)
             end), w).
Proof.
  intros H. unfold findOneLatest.
  now rewrite (bind_Returned _ _ _ _ _ (roundTrip_nofault w H)).
Qed.

Lemma read_sameData {A} (f : World -> A) w r w' :
  (roundTrip ;; w0 <- get ;; ret (f w0)) w = (r, w') -> sameData w w'.
Proof.
  unfold bind at 1. destruct (roundTrip w) as [[u|e] w1] eqn:E.
  - cbv [bind get ret]. intros [= <- <-]. eapply roundTrip_sameData, E.
  - intros [= <- <-]. eapply roundTrip_sameData, E.
Qed.

Lemma countDocuments_inv w c f n w' :
  countDocuments c f w = (Returned n, w') ->
  sameData w w' /\ n = length (List.filter f (coll w c)).
Proof.
  intros H. pose proof (read_sameData _ _ _ _ H) as Hs.
  split; [exact Hs|].
  apply bind_inv in H as (u & w1 & H1 & H2).
  apply roundTrip_sameData in H1. cbv [bind get ret] in H2.
  injection H2 as <- <-. now rewrite (sameData_coll _ _ c H1).
Qed.

Lemma find_inv w c (p : list Doc -> list Doc) r w' :
  find c p w = (Returned r, w') ->
  sameData w w' /\ r = p (coll w c).
Proof.
  intros H. pose proof (read_sameData _ _ _ _ H) as Hs.
  split; [exact Hs|].
  apply bind_inv in H as (u & w1 & H1 & H2).
  apply roundTrip_sameData in H1. cbv [bind get ret] in H2.
  injection H2 as <- <-. now rewrite (sameData_coll _ _ c H1).
Qed.

Lemma findOneLatest_sameData w c r w' :
  findOneLatest c w = (r, w') -> sameData w w'.
Proof. apply read_sameData. Qed.

Lemma find_sameData w c (p : list Doc -> list Doc) r w' :
  find c p w = (r, w') -> sameData w w'.
Proof. apply read_sameData. Qed.

Lemma getCollection_ok w c :
  connected w -> str_truthy (validateInput.string (VString c) 50) = true ->
  getCollection c w = (Returned c, w).
Proof.
  intros [H1 H2] H3. unfold getCollection, bind, get.
  now rewrite H1, H2, H3.
Qed.

Lemma getCollection_inv w c r w' :
  getCollection c w = (r, w') ->
  w' = w /\ (forall h, r = Returned h -> h = c /\ connected w).
Proof.
  unfold getCollection, bind, get, throw, ret, connected, collection.
  destruct (dbHandle w), (isConnected w); simpl;
    try (intros [= <- <-]; split; [reflexivity | discriminate]).
  destruct (str_truthy _); simpl; intros [= <- <-];
    (split; [reflexivity |]); [|discriminate].
  intros h [= <-]. auto.
Qed.

Lemma getCollection_disconnected w c :
  ~ connected w -> getCollection c w = (Thrown NotConnected, w).
Proof.
  unfold getCollection, bind, get, throw, connected.
  destruct (dbHandle w), (isConnected w); simpl; intros H;
    try reflexivity.
  now destruct H.
Qed.

(** ** Operations that only read *)

Lemma reads_ret {A} (a : A) : reads (ret a).
Proof. intros w r w' [= <- <-]. apply sameData_refl. Qed.

Lemma reads_throw {A} e : reads (@throw A e).
Proof. intros w r w' [= <- <-]. apply sameData_refl. Qed.

Lemma reads_bind {A B} (m : M A) (k : A -> M B) :
  reads m -> (forall a, reads (k a)) -> reads (bind m k).
Proof.
  intros Hm Hk w r w'. unfold bind.
  destruct (m w) as [[a|e] w1] eqn:E; intros H.
  - eapply sameData_trans; [eapply Hm, E | eapply Hk, H].
  - injection H as <- <-. eapply Hm, E.
Qed.

Lemma reads_try_catch {A} (m : M A) h :
  reads m -> (forall e, reads (h e)) -> reads (try_catch m h).
Proof.
  intros Hm Hh w r w'. unfold try_catch.
  destruct (m w) as [[a|e] w1] eqn:E; intros H.
  - injection H as <- <-. eapply Hm, E.
  - eapply sameData_trans; [eapply Hm, E | eapply Hh, H].
Qed.

Lemma reads_get : reads get.
Proof. intros w r w' [= <- <-]. apply sameData_refl. Qed.

Lemma reads_newDate : reads newDate.
Proof. intros w r w' [= <- <-]. apply sameData_refl. Qed.

Lemma reads_roundTrip : reads roundTrip.
Proof. intros w r w'. apply roundTrip_sameData. Qed.

Lemma reads_countDocuments c f : reads (countDocuments c f).
Proof. intros w r w'. apply read_sameData. Qed.

Lemma reads_aggregate {R} c (p : list Doc -> list R) : reads (aggregate c p).
Proof. intros w r w'. apply read_sameData. Qed.

Lemma reads_find c p : reads (find c p).
Proof. intros w r w'. apply read_sameData. Qed.

Lemma reads_findOneLatest c : reads (findOneLatest c).
Proof. intros w r w'. apply read_sameData. Qed.

Lemma reads_getCollection c : reads (getCollection c).
Proof.
  intros w r w' H. apply getCollection_inv in H as [-> _]. apply sameData_refl.
Qed.

Ltac reads_tac :=
  repeat first
    [ apply reads_ret | apply reads_throw | apply reads_get
    | apply reads_newDate | apply reads_roundTrip
    | apply reads_countDocuments | apply reads_aggregate | apply reads_find
    | apply reads_findOneLatest | apply reads_getCollection
    | apply reads_bind; [| intros ?]
    | apply reads_try_catch; [| intros ?] ].

(** ** Reads under a fault plan *)

(** A read fails when the head of the fault plan says so, and consumes
    it. *)
Lemma read_eq {A} (f : World -> A) w :
  (roundTrip ;; w0 <- get ;; ret (f w0)) w =
  (if hd false (faults w) then Thrown StoreFailure
   else Returned (f (setFaults w (tl (faults w)))),
   setFaults w (tl (faults w))).
Proof.
  unfold bind at 1. rewrite roundTrip_eq.
  destruct w as [h c s [|[] fs] g n t e]; reflexivity.
Qed.

Lemma bind_read {A B} (m : M A) (k : A -> M B) w (b : bool) a w' :
  m w = (if b then Thrown StoreFailure else Returned a, w') ->
  bind m k w = if b then (Thrown StoreFailure, w') else k a w'.
Proof. intros H. unfold bind. rewrite H. now destruct b. Qed.

Lemma countDocuments_eq c f w :
  countDocuments c f w =
  (if hd false (faults w) then Thrown StoreFailure
   else Returned (length (List.filter f (coll w c))),
   setFaults w (tl (faults w))).
Proof. unfold countDocuments. now rewrite read_eq. Qed.

Lemma aggregate_eq {R} c (p : list Doc -> list R) w :
  aggregate c p w =
  (if hd false (faults w) then Thrown StoreFailure
   else Returned (p (coll w c)),
   setFaults w (tl (faults w))).
Proof. unfold aggregate. now rewrite read_eq. Qed.

(** ** The metrics aggregator *)

Lemma reads_getBotStats_try : reads getBotStats_try.
Proof. unfold getBotStats_try. reads_tac. Qed.

Lemma reads_getBotStats : reads getBotStats.
Proof.
  unfold getBotStats.
  apply reads_try_catch; [apply reads_getBotStats_try | intros; apply reads_ret].
Qed.

Lemma filter_everyDoc ds : List.filter everyDoc ds = ds.
Proof. induction ds; simpl; congruence. Qed.

Lemma firstOr_count (ts : list Transaction.t) :
  firstOr (countStage ts) O = length ts.
Proof. now destruct ts. Qed.

Lemma firstOr_sum ds :
  firstOr (groupSumBalance ds) zero
  = fold_left (fun acc d => num_add acc (docBalance d)) ds zero.
Proof. now destruct ds. Qed.

(** The [try] block throws exactly when one of its six reads fails. *)
Lemma getBotStats_try_eq w :
  connected w -> nameOk w ->
  fst (getBotStats_try w) =
  if existsb (fun b => b) (firstn 6 (faults w)) then Thrown StoreFailure
  else Returned (metricsOf w).
Proof.
  intros Hu Hn. unfold getBotStats_try.
  unfold bind at 1. unfold get at 1.
  rewrite (bind_Returned _ _ _ _ _ (getCollection_ok _ _ Hu Hn)).
  rewrite (bind_read _ _ _ _ _ _ (countDocuments_eq _ _ _)).
  rewrite (bind_Returned _ _ _ _ _ (newDate_eq _)).
  rewrite (bind_read _ _ _ _ _ _ (countDocuments_eq _ _ _)).
  rewrite (bind_read _ _ _ _ _ _ (aggregate_eq _ _ _)).
  rewrite (bind_Returned _ _ _ _ _ (newDate_eq _)).
  rewrite (bind_read _ _ _ _ _ _ (aggregate_eq _ _ _)).
  rewrite (bind_read _ _ _ _ _ _ (aggregate_eq _ _ _)).
  rewrite (bind_read _ _ _ _ _ _ (aggregate_eq _ _ _)).
  unfold ret, matchStage, unwind. cbn [faults setFaults now env].
  rewrite !firstOr_count, firstOr_sum, filter_everyDoc.
  change (coll (setFaults w (tl (faults w))) (usersName w))
    with (coll w (usersName w)).
  fold (metricsOf w).
  destruct (faults w) as [|[] [|[] [|[] [|[] [|[] [|[] fs]]]]]]; reflexivity.
Qed.

Lemma getBotStats_fst w :
  fst (getBotStats w) =
  match fst (getBotStats_try w) with
  | Returned s => Returned s
  | Thrown _ => Returned zeroStats
  end.
Proof.
  unfold getBotStats, try_catch.
  now destruct (getBotStats_try w) as [[s|e] w1].
Qed.

Lemma getBotStats_try_disconnected w :
  ~ connected w -> fst (getBotStats_try w) = Thrown NotConnected.
Proof.
  intros H. unfold getBotStats_try. unfold bind at 1. unfold get at 1.
  now rewrite (bind_Thrown _ _ _ _ _ (getCollection_disconnected _ _ H)).
Qed.

Lemma getBotStats_try_badName w :
  connected w -> ~ nameOk w ->
  fst (getBotStats_try w) = Thrown InvalidCollectionName.
Proof.
  intros [H1 H2] H. unfold getBotStats_try. unfold bind at 1. unfold get at 1.
  assert (E : getCollection (usersName w) w
              = (Thrown InvalidCollectionName, w)).
  { unfold getCollection, bind, get, throw. rewrite H1, H2. simpl.
    unfold nameOk in H.
    destruct (str_truthy _); [now destruct H | reflexivity]. }
  now rewrite (bind_Thrown _ _ _ _ _ E).
Qed.

Lemma connected_dec w : connected w \/ ~ connected w.
Proof.
  unfold connected. destruct (dbHandle w), (isConnected w); auto;
    right; intros [? ?]; discriminate.
Qed.

Lemma nameOk_dec w : nameOk w \/ ~ nameOk w.
Proof. unfold nameOk. destruct (str_truthy _); auto. Qed.

Lemma getBotStats_try_cases w :
  fst (getBotStats_try w) = Returned (metricsOf w)
  \/ exists e, fst (getBotStats_try w) = Thrown e.
Proof.
  destruct (connected_dec w) as [Hc|Hc].
  - destruct (nameOk_dec w) as [Hn|Hn].
    + rewrite (getBotStats_try_eq w Hc Hn).
      destruct (existsb _ _); eauto.
    + right. eexists. now apply getBotStats_try_badName.
  - right. eexists. now apply getBotStats_try_disconnected.
Qed.

Lemma existsb_id_In (l : list bool) : In true l -> existsb (fun b => b) l = true.
Proof. intros H. apply existsb_exists. now exists true. Qed.

(** C2: [getBotStats] is fail-soft.  It always returns and never throws;
    whenever its [try] block throws, for whatever reason, it returns the
    all-zero object; that is the case when the connection was never
    established and when any of its six reads fails; and it returns
    either the all-zero object or the complete metrics of the store,
    never a mix of the two. *)
Theorem getBotStats_fail_soft (w : World) :
  (exists s, fst (getBotStats w) = Returned s)
  /\ (forall e, fst (getBotStats_try w) = Thrown e ->
      fst (getBotStats w) = Returned zeroStats)
  /\ (~ connected w -> fst (getBotStats w) = Returned zeroStats)
  /\ (In true (firstn 6 (faults w)) -> fst (getBotStats w) = Returned zeroStats)
  /\ (forall s, fst (getBotStats w) = Returned s -> s = zeroStats \/ s = metricsOf w)
  /\ zeroStats = mkBotStats 0 0 (S754_zero false) 0 0 0 0.
Proof.
  assert (Hthrown : forall e, fst (getBotStats_try w) = Thrown e ->
                              fst (getBotStats w) = Returned zeroStats).
  { intros e He. now rewrite getBotStats_fst, He. }
  repeat split.
  - rewrite getBotStats_fst. destruct (fst (getBotStats_try w)); eauto.
  - exact Hthrown.
  - intros H. eapply Hthrown, getBotStats_try_disconnected, H.
  - intros H. destruct (connected_dec w) as [Hc|Hc].
    + destruct (nameOk_dec w) as [Hn|Hn].
      * apply (Hthrown StoreFailure). rewrite (getBotStats_try_eq w Hc Hn).
        now rewrite (existsb_id_In _ H).
      * eapply Hthrown, getBotStats_try_badName; eauto.
    + eapply Hthrown, getBotStats_try_disconnected, Hc.
  - intros s. rewrite getBotStats_fst.
    destruct (getBotStats_try_cases w) as [E|[e E]]; rewrite E; intros [= <-]; auto.
Qed.

Lemma getBotStats_fail_soft_witness :
  ~ connected disconnectedWorld
  /\ fst (getBotStats disconnectedWorld) = Returned zeroStats.
Proof.
  assert (H : ~ connected disconnectedWorld) by (intros [H _]; discriminate H).
  split; [exact H|].
  exact (proj1 (proj2 (proj2 (getBotStats_fail_soft disconnectedWorld))) H).
Defined.

(** ** The number model on known values *)

Example parseFloat_tenth :
  parseFloat (str "0.1") = S754_finite false 7205759403792794 (-56).
Proof. reflexivity. Qed.

Example parseFloat_prefix :
  parseFloat (str "  -1.5e3 rupees") = num_of_Z (-1500)
  /\ parseFloat (str "abc") = S754_nan
  /\ parseFloat (str ".") = S754_nan
  /\ parseFloat (str "1e400") = S754_infinity false.
Proof. repeat split. Qed.

(** Printing at and above [10^21]: the shortest significand that reads
    back may lie on the far side of the nearest one. *)
Example toFixed_large :
  toFixed (num_of_Z (2 ^ 89)) 2 = str "6.189700196426902e+26"
  /\ toFixed (num_of_Z (10 ^ 21)) 2 = str "1e+21"
  /\ toFixed (num_of_Z (2 ^ 70)) 2 = str "1.1805916207174113e+21".
Proof. vm_compute. repeat split. Qed.

Example toFixed_known :
  toFixed (lit "1.005") 2 = str "1.00"
  /\ toFixed (lit "10.005") 2 = str "10.01"
  /\ toFixed (lit "-0.001") 2 = str "-0.00"
  /\ toFixed (lit "1234.5678") 0 = str "1235"
  /\ toFixed (lit "1e21") 2 = str "1e+21"
  /\ toFixed (lit "123456789012345680000000") 2 = str "1.2345678901234569e+23"
  /\ toFixed S754_nan 2 = str "NaN".
Proof. repeat split; vm_compute; reflexivity. Qed.

(** The double nearest to 10.005 lies above it: 100 times its value, a
    multiple of 2^-49, exceeds 1000.5. *)
Example double_10_005 :
  lit "10.005" = S754_finite false 5632314283980227 (-49)
  /\ (2001 * 2 ^ 49 < 2 * (100 * 5632314283980227))%Z.
Proof. split; [reflexivity | vm_compute; reflexivity]. Qed.

(** ** The balance scenario *)

Lemma fold_left_map_balance ds a :
  fold_left (fun acc d => num_add acc (docBalance d)) ds a
  = fold_left num_add (map docBalance ds) a.
Proof. revert a. induction ds as [|d ds IH]; intros a; simpl; [reflexivity | apply IH]. Qed.

Lemma getBotStats_noFault w :
  connected w -> nameOk w -> noFaultIn 6 w ->
  fst (getBotStats w) = Returned (metricsOf w).
Proof.
  intros Hc Hn Hf. rewrite getBotStats_fst, (getBotStats_try_eq w Hc Hn).
  unfold noFaultIn in Hf. now rewrite Hf.
Qed.

(** The rounded sum of the three balances, in whatever order they are
    added up. *)
Lemma scenario_sum (l : list number) :
  Permutation l scenarioBalances ->
  parseFloat (toFixed (fold_left num_add l zero) 2) = lit "5.01".
Proof.
  intros HP.
  pose proof (Permutation_length HP) as HL.
  destruct l as [|x [|y [|z [|]]]]; try discriminate HL. clear HL.
  assert (ND : List.NoDup [x; y; z]).
  { eapply Permutation_NoDup; [symmetry; exact HP|].
    repeat constructor; simpl; intros H; intuition discriminate. }
  assert (Hx : In x scenarioBalances) by (eapply Permutation_in; [exact HP | simpl; auto]).
  assert (Hy : In y scenarioBalances) by (eapply Permutation_in; [exact HP | simpl; auto]).
  assert (Hz : In z scenarioBalances) by (eapply Permutation_in; [exact HP | simpl; auto]).
  inversion ND as [|? ? Nx ND1]; subst. inversion ND1 as [|? ? Ny ND2]; subst.
  simpl in Nx, Ny.
  destruct Hx as [<-|[<-|[<-|[]]]]; destruct Hy as [<-|[<-|[<-|[]]]];
    try (exfalso; apply Nx; auto; fail);
    destruct Hz as [<-|[<-|[<-|[]]]];
    try (exfalso; apply Nx; auto; fail);
    try (exfalso; apply Ny; auto; fail);
    vm_compute; reflexivity.
Qed.

(** C10, amended: with exactly three users of balances 10.005, 0 and -5,
    in any order, [getBotStats] returns [totalUsers] 3 and [totalBalance]
    5.01: the double nearest to 10.005 lies above it, the sum is
    5.005000000000001, and two decimals round it up. *)
Theorem totalBalance_scenario (w : World) :
  connected w -> nameOk w -> noFaultIn 6 w ->
  Permutation (map docBalance (coll w (usersName w))) scenarioBalances ->
  exists s, fst (getBotStats w) = Returned s
            /\ totalUsers s = 3%nat /\ totalBalance s = lit "5.01".
Proof.
  intros Hc Hn Hf HP. exists (metricsOf w). split; [now apply getBotStats_noFault|].
  split.
  - simpl. rewrite <- (length_map docBalance). now rewrite (Permutation_length HP).
  - simpl. rewrite fold_left_map_balance. now apply scenario_sum.
Qed.

Lemma totalBalance_scenario_witness :
  connected scenarioWorld /\ nameOk scenarioWorld /\
  noFaultIn 6 scenarioWorld /\
  exists s, fst (getBotStats scenarioWorld) = Returned s
            /\ totalUsers s = 3%nat /\ totalBalance s = lit "5.01".
Proof.
  assert (Hc : connected scenarioWorld) by (split; reflexivity).
  assert (Hn : nameOk scenarioWorld) by reflexivity.
  assert (Hf : noFaultIn 6 scenarioWorld) by reflexivity.
  repeat split; try reflexivity.
  apply (totalBalance_scenario scenarioWorld Hc Hn Hf).
  vm_compute. apply Permutation_refl.
Defined.

(** C10 as stated fails: on the three users of the scenario
    [totalBalance] is 5.01, which is not 5.00. *)
Lemma totalBalance_scenario_counterexample :
  fst (getBotStats scenarioWorld) = Returned (mkBotStats 3 0 (lit "5.01") 0 0 0 0)
  /\ SFeqb (lit "5.01") (lit "5.00") = false.
Proof. split; vm_compute; reflexivity. Qed.

(** ** The composed snapshot *)

Lemma reads_getDashboardData_try : reads getDashboardData_try.
Proof.
  unfold getDashboardData_try.
  apply reads_bind; [apply reads_getBotStats | intros ?; reads_tac].
Qed.

Lemma getDashboardData_fst w :
  fst (getDashboardData w) =
  match fst (getDashboardData_try w) with
  | Returned d => Returned d
  | Thrown _ => Returned (fallbackData (now w) (now w))
  end.
Proof.
  unfold getDashboardData, try_catch.
  destruct (getDashboardData_try w) as [[d|e] w1] eqn:E; [reflexivity|].
  apply reads_getDashboardData_try, sameData_now in E.
  cbv [bind newDate get ret fst]. now rewrite E.
Qed.

(** A snapshot the [try] block returns is made of the metrics
    [getBotStats] returned and of the services and servers of the
    store. *)
Lemma getDashboardData_try_inv w d w2 :
  getDashboardData_try w = (Returned d, w2) ->
  exists s,
    fst (getBotStats w) = Returned s
    /\ connected w
    /\ d = {| dd_todaysEarnings := rupee :: toFixed (totalBalance s) 2;
              dd_totalEarnings := rupee :: toFixed (totalBalance s) 2;
              dd_todaysUsers := todaysUsers s;
              dd_totalUsers := totalUsers s;
              dd_todaysSold := todaysNumbersSold s;
              dd_totalSold := totalNumbersSold s;
              dd_topServices :=
                firstn 3 (sortUsersDesc (coll w (str "services")));
              dd_serverCount := length (coll w (str "servers"));
              dd_serviceCount := length (coll w (str "services"));
              dd_createdAt := now w;
              dd_updatedAt := now w |}.
Proof.
  unfold getDashboardData_try. intros H.
  apply bind_inv in H as (s & w1 & H1 & H).
  pose proof (reads_getBotStats _ _ _ H1) as S1.
  apply bind_inv in H as (sc & w1' & H2 & H).
  apply getCollection_inv in H2 as [-> H2].
  destruct (H2 _ eq_refl) as [-> Hc].
  apply bind_inv in H as (sv & w1' & H3 & H).
  apply getCollection_inv in H3 as [-> H3].
  destruct (H3 _ eq_refl) as [-> _].
  apply bind_inv in H as (top & w3 & H4 & H).
  apply find_inv in H4 as [S3 ->].
  apply bind_inv in H as (n1 & w4 & H5 & H).
  apply countDocuments_inv in H5 as [S4 ->].
  apply bind_inv in H as (n2 & w5 & H6 & H).
  apply countDocuments_inv in H6 as [S5 ->].
  cbv [bind newDate get ret] in H. injection H as <- <-.
  pose proof (sameData_trans _ _ _ S1 S3) as S13.
  pose proof (sameData_trans _ _ _ S13 S4) as S14.
  pose proof (sameData_trans _ _ _ S14 S5) as S15.
  exists s. split; [now rewrite H1|]. split.
  - destruct S1 as [fs ->]. exact Hc.
  - rewrite !filter_everyDoc.
    rewrite (sameData_coll _ _ _ S14), (sameData_coll _ _ _ S13),
      (sameData_coll _ _ _ S1), (sameData_now _ _ S15).
    reflexivity.
Qed.

Lemma find_eq c (p : list Doc -> list Doc) w :
  find c p w =
  (if hd false (faults w) then Thrown StoreFailure
   else Returned (p (coll w c)),
   setFaults w (tl (faults w))).
Proof. unfold find. now rewrite read_eq. Qed.

Lemma getBotStats_returns w :
  exists s w1, getBotStats w = (Returned s, w1) /\ sameData w w1.
Proof.
  unfold getBotStats, try_catch.
  destruct (getBotStats_try w) as [[s|e] w1] eqn:E;
    apply reads_getBotStats_try in E; eauto.
Qed.

(** The snapshot in closed form.  [getBotStats] returns some metrics [s]
    and leaves a world [w1], whose fault plan is what its round trips
    have not used up.  Then the fallback object is returned when the
    accessor is not connected or one of the next three round trips, the
    reads of [getDashboardData] itself, fails; otherwise the snapshot
    is made of [s] and of what those reads find. *)
Lemma getDashboardData_closed w s w1 :
  getBotStats w = (Returned s, w1) ->
  fst (getDashboardData w) =
  Returned
    (if (negb (dbHandle w) || negb (isConnected w)
         || existsb (fun b => b) (firstn 3 (faults w1)))%bool
     then fallbackData (now w) (now w)
     else {| dd_todaysEarnings := rupee :: toFixed (totalBalance s) 2;
             dd_totalEarnings := rupee :: toFixed (totalBalance s) 2;
             dd_todaysUsers := todaysUsers s;
             dd_totalUsers := totalUsers s;
             dd_todaysSold := todaysNumbersSold s;
             dd_totalSold := totalNumbersSold s;
             dd_topServices :=
               firstn 3 (sortUsersDesc (coll w (str "services")));
             dd_serverCount := length (coll w (str "servers"));
             dd_serviceCount := length (coll w (str "services"));
             dd_createdAt := now w;
             dd_updatedAt := now w |}).
Proof.
  intros G. pose proof (reads_getBotStats _ _ _ G) as S.
  rewrite getDashboardData_fst. unfold getDashboardData_try.
  rewrite (bind_Returned _ _ _ _ _ G).
  destruct (connected_dec w) as [Hc|Hc].
  - assert (Hc1 : connected w1) by (destruct S as [fs ->]; exact Hc).
    destruct Hc as [H1 H2]. rewrite H1, H2. cbn [negb orb].
    rewrite (bind_Returned _ _ _ _ _ (getCollection_ok _ (str "services") Hc1 eq_refl)).
    rewrite (bind_Returned _ _ _ _ _ (getCollection_ok _ (str "servers") Hc1 eq_refl)).
    rewrite (bind_read _ _ _ _ _ _ (find_eq _ _ _)).
    rewrite (bind_read _ _ _ _ _ _ (countDocuments_eq _ _ _)).
    rewrite (bind_read _ _ _ _ _ _ (countDocuments_eq _ _ _)).
    rewrite !(bind_Returned _ _ _ _ _ (newDate_eq _)).
    unfold ret. cbn [faults setFaults now]. rewrite !filter_everyDoc.
    repeat match goal with
           | |- context [coll (setFaults ?x ?f) ?c] =>
               change (coll (setFaults x f) c) with (coll x c)
           end.
    rewrite !(sameData_coll _ _ _ S), (sameData_now _ _ S).
    destruct (faults w1) as [|[] [|[] [|[] fs]]]; reflexivity.
  - assert (Hc1 : ~ connected w1) by (destruct S as [fs ->]; exact Hc).
    rewrite (bind_Thrown _ _ _ _ _
               (getCollection_disconnected w1 (str "services") Hc1)).
    cbn [fst].
    destruct (dbHandle w) eqn:H1, (isConnected w) eqn:H2; try reflexivity.
    exfalso. apply Hc. now split.
Qed.

(** What [getDashboardData] returns after an internal failure of
    [getBotStats], for every world.  [getBotStats] has then returned the
    all-zero metrics, and the snapshot is decided by the reads of
    [getDashboardData] itself, the three round trips that follow those
    of [getBotStats].  When the accessor is connected and none of the
    three fails, the snapshot is exactly the zero counters and the zero
    earnings together with the top services and the server and service
    counts read from the store.  When the accessor is not connected or
    one of the three fails, it is exactly the fallback object: no top
    service, no server, no service. *)
Lemma getDashboardData_after_failure (w : World) :
  exists d,
    fst (getDashboardData w) = Returned d
    /\ (forall e, fst (getBotStats_try w) = Thrown e ->
        dd_todaysUsers d = O /\ dd_totalUsers d = O
        /\ dd_todaysSold d = O /\ dd_totalSold d = O
        /\ (connected w ->
            existsb (fun b => b) (firstn 3 (faults (snd (getBotStats w))))
            = false ->
            d = {| dd_todaysEarnings := rupee :: str "0.00";
                   dd_totalEarnings := rupee :: str "0.00";
                   dd_todaysUsers := 0;
                   dd_totalUsers := 0;
                   dd_todaysSold := 0;
                   dd_totalSold := 0;
                   dd_topServices :=
                     firstn 3 (sortUsersDesc (coll w (str "services")));
                   dd_serverCount := length (coll w (str "servers"));
                   dd_serviceCount := length (coll w (str "services"));
                   dd_createdAt := now w;
                   dd_updatedAt := now w |})
        /\ (~ connected w
            \/ existsb (fun b => b) (firstn 3 (faults (snd (getBotStats w))))
               = true ->
            d = fallbackData (now w) (now w)))
    /\ (~ connected w -> d = fallbackData (now w) (now w)).
Proof.
  destruct (getBotStats_returns w) as (s & w1 & G & S).
  rewrite (getDashboardData_closed w s w1 G), G. cbn [snd].
  eexists. split; [reflexivity|]. split.
  - intros e He.
    assert (Hs : s = zeroStats).
    { pose proof (getBotStats_fst w) as F. rewrite G, He in F.
      now injection F. }
    subst s.
    destruct (negb (dbHandle w) || negb (isConnected w)
              || existsb (fun b => b) (firstn 3 (faults w1)))%bool eqn:B.
    + split; [reflexivity|]. split; [reflexivity|].
      split; [reflexivity|]. split; [reflexivity|]. split; [|reflexivity].
      intros [H1 H2] F. rewrite H1, H2, F in B. discriminate B.
    + split; [reflexivity|]. split; [reflexivity|].
      split; [reflexivity|]. split; [reflexivity|]. split; [reflexivity|].
      apply orb_false_iff in B as [B F].
      apply orb_false_iff in B as [B1 B2].
      apply negb_false_iff in B1, B2.
      intros [Hn|Hf]; [exfalso; apply Hn; now split|].
      rewrite Hf in F. discriminate F.
  - intros Hn.
    destruct (dbHandle w) eqn:H1, (isConnected w) eqn:H2; try reflexivity.
    exfalso. apply Hn. now split.
Qed.

(** C5: the code does not do what the claim says.  In [transientWorld]
    the first read of [getBotStats] fails and every later round trip
    succeeds: [getBotStats] fails internally and returns the all-zero
    metrics.  [getDashboardData] does not throw, but what it returns is
    not the fallback object of its [catch]: the snapshot carries the
    zero counters and the zero earnings together with the two services
    of the store as top services and a service count of 2, where the
    claim has the empty list and a count of 0. *)
Theorem getDashboardData_keeps_services :
  fst (getBotStats_try transientWorld) = Thrown StoreFailure
  /\ fst (getBotStats transientWorld) = Returned zeroStats
  /\ fst (getDashboardData transientWorld)
     = Returned {| dd_todaysEarnings := rupee :: str "0.00";
                   dd_totalEarnings := rupee :: str "0.00";
                   dd_todaysUsers := 0;
                   dd_totalUsers := 0;
                   dd_todaysSold := 0;
                   dd_totalSold := 0;
                   dd_topServices := twoServices;
                   dd_serverCount := 0;
                   dd_serviceCount := 2;
                   dd_createdAt := now transientWorld;
                   dd_updatedAt := now transientWorld |}
  /\ twoServices <> []
  /\ fst (getDashboardData transientWorld)
     <> Returned (fallbackData (now transientWorld) (now transientWorld)).
Proof.
  split; [reflexivity|]. split; [reflexivity|].
  assert (E : fst (getDashboardData transientWorld)
              = Returned {| dd_todaysEarnings := rupee :: str "0.00";
                            dd_totalEarnings := rupee :: str "0.00";
                            dd_todaysUsers := 0;
                            dd_totalUsers := 0;
                            dd_todaysSold := 0;
                            dd_totalSold := 0;
                            dd_topServices := twoServices;
                            dd_serverCount := 0;
                            dd_serviceCount := 2;
                            dd_createdAt := now transientWorld;
                            dd_updatedAt := now transientWorld |})
    by (vm_compute; reflexivity).
  split; [exact E|]. split; [discriminate|].
  rewrite E. intros H. injection H as H _. discriminate H.
Qed.

(** ** The sync status reporter *)

Lemma getSyncStatus_fst w :
  fst (getSyncStatus w) =
  match fst (getSyncStatus_try w) with
  | Returned r => Returned r
  | Thrown e => Returned (Failure e)
  end.
Proof.
  unfold getSyncStatus, try_finally, try_catch.
  now destruct (getSyncStatus_try w) as [[r|e] w1].
Qed.

Lemma connectToDatabase_inv w w' :
  connectToDatabase w = (Returned tt, w') -> sameData w w'.
Proof. unfold connectToDatabase. rewrite rethrow_id. apply roundTrip_sameData. Qed.

(** What a report of success holds: the six counts are the sizes of the
    collections they were read from, the flags compare them. *)
Lemma getSyncStatus_try_inv w data w' :
  getSyncStatus_try w = (Returned (Success data), w') ->
  let users := length (coll w (usersName w)) in
  let website_users := length (coll w (str "website_users")) in
  let services := length (coll w (str "services")) in
  let servers := length (coll w (str "servers")) in
  (bot (sy_users data) = users /\ website (sy_users data) = website_users
   /\ synced (sy_users data) = Nat.eqb users website_users)
  /\ (bot (sy_services data) = services /\ website (sy_services data) = services
      /\ synced (sy_services data) = Nat.eqb services services)
  /\ (bot (sy_servers data) = servers /\ website (sy_servers data) = servers
      /\ synced (sy_servers data) = Nat.eqb servers servers)
  /\ overall_sync data
     = (synced (sy_users data) && synced (sy_services data)
        && synced (sy_servers data))%bool.
Proof.
  unfold getSyncStatus_try. intros H.
  unfold bind at 1 in H. unfold get at 1 in H.
  apply bind_inv in H as ([] & w0 & H0 & H).
  apply connectToDatabase_inv in H0 as S0.
  apply bind_inv in H as (n1 & w1 & H1 & H).
  apply countDocuments_inv in H1 as [S1 ->].
  apply bind_inv in H as (n2 & w2 & H2 & H).
  apply countDocuments_inv in H2 as [S2 ->].
  apply bind_inv in H as (n3 & w3 & H3 & H).
  apply countDocuments_inv in H3 as [S3 ->].
  apply bind_inv in H as (n4 & w4 & H4 & H).
  apply countDocuments_inv in H4 as [S4 ->].
  apply bind_inv in H as (n5 & w5 & H5 & H).
  apply countDocuments_inv in H5 as [S5 ->].
  apply bind_inv in H as (n6 & w6 & H6 & H).
  apply countDocuments_inv in H6 as [S6 ->].
  apply bind_inv in H as (l1 & w7 & _ & H).
  apply bind_inv in H as (l2 & w8 & _ & H).
  apply bind_inv in H as (l3 & w9 & _ & H).
  cbv [bind newDate get ret] in H. injection H as <- <-.
  pose proof (sameData_trans _ _ _ S0 S1) as T1.
  pose proof (sameData_trans _ _ _ T1 S2) as T2.
  pose proof (sameData_trans _ _ _ T2 S3) as T3.
  pose proof (sameData_trans _ _ _ T3 S4) as T4.
  pose proof (sameData_trans _ _ _ T4 S5) as T5.
  cbn [sy_users sy_services sy_servers overall_sync bot website synced].
  rewrite !filter_everyDoc.
  unfold collection.
  rewrite (sameData_coll _ _ _ S0), (sameData_coll _ _ _ T1),
    (sameData_coll _ _ _ T2), (sameData_coll _ _ _ T3),
    (sameData_coll _ _ _ T4), (sameData_coll _ _ _ T5).
  fold (usersName w). repeat split.
Qed.

Lemma getSyncStatus_Success w data :
  fst (getSyncStatus w) = Returned (Success data) ->
  exists w', getSyncStatus_try w = (Returned (Success data), w').
Proof.
  rewrite getSyncStatus_fst.
  destruct (getSyncStatus_try w) as [[r|e] w1]; simpl; intros [= ->].
  now exists w1.
Qed.

Lemma getSyncStatus_nofault w :
  faults w = [] -> exists data, fst (getSyncStatus w) = Returned (Success data).
Proof.
  intros Hf. rewrite getSyncStatus_fst. unfold getSyncStatus_try.
  unfold bind at 1. unfold get at 1.
  assert (Hc : connectToDatabase w = (Returned tt, w)).
  { unfold connectToDatabase. rewrite rethrow_id. now apply roundTrip_nofault. }
  rewrite (bind_Returned _ _ _ _ _ Hc).
  rewrite !(bind_Returned _ _ _ _ _ (countDocuments_nofault _ _ _ Hf)).
  rewrite !(bind_Returned _ _ _ _ _ (findOneLatest_nofault _ _ Hf)).
  rewrite (bind_Returned _ _ _ _ _ (newDate_eq _)).
  eexists. reflexivity.
Qed.

(** C3: in every report of success, the services kind and the servers
    kind are synced: both counts of the kind are the size of the one
    collection, [services] or [servers], that both were read from.  With
    no failing round trip the report is one of success. *)
Theorem services_servers_always_synced (w : World) :
  (forall data,
      fst (getSyncStatus w) = Returned (Success data) ->
      synced (sy_services data) = true
      /\ synced (sy_servers data) = true
      /\ bot (sy_services data) = length (coll w (str "services"))
      /\ website (sy_services data) = length (coll w (str "services"))
      /\ bot (sy_servers data) = length (coll w (str "servers"))
      /\ website (sy_servers data) = length (coll w (str "servers")))
  /\ (faults w = [] ->
      exists data, fst (getSyncStatus w) = Returned (Success data)).
Proof.
  split; [|apply getSyncStatus_nofault].
  intros data H. apply getSyncStatus_Success in H as [w' H].
  apply getSyncStatus_try_inv in H
    as (_ & (B1 & W1 & S1) & (B2 & W2 & S2) & _).
  rewrite Nat.eqb_refl in S1, S2. auto 10.
Qed.

Lemma services_servers_always_synced_witness :
  faults stockedWorld = []
  /\ exists data,
       fst (getSyncStatus stockedWorld) = Returned (Success data)
       /\ synced (sy_services data) = true
       /\ synced (sy_servers data) = true
       /\ bot (sy_services data) = 3%nat
       /\ website (sy_services data) = 3%nat
       /\ bot (sy_servers data) = 2%nat
       /\ website (sy_servers data) = 2%nat.
Proof.
  split; [reflexivity|].
  destruct (services_servers_always_synced stockedWorld) as [H1 H2].
  destruct (H2 eq_refl) as [data Hd].
  exists data. split; [exact Hd|].
  destruct (H1 data Hd) as (A & B & C & D & E & F).
  split; [exact A|]. split; [exact B|].
  rewrite C, D, E, F. repeat split.
Defined.

(** C4: in every report of success, each kind is synced exactly when its
    two counts are equal, so 5 and 5 is synced and 5 and 4 is not, and the
    overall status is the conjunction of the three flags. *)
Theorem synced_iff_counts_equal (w : World) (data : SyncData) :
  fst (getSyncStatus w) = Returned (Success data) ->
  Forall (fun k =>
            (synced k = true <-> bot k = website k)
            /\ (bot k = 5%nat -> website k = 5%nat -> synced k = true)
            /\ (bot k = 5%nat -> website k = 4%nat -> synced k = false))
         (kinds data)
  /\ overall_sync data
     = (synced (sy_users data) && synced (sy_services data)
        && synced (sy_servers data))%bool
  /\ (overall_sync data = true <-> Forall (fun k => synced k = true) (kinds data))
  /\ bot (sy_users data) = length (coll w (usersName w))
  /\ website (sy_users data) = length (coll w (str "website_users")).
Proof.
  intros H. apply getSyncStatus_Success in H as [w' H].
  apply getSyncStatus_try_inv in H
    as ((B0 & W0 & S0) & (B1 & W1 & S1) & (B2 & W2 & S2) & HO).
  assert (K : forall k n m,
             bot k = n -> website k = m -> synced k = Nat.eqb n m ->
             (synced k = true <-> bot k = website k)
             /\ (bot k = 5%nat -> website k = 5%nat -> synced k = true)
             /\ (bot k = 5%nat -> website k = 4%nat -> synced k = false)).
  { intros k n m -> -> ->. repeat split.
    - apply Nat.eqb_eq.
    - apply Nat.eqb_eq.
    - intros -> ->. reflexivity.
    - intros -> ->. reflexivity. }
  split; [|split; [exact HO|split; [|split; assumption]]].
  - unfold kinds. repeat constructor; eapply K; eassumption.
  - rewrite HO, !andb_true_iff. unfold kinds. split.
    + intros [[? ?] ?]. repeat constructor; assumption.
    + intros F. inversion F as [|? ? ? F1]; subst.
      inversion F1 as [|? ? ? F2]; subst. inversion F2; subst. auto.
Qed.

Lemma synced_iff_counts_equal_witness :
  exists data,
    fst (getSyncStatus unsyncedWorld) = Returned (Success data)
    /\ bot (sy_users data) = 5%nat /\ website (sy_users data) = 4%nat
    /\ synced (sy_users data) = false /\ overall_sync data = false.
Proof.
  destruct (getSyncStatus_nofault unsyncedWorld eq_refl) as [data Hd].
  exists data. split; [exact Hd|].
  destruct (synced_iff_counts_equal _ _ Hd) as (F & HO & _ & B & W).
  vm_compute in B, W.
  inversion F as [|? ? (_ & _ & U) _]; subst.
  pose proof (U B W) as HU. rewrite HO, HU. auto.
Defined.

(** ** Servers *)

Lemma hexChar_ok d :
  (d < 16)%N ->
  validateInput.isHexDigit (hexChar d) = true
  /\ hexDigitValue (hexChar d) = Some (Z.of_N d).
Proof.
  intros H.
  assert (E : In d (map N.of_nat (seq 0 16))).
  { apply in_map_iff. exists (N.to_nat d). split; [apply N2Nat.id|].
    apply in_seq. lia. }
  simpl in E.
  repeat (destruct E as [<-|E]; [split; reflexivity|]). destruct E.
Qed.

Lemma hexDigitsOf_length k n : length (hexDigitsOf k n) = k.
Proof.
  revert n. induction k as [|k IH]; intros n; simpl; [reflexivity|].
  rewrite length_app, IH. simpl. lia.
Qed.

Lemma hexDigitsOf_hex k n : forallb validateInput.isHexDigit (hexDigitsOf k n) = true.
Proof.
  revert n. induction k as [|k IH]; intros n; simpl; [reflexivity|].
  rewrite forallb_app, IH. simpl.
  destruct (hexChar_ok (n mod 16)%N) as [-> _]; [|reflexivity].
  apply N.mod_lt. discriminate.
Qed.

Lemma isHexDigit_value c :
  validateInput.isHexDigit c = true -> exists d, hexDigitValue c = Some d.
Proof.
  unfold validateInput.isHexDigit, hexDigitValue, isDigit.
  destruct ((48 <=? c)%N && (c <=? 57)%N)%bool; [eauto|].
  destruct ((97 <=? c)%N && (c <=? 102)%N)%bool; [eauto|].
  destruct ((65 <=? c)%N && (c <=? 70)%N)%bool; [eauto|]. discriminate.
Qed.

Lemma spanHexDigits_app a b :
  forallb validateInput.isHexDigit a = true ->
  spanHexDigits (a ++ b) = spanHexDigits a ++ spanHexDigits b.
Proof.
  induction a as [|c a IH]; simpl; [reflexivity|].
  intros H. apply andb_true_iff in H as [Hc Ha].
  destruct (isHexDigit_value c Hc) as [d ->]. simpl. now rewrite IH.
Qed.

Lemma digitsValue_snoc radix ds d :
  digitsValue radix (ds ++ [d]) = digitsValue radix ds * radix + d.
Proof. unfold digitsValue. now rewrite fold_left_app. Qed.

Lemma hexDigitsOf_value k n :
  (n < 16 ^ N.of_nat k)%N ->
  digitsValue 16 (spanHexDigits (hexDigitsOf k n)) = Z.of_N n.
Proof.
  revert n. induction k as [|k IH]; intros n Hn.
  - simpl in *. assert (n = 0%N) by lia. now subst.
  - simpl hexDigitsOf. rewrite spanHexDigits_app by apply hexDigitsOf_hex.
    simpl spanHexDigits.
    destruct (hexChar_ok (n mod 16)%N) as [_ ->];
      [apply N.mod_lt; discriminate|].
    rewrite digitsValue_snoc, IH.
    + rewrite N2Z.inj_mod, N2Z.inj_div.
      pose proof (Z.div_mod (Z.of_N n) 16). lia.
    + rewrite Nat2N.inj_succ, N.pow_succ_r' in Hn.
      apply N.Div0.div_lt_upper_bound. lia.
Qed.

(** The hexadecimal string of an ObjectId passes the validator and reads
    back as the same ObjectId. *)
Lemma toHexString_roundtrip i :
  (i < 2 ^ 96)%N ->
  validateInput.objectId (VString (toHexString i)) = Some (toHexString i)
  /\ ObjectId (toHexString i) = i.
Proof.
  intros Hi. unfold toHexString. split.
  - unfold validateInput.objectId.
    assert (L := hexDigitsOf_length 24 i).
    destruct (hexDigitsOf 24 i) as [|c s] eqn:E; [discriminate L|].
    cbn [truthy negb]. rewrite <- E, hexDigitsOf_length, hexDigitsOf_hex.
    reflexivity.
  - unfold ObjectId. rewrite hexDigitsOf_value; [apply N2Z.id|].
    exact Hi.
Qed.

Lemma nextId_bound w : (nextId w < 2 ^ 96)%N.
Proof. apply N.mod_lt. discriminate. Qed.

Lemma coll_insert (w : World) (s : gmap (list N) (list Doc)) c ds :
  coll (setStore w (<[c := ds]> s)) c = ds.
Proof. unfold coll. simpl. now rewrite lookup_insert_eq. Qed.

Lemma insertOne_fresh w c b :
  faults w = [] -> nextIdFresh w c ->
  insertOne c b w =
  (Returned (nextId w),
   setStore (setOidNext w (S (oidNext w)))
            (<[c := coll w c ++ [mkDoc (nextId w) None b]]> (store w))).
Proof.
  intros Hf Hn. unfold insertOne, newObjectId.
  cbv [bind get put ret]. rewrite roundTrip_nofault by exact Hf.
  change (coll (setOidNext w (S (oidNext w))) c) with (coll w c).
  unfold nextIdFresh, nextId in Hn. rewrite Hn. reflexivity.
Qed.

Lemma deleteOne_nofault w c f :
  faults w = [] ->
  deleteOne c f w =
  match removeFirst f (coll w c) with
  | (_, O) => (Returned O, w)
  | (r, n) => (Returned n, setStore w (<[c := r]> (store w)))
  end.
Proof.
  intros Hf. unfold deleteOne.
  rewrite (bind_Returned _ _ _ _ _ (roundTrip_nofault w Hf)).
  cbv [bind get]. destruct (removeFirst f (coll w c)) as [r [|n]]; reflexivity.
Qed.

Lemma removeFirst_absent f ds :
  existsb f ds = false -> removeFirst f ds = (ds, O).
Proof.
  induction ds as [|d ds IH]; simpl; [reflexivity|].
  intros H. apply orb_false_iff in H as [-> H]. now rewrite IH.
Qed.

Lemma removeFirst_last f ds d :
  existsb f ds = false -> f d = true ->
  removeFirst f (ds ++ [d]) = (ds, 1%nat).
Proof.
  induction ds as [|x ds IH]; simpl; intros H Hd.
  - now rewrite Hd.
  - apply orb_false_iff in H as [-> H]. now rewrite IH.
Qed.

Lemma addServer_invalid w sd :
  ~ validServerData sd -> addServer sd w = (Thrown InvalidServerData, w).
Proof.
  intros H. unfold addServer. rewrite rethrow_id.
  unfold validServerData, validField in H.
  destruct (str_truthy (validateInput.string (sd_server_name sd) 100));
    destruct (str_truthy (validateInput.string (sd_country sd) 10));
    destruct (str_truthy (validateInput.string (sd_flag sd) 50));
    try reflexivity.
  exfalso. apply H. auto.
Qed.

Lemma addServer_valid w sd :
  validServerData sd -> connected w -> faults w = [] ->
  nextIdFresh w (str "servers") ->
  exists server,
    addServer sd w =
    (Returned (mkInsertOneResult (nextId w)),
     setStore (setOidNext w (S (oidNext w)))
              (<[str "servers" :=
                   coll w (str "servers")
                   ++ [mkDoc (nextId w) None (BServer server)]]> (store w)))
    /\ validateInput.string (sd_server_name sd) 100
       = Some (Server.server_name server)
    /\ validateInput.string (sd_country sd) 10 = Some (Server.country server)
    /\ validateInput.string (sd_flag sd) 50 = Some (Server.flag server).
Proof.
  intros (V1 & V2 & V3) Hc Hf Hn. unfold addServer. rewrite rethrow_id.
  unfold validField in *. rewrite V1, V2, V3. cbn [negb orb].
  rewrite (bind_Returned _ _ _ _ _ (getCollection_ok _ (str "servers") Hc eq_refl)).
  rewrite !(bind_Returned _ _ _ _ _ (newDate_eq _)).
  erewrite bind_Returned by (apply insertOne_fresh; assumption).
  eexists. split; [reflexivity|].
  destruct (validateInput.string (sd_server_name sd) 100) as [[|? ?]|];
    try discriminate V1.
  destruct (validateInput.string (sd_country sd) 10) as [[|? ?]|];
    try discriminate V2.
  destruct (validateInput.string (sd_flag sd) 50) as [[|? ?]|];
    try discriminate V3.
  repeat split.
Qed.

Lemma deleteServer_hex w i :
  (i < 2 ^ 96)%N -> connected w -> faults w = [] ->
  deleteServer (VString (toHexString i)) w =
  match removeFirst (hasId i) (coll w (str "servers")) with
  | (_, O) => (Returned (mkDeleteResult O), w)
  | (r, n) => (Returned (mkDeleteResult n),
               setStore w (<[str "servers" := r]> (store w)))
  end.
Proof.
  intros Hi Hc Hf. unfold deleteServer. rewrite rethrow_id.
  destruct (toHexString_roundtrip i Hi) as [-> ->].
  rewrite (bind_Returned _ _ _ _ _ (getCollection_ok _ (str "servers") Hc eq_refl)).
  unfold bind. rewrite deleteOne_nofault by exact Hf.
  destruct (removeFirst (hasId i) (coll w (str "servers"))) as [r [|n]];
    reflexivity.
Qed.

(** C7, amended.  For server data whose name, country and flag each pass
    the sanitizer with at least one character left, on an established
    connection with no failing round trip and a driver that generates an
    ObjectId the collection does not hold yet: [addServer] appends one
    record; [deleteServer] on the 24-digit hexadecimal string of the
    [insertedId] returns a [deletedCount] of 1 and leaves the collection
    as it was before; the same [deleteServer] once more returns 0.  For
    server data with one of the three fields rejected or left empty,
    [addServer] throws the validation error and the store is unchanged. *)
Theorem addServer_then_deleteServer (w : World) (serverData : ServerData) :
  (validServerData serverData -> connected w -> faults w = [] ->
   nextIdFresh w (str "servers") ->
   exists r w1 w2 w3 server,
     addServer serverData w = (Returned r, w1)
     /\ coll w1 (str "servers")
        = coll w (str "servers") ++ [mkDoc (insertedId r) None (BServer server)]
     /\ deleteServer (VString (toHexString (insertedId r))) w1
        = (Returned (mkDeleteResult 1), w2)
     /\ coll w2 (str "servers") = coll w (str "servers")
     /\ deleteServer (VString (toHexString (insertedId r))) w2
        = (Returned (mkDeleteResult 0), w3)
     /\ coll w3 (str "servers") = coll w (str "servers"))
  /\ (~ validServerData serverData ->
      addServer serverData w = (Thrown InvalidServerData, w)).
Proof.
  split; [|apply addServer_invalid].
  intros Hv Hc Hf Hn.
  destruct (addServer_valid w serverData Hv Hc Hf Hn) as (server & Ha & _).
  set (i := nextId w) in *.
  set (w1 := setStore _ _) in Ha.
  assert (C1 : coll w1 (str "servers")
               = coll w (str "servers") ++ [mkDoc i None (BServer server)])
    by apply coll_insert.
  assert (Hi : (i < 2 ^ 96)%N) by apply nextId_bound.
  assert (D1 := deleteServer_hex w1 i Hi Hc Hf).
  rewrite C1, (removeFirst_last (hasId i) _ _ Hn) in D1
    by (unfold hasId; simpl; apply N.eqb_refl).
  set (w2 := setStore w1 _) in D1.
  assert (C2 : coll w2 (str "servers") = coll w (str "servers")).
  { apply coll_insert. }
  assert (D2 := deleteServer_hex w2 i Hi Hc Hf).
  rewrite C2, (removeFirst_absent (hasId i) _ Hn) in D2.
  exists (mkInsertOneResult i), w1, w2, w2, server.
  repeat split; assumption.
Qed.

Lemma addServer_then_deleteServer_witness :
  validServerData goodServerData
  /\ exists r w1 w2,
       addServer goodServerData emptyWorld = (Returned r, w1)
       /\ deleteServer (VString (toHexString (insertedId r))) w1
          = (Returned (mkDeleteResult 1), w2)
       /\ fst (deleteServer (VString (toHexString (insertedId r))) w2)
          = Returned (mkDeleteResult 0).
Proof.
  assert (Hv : validServerData goodServerData) by (repeat split).
  split; [exact Hv|].
  destruct (proj1 (addServer_then_deleteServer emptyWorld goodServerData)
                  Hv (conj eq_refl eq_refl) eq_refl eq_refl)
    as (r & w1 & w2 & w3 & server & A & _ & D1 & _ & D2 & _).
  exists r, w1, w2. repeat split; [exact A | exact D1 |].
  now rewrite D2.
Defined.

(** C7 as stated fails: a name made of stripped characters only is
    accepted by the sanitizer, as are the country and the flag, yet
    [addServer] throws and inserts nothing. *)
Lemma addServer_counterexample :
  validateInput.string (sd_server_name emptyNameData) 100 = Some []
  /\ validateInput.string (sd_country emptyNameData) 10 = Some (str "IN")
  /\ validateInput.string (sd_flag emptyNameData) 50
     = Some [55356; 56814; 55356; 56819]%N
  /\ addServer emptyNameData emptyWorld = (Thrown InvalidServerData, emptyWorld).
Proof. repeat split. Qed.

(** [deleteServer] takes the identifier as a string: the ObjectId value
    itself is refused. *)
Lemma deleteServer_ObjectId_value w i :
  deleteServer (VObjectId i) w = (Thrown InvalidServerId, w).
Proof. reflexivity. Qed.

(** ** Flags *)

Lemma getFlags_nonempty w r w1 :
  coll w (str "flags") <> [] ->
  getFlags w = (r, w1) ->
  sameData w w1
  /\ (forall m, r = Returned m -> m = flagsObjectOf (coll w (str "flags"))).
Proof.
  intros Hne. unfold getFlags. rewrite rethrow_id.
  unfold bind at 1.
  destruct (getCollection (str "flags") w) as [[h|e] w'] eqn:G;
    apply getCollection_inv in G as [-> G].
  - destruct (G _ eq_refl) as [-> _]. unfold bind at 1.
    destruct (find (str "flags") (fun ds => ds) w) as [[found|e] w2] eqn:F.
    + apply find_inv in F as [S ->].
      destruct (coll w (str "flags")) as [|d ds] eqn:E; [now destruct Hne|].
      cbv [bind ret]. intros [= <- <-]. split; [exact S|].
      now intros m [= <-].
    + apply find_sameData in F. intros [= <- <-]. split; [exact F|].
      discriminate.
  - intros [= <- <-]. split; [apply sameData_refl | discriminate].
Qed.

Lemma getFlags_nonempty_nofault w :
  coll w (str "flags") <> [] -> connected w -> faults w = [] ->
  getFlags w = (Returned (flagsObjectOf (coll w (str "flags"))), w).
Proof.
  intros Hne Hc Hf. unfold getFlags. rewrite rethrow_id.
  rewrite (bind_Returned _ _ _ _ _ (getCollection_ok _ (str "flags") Hc eq_refl)).
  rewrite (bind_Returned _ _ _ _ _ (find_nofault _ _ _ Hf)).
  destruct (coll w (str "flags")) as [|d ds] eqn:E; [now destruct Hne|].
  reflexivity.
Qed.

Lemma insertEach_fresh c ds :
  forall w,
    List.NoDup (map _id ds) ->
    (forall d, In d ds -> existsb (hasId (_id d)) (coll w c) = false) ->
    exists w',
      insertEach c ds w = (Returned tt, w')
      /\ coll w' c = coll w c ++ ds.
Proof.
  induction ds as [|d ds IH]; intros w ND Hfresh.
  - exists w. split; [reflexivity | now rewrite app_nil_r].
  - inversion ND as [|? ? Hd ND']; subst.
    simpl insertEach. cbv [bind get put].
    rewrite (Hfresh d) by (now left).
    set (w1 := setStore w _).
    assert (C1 : coll w1 c = coll w c ++ [d]) by apply coll_insert.
    destruct (IH w1 ND') as (w' & E & C).
    + intros d' Hd'. rewrite C1, existsb_app, (Hfresh d') by (now right).
      simpl. rewrite orb_false_r. unfold hasId. apply N.eqb_neq.
      intros Heq. apply Hd. rewrite Heq. now apply in_map.
    + exists w'. split; [exact E|]. rewrite C, C1, <- app_assoc. reflexivity.
Qed.

Lemma newObjectIds_five w :
  newObjectIds 5 w = (Returned (nextIds 5 w), setOidNext w (5 + oidNext w)).
Proof.
  unfold nextIds. cbv [newObjectIds newObjectId bind get put ret seq map].
  cbn [oidGen oidNext setOidNext]. rewrite !Nat.add_succ_r, Nat.add_0_r.
  reflexivity.
Qed.

Lemma defaultFlags_object t :
  fold_left assignFlag (defaultFlags t) empty
  = fold_left assignFlag (defaultFlags 0) empty.
Proof. reflexivity. Qed.

Lemma getFlags_empty w :
  coll w (str "flags") = [] -> connected w -> faults w = [] ->
  List.NoDup (nextIds 5 w) ->
  exists w1,
    getFlags w = (Returned (fold_left assignFlag (defaultFlags 0) empty), w1)
    /\ map body (coll w1 (str "flags")) = defaultFlags (now w)
    /\ map _id (coll w1 (str "flags")) = nextIds 5 w.
Proof.
  intros He Hc Hf ND. unfold getFlags. rewrite rethrow_id.
  rewrite (bind_Returned _ _ _ _ _ (getCollection_ok _ (str "flags") Hc eq_refl)).
  rewrite (bind_Returned _ _ _ _ _ (find_nofault _ _ _ Hf)).
  rewrite He. cbv beta iota.
  set (t := now w).
  set (w0 := setOidNext w (5 + oidNext w)).
  assert (Hf0 : faults w0 = []) by exact Hf.
  set (docs := map (fun '(i, b) => mkDoc i None b)
                   (combine (nextIds 5 w) (defaultFlags t))).
  assert (Hids : map _id docs = nextIds 5 w) by reflexivity.
  assert (Hbodies : map body docs = defaultFlags t) by reflexivity.
  destruct (insertEach_fresh (str "flags") docs w0) as (w1 & E & C).
  - now rewrite Hids.
  - intros d _. change (coll w0 (str "flags")) with (coll w (str "flags")).
    now rewrite He.
  - change (coll w0 (str "flags")) with (coll w (str "flags")) in C.
    rewrite He in C. simpl in C.
    assert (I : insertMany (str "flags") (defaultFlags t) w = (Returned tt, w1)).
    { unfold insertMany. change (length (defaultFlags t)) with 5%nat.
      rewrite (bind_Returned _ _ _ _ _ (newObjectIds_five w)).
      fold w0.
      rewrite (bind_Returned _ _ _ _ _ (roundTrip_nofault w0 Hf0)).
      exact E. }
    exists w1. unfold bind at 1.
    rewrite (bind_Returned _ _ _ _ _ (newDate_eq _)). fold t.
    rewrite (bind_Returned _ _ _ _ _ I).
    cbv [ret]. rewrite defaultFlags_object, C. auto.
Qed.

(** C8: [getFlags] seeds only an empty collection and is idempotent on a
    non-empty one.  On a non-empty flag collection, two successive calls
    leave the store exactly as it was, whatever they return, and mappings
    they return are identical; on an established connection with no
    failing round trip both return the same mapping.  On an empty one
    (with five distinct ObjectIds from the driver) the five default flags
    are inserted and mapped. *)
Theorem getFlags_idempotent (w : World) :
  (coll w (str "flags") <> [] ->
   (forall r1 w1 r2 w2,
       getFlags w = (r1, w1) -> getFlags w1 = (r2, w2) ->
       store w1 = store w /\ store w2 = store w
       /\ (forall m1 m2, r1 = Returned m1 -> r2 = Returned m2 -> m1 = m2))
   /\ (connected w -> faults w = [] ->
       exists m w1 w2,
         getFlags w = (Returned m, w1) /\ getFlags w1 = (Returned m, w2)
         /\ m = flagsObjectOf (coll w (str "flags"))))
  /\ (coll w (str "flags") = [] -> connected w -> faults w = [] ->
      List.NoDup (nextIds 5 w) ->
      exists m w1,
        getFlags w = (Returned m, w1)
        /\ map body (coll w1 (str "flags")) = defaultFlags (now w)
        /\ m = flagsObjectOf (coll w1 (str "flags"))).
Proof.
  split.
  - intros Hne. split.
    + intros r1 w1 r2 w2 H1 H2.
      destruct (getFlags_nonempty _ _ _ Hne H1) as [S1 M1].
      assert (Hne1 : coll w1 (str "flags") <> [])
        by now rewrite (sameData_coll _ _ _ S1).
      destruct (getFlags_nonempty _ _ _ Hne1 H2) as [S2 M2].
      split; [now apply sameData_store|]. split.
      * rewrite (sameData_store _ _ S2). now apply sameData_store.
      * intros m1 m2 E1 E2. rewrite (M1 _ E1), (M2 _ E2).
        now rewrite (sameData_coll _ _ _ S1).
    + intros Hc Hf.
      exists (flagsObjectOf (coll w (str "flags"))), w, w.
      rewrite getFlags_nonempty_nofault by assumption. auto.
  - intros He Hc Hf ND.
    destruct (getFlags_empty w He Hc Hf ND) as (w1 & E & B & _).
    eexists _, w1. split; [exact E|]. split; [exact B|].
    unfold flagsObjectOf. rewrite B. symmetry. apply defaultFlags_object.
Qed.

Lemma getFlags_idempotent_witness :
  coll flagWorld (str "flags") <> []
  /\ exists m w1 w2,
       getFlags flagWorld = (Returned m, w1)
       /\ getFlags w1 = (Returned m, w2)
       /\ m !! str "Nepal" = Some (Some [55356; 56819; 55356; 56821]%N).
Proof.
  assert (Hne : coll flagWorld (str "flags") <> []) by discriminate.
  split; [exact Hne|].
  destruct (proj2 (proj1 (getFlags_idempotent flagWorld) Hne)
                  (conj eq_refl eq_refl) eq_refl)
    as (m & w1 & w2 & H1 & H2 & Hm).
  exists m, w1, w2. repeat split; [exact H1 | exact H2 |].
  rewrite Hm. reflexivity.
Defined.

(** ** The sanitizer *)

Lemma dangerous_In c : dangerous c = true <-> In c strippedChars.
Proof.
  unfold dangerous, strippedChars. rewrite !orb_true_iff, !N.eqb_eq.
  simpl. intuition congruence.
Qed.

Lemma filter_stripped s :
  stripped s (List.filter (fun c => negb (dangerous c)) s).
Proof.
  induction s as [|c s IH]; simpl; [constructor|].
  destruct (dangerous c) eqn:E; simpl.
  - apply stripped_drop; [now apply dangerous_In | exact IH].
  - apply stripped_keep; [|exact IH].
    intros H. apply dangerous_In in H. congruence.
Qed.

(** [stripped] determines its result. *)
Lemma stripped_functional s r1 r2 : stripped s r1 -> stripped s r2 -> r1 = r2.
Proof.
  intros H1. revert r2. induction H1; intros r2 H2; inversion H2; subst;
    try contradiction; auto.
  f_equal. auto.
Qed.

(** C9: [validateInput.string] is a total function: on a value that is
    not a string it returns [null]; on a string longer than [maxLength]
    it returns [null]; on any other string it returns the string with
    every occurrence of the five characters removed and nothing else
    changed. *)
Theorem sanitizeString_total (v : value) (maxLength : nat) :
  match v with
  | VString s =>
      if (length s <=? maxLength)%nat
      then exists r,
          validateInput.string v maxLength = Some r
          /\ stripped s r
          /\ (forall r', stripped s r' -> r' = r)
          /\ Forall (fun c => ~ In c strippedChars) r
      else validateInput.string v maxLength = None
  | _ => validateInput.string v maxLength = None
  end.
Proof.
  destruct v as [| | b | x | s | i]; try reflexivity.
  simpl. destruct (length s <=? maxLength)%nat eqn:E.
  - assert (L : (maxLength <? length s)%nat = false).
    { apply Nat.ltb_ge. now apply Nat.leb_le. }
    rewrite L. eexists. split; [reflexivity|]. split; [apply filter_stripped|].
    split.
    + intros r' H. eapply stripped_functional; [exact H | apply filter_stripped].
    + apply List.Forall_forall. intros c Hc. apply filter_In in Hc as [_ Hc].
      intros H. apply dangerous_In in H. rewrite H in Hc. discriminate.
  - assert (L : (maxLength <? length s)%nat = true).
    { apply Nat.ltb_lt. now apply Nat.leb_gt. }
    now rewrite L.
Qed.

(** ** The classification of number purchases *)

Lemma str_eqb_eq a b : str_eqb a b = true <-> a = b.
Proof.
  revert b. induction a as [|x a IH]; intros [|y b]; simpl;
    try (split; [discriminate | discriminate]); [tauto|].
  rewrite andb_true_iff, N.eqb_eq, IH. split.
  - now intros [-> ->].
  - now intros [= -> ->].
Qed.







(** ** The dashboard cache updater *)

(** C1, the code at the failing input.  A service of price [rupee 150]
    and 4 users alone gives total earnings 600, cached as [rupee 600.00],
    and a missing price reads as 0.  But a price whose text after the
    rupee sign is not numeric reads as [NaN], and with one such service
    the whole total is [NaN], cached as [rupee NaN], whatever the other
    services are; a price that is not a string makes the whole
    computation throw. *)
Theorem malformed_price_poisons_total :
  totalEarningsOf [wellFormedService] = Returned (lit "600")
  /\ toFixed (lit "600") 2 = str "600.00"
  /\ priceOf (mkDoc 34 None (service VUndefined (lit "4"))) = Returned zero
  /\ priceOf nonNumericService = Returned S754_nan
  /\ priceOf doubleSignService = Returned S754_nan
  /\ totalEarningsOf malformedServices = Returned S754_nan
  /\ (exists w',
         updateDashboardStats malformedWorld = (Returned true, w')
         /\ cachedTotalEarnings (coll w' (str "stats")) = [rupee :: str "NaN"])
  /\ totalEarningsOf [mkDoc 35 None (service (VNumber (lit "150")) (lit "4"))]
     = Thrown TypeError.
Proof.
  repeat split; try (vm_compute; reflexivity).
  eexists. split; vm_compute; reflexivity.
Qed.

(** ** More on the validation utilities *)

Lemma filter_length_le (f : N -> bool) s :
  (length (List.filter f s) <= length s)%nat.
Proof. induction s as [|c s IH]; simpl; [lia|]. destruct (f c); simpl; lia. Qed.

Lemma filter_clean s :
  List.filter (fun c => negb (dangerous c))
              (List.filter (fun c => negb (dangerous c)) s)
  = List.filter (fun c => negb (dangerous c)) s.
Proof.
  induction s as [|c s IH]; simpl; [reflexivity|].
  destruct (dangerous c) eqn:E; simpl; [exact IH|]. now rewrite E, IH.
Qed.

(** X1: what the sanitizer returns needs no more sanitizing. *)
Theorem sanitize_idempotent (v : value) (maxLength : nat) (r : jsstring) :
  validateInput.string v maxLength = Some r ->
  validateInput.string (VString r) maxLength = Some r
  /\ (length r <= maxLength)%nat
  /\ Forall (fun c => dangerous c = false) r.
Proof.
  destruct v as [| | b | x | s | i]; try discriminate. simpl.
  destruct (maxLength <? length s)%nat eqn:E; [discriminate|].
  intros [= <-]. apply Nat.ltb_ge in E.
  pose proof (filter_length_le (fun c => negb (dangerous c)) s) as L.
  assert (E' : (maxLength <? length (List.filter (fun c => negb (dangerous c)) s))%nat
               = false) by (apply Nat.ltb_ge; lia).
  rewrite E', filter_clean. repeat split; [lia|].
  apply List.Forall_forall. intros c Hc. apply filter_In in Hc as [_ Hc].
  now destruct (dangerous c).
Qed.

Lemma sanitize_idempotent_witness :
  validateInput.string (VString (str "<b>Mumbai & Pune</b>")) 20
  = Some (str "bMumbai  Pune/b")
  /\ validateInput.string (VString (str "bMumbai  Pune/b")) 20
     = Some (str "bMumbai  Pune/b").
Proof.
  assert (H : validateInput.string (VString (str "<b>Mumbai & Pune</b>")) 20
              = Some (str "bMumbai  Pune/b")) by reflexivity.
  split; [exact H|].
  exact (proj1 (sanitize_idempotent _ _ _ H)).
Defined.

(** *** Identifiers *)

Lemma hexDigitValue_cases c :
  validateInput.isHexDigit c = true ->
  exists d, hexDigitValue c = Some (Z.of_N d) /\ (d < 16)%N
            /\ hexChar d = toLowerHex c
            /\ hexDigitValue (toUpperHex c) = Some (Z.of_N d)
            /\ hexDigitValue (toLowerHex c) = Some (Z.of_N d)
            /\ validateInput.isHexDigit (toUpperHex c) = true.
Proof.
  intros H.
  assert (E : In c (map N.of_nat (seq 48 10 ++ seq 65 6 ++ seq 97 6))).
  { apply in_map_iff. exists (N.to_nat c). split; [apply N2Nat.id|].
    unfold validateInput.isHexDigit in H.
    rewrite !orb_true_iff, !andb_true_iff, !N.leb_le in H.
    rewrite !in_app_iff, !in_seq. lia. }
  exists (Z.to_N (match hexDigitValue c with Some d => d | None => 0 end)).
  simpl in E.
  repeat (destruct E as [<-|E]; [repeat split|]). destruct E.
Qed.

Lemma spanHexDigits_values s :
  forallb validateInput.isHexDigit s = true ->
  0 <= digitsValue 16 (spanHexDigits s) < 16 ^ Z.of_nat (length s)
  /\ hexDigitsOf (length s) (Z.to_N (digitsValue 16 (spanHexDigits s)))
     = map toLowerHex s
  /\ spanHexDigits (map toUpperHex s) = spanHexDigits s
  /\ spanHexDigits (map toLowerHex s) = spanHexDigits s
  /\ forallb validateInput.isHexDigit (map toUpperHex s) = true.
Proof.
  induction s as [|c s IH] using rev_ind.
  - intros _. simpl. repeat split; try reflexivity; lia.
  - rewrite forallb_app. simpl. rewrite andb_true_r, andb_true_iff.
    intros [Hs Hc]. destruct (IH Hs) as (B & E & U & L & F).
    destruct (hexDigitValue_cases c Hc) as (d & V & Hd & HC & VU & VL & FU).
    assert (FL : forallb validateInput.isHexDigit (map toLowerHex s) = true).
    { clear -Hs. induction s as [|x s IH]; simpl in *; [reflexivity|].
      apply andb_true_iff in Hs as [Hx Hs]. rewrite IH by exact Hs.
      destruct (hexDigitValue_cases x Hx) as (d & _ & Hd & <- & _).
      now destruct (hexChar_ok d Hd) as [-> _]. }
    rewrite !map_app, !spanHexDigits_app by assumption.
    simpl. rewrite V, VU, VL, U, L. rewrite digitsValue_snoc, length_app.
    simpl length. rewrite Nat.add_1_r, Nat2Z.inj_succ, Z.pow_succ_r by lia.
    split; [lia|]. split; [|split; [reflexivity|split; [reflexivity|]]].
    + simpl hexDigitsOf.
      set (n := digitsValue 16 (spanHexDigits s)) in *.
      assert (Q : (Z.to_N (n * 16 + Z.of_N d) / 16)%N = Z.to_N n).
      { apply N2Z.inj. rewrite N2Z.inj_div, !Z2N.id by lia.
        change (Z.of_N 16) with 16. symmetry. apply Z.div_unique with (Z.of_N d); lia. }
      assert (R : (Z.to_N (n * 16 + Z.of_N d) mod 16)%N = d).
      { apply N2Z.inj. rewrite N2Z.inj_mod, !Z2N.id by lia.
        change (Z.of_N 16) with 16. symmetry. apply Z.mod_unique with n; lia. }
      now rewrite Q, R, E, HC.
    + rewrite forallb_app, F. simpl. now rewrite FU.
Qed.

(** X2: an identifier the validator accepts is returned as it is and
    spells one ObjectId, of which [toHexString] is the spelling in lower
    case; the spelling in upper case is accepted too and is the same
    ObjectId; and two accepted identifiers are the same ObjectId exactly
    when they are equal up to the case of the digits. *)
Theorem objectId_canonical (v : value) (s : jsstring) :
  validateInput.objectId v = Some s ->
  v = VString s
  /\ (ObjectId s < 2 ^ 96)%N
  /\ toHexString (ObjectId s) = map toLowerHex s
  /\ validateInput.objectId (VString (map toUpperHex s))
     = Some (map toUpperHex s)
  /\ ObjectId (map toUpperHex s) = ObjectId s
  /\ (forall v' s', validateInput.objectId v' = Some s' ->
      (ObjectId s' = ObjectId s <-> map toLowerHex s' = map toLowerHex s)).
Proof.
  assert (A : forall v s, validateInput.objectId v = Some s ->
            v = VString s /\ length s = 24%nat
            /\ forallb validateInput.isHexDigit s = true).
  { clear. intros v s. unfold validateInput.objectId.
    destruct (negb (truthy v)); [discriminate|].
    destruct v as [| | b | x | t | i]; try discriminate.
    destruct (length t =? 24)%nat eqn:L; [|discriminate].
    destruct (forallb validateInput.isHexDigit t) eqn:F; [|discriminate].
    intros [= ->]. apply Nat.eqb_eq in L. auto. }
  intros H. destruct (A _ _ H) as (-> & L & F).
  destruct (spanHexDigits_values s F) as (B & E & U & Lo & FU).
  rewrite L in B, E.
  assert (T : toHexString (ObjectId s) = map toLowerHex s) by exact E.
  split; [reflexivity|]. split; [|split; [exact T|split; [|split]]].
  - unfold ObjectId. apply N2Z.inj_lt. rewrite Z2N.id by lia.
    change (Z.of_N (2 ^ 96)) with (16 ^ Z.of_nat 24). lia.
  - unfold validateInput.objectId.
    assert (L' : length (map toUpperHex s) = 24%nat) by now rewrite length_map.
    destruct (map toUpperHex s) as [|c u] eqn:M; [discriminate L'|].
    cbn [truthy negb]. rewrite L'. simpl Nat.eqb. cbn [andb].
    now rewrite FU.
  - unfold ObjectId. now rewrite U.
  - intros v' s' H'. destruct (A _ _ H') as (_ & L' & F').
    destruct (spanHexDigits_values s' F') as (_ & E' & _ & Lo' & _).
    rewrite L' in E'. split.
    + intros Q. change (toHexString (ObjectId s') = map toLowerHex s') in E'.
      now rewrite <- E', <- T, Q.
    + intros Q. unfold ObjectId. now rewrite <- Lo, <- Lo', Q.
Qed.

Lemma objectId_canonical_witness :
  validateInput.objectId (VString (str "507F1f77bcf86cd799439011"))
  = Some (str "507F1f77bcf86cd799439011")
  /\ toHexString (ObjectId (str "507F1f77bcf86cd799439011"))
     = str "507f1f77bcf86cd799439011".
Proof.
  assert (H : validateInput.objectId (VString (str "507F1f77bcf86cd799439011"))
              = Some (str "507F1f77bcf86cd799439011")) by reflexivity.
  split; [exact H|].
  destruct (objectId_canonical _ _ H) as (_ & _ & T & _).
  rewrite T. reflexivity.
Defined.

(** *** E-mail addresses *)

Lemma spanEmail_spec s :
  s = fst (spanEmail s) ++ snd (spanEmail s)
  /\ forallb emailChar (fst (spanEmail s)) = true.
Proof.
  induction s as [|c s [IH1 IH2]]; simpl; [auto|].
  destruct (emailChar c) eqn:E; [|auto].
  destruct (spanEmail s) as [l r]. simpl in *. rewrite E, IH2.
  split; [now rewrite <- IH1 | reflexivity].
Qed.

Lemma spanEmail_app l c r :
  forallb emailChar l = true -> emailChar c = false ->
  spanEmail (l ++ c :: r) = (l, c :: r).
Proof.
  intros Hl Hc. induction l as [|x l IH]; simpl.
  - now rewrite Hc.
  - simpl in Hl. apply andb_true_iff in Hl as [-> Hl]. now rewrite (IH Hl).
Qed.

Lemma hasInnerDot_spec d :
  hasInnerDot d = true <->
  exists d1 d2, d = d1 ++ 46%N :: d2 /\ d1 <> [] /\ d2 <> [].
Proof.
  split.
  - destruct d as [|x t]; [discriminate|]. simpl. intros H.
    apply existsb_exists in H as (c & Hin & Hc). apply N.eqb_eq in Hc. subst c.
    destruct (exists_last (l := t)) as (a & z & ->).
    { intros ->. destruct Hin. }
    rewrite removelast_last in Hin.
    apply in_split in Hin as (a1 & a2 & ->).
    exists (x :: a1), (a2 ++ [z]). rewrite <- !app_assoc. simpl.
    repeat split; [discriminate | now destruct a2].
  - intros (d1 & d2 & -> & H1 & H2). destruct d1 as [|x a1]; [now destruct H1|].
    simpl. rewrite removelast_app by discriminate. simpl.
    destruct d2 as [|y d2]; [now destruct H2|].
    rewrite existsb_app. simpl. now rewrite orb_true_r.
Qed.

(** X3: [validateInput.email] accepts exactly the strings made of a
    non-empty local part, an at sign, and a domain with a point inside
    it, none of the three parts holding white space or an at sign; it
    returns such a string as it is, markup characters included. *)
Theorem email_shape (v : value) (s : jsstring) :
  validateInput_email v = Some s <->
  v = VString s
  /\ exists l d1 d2,
      s = l ++ 64%N :: d1 ++ 46%N :: d2
      /\ l <> [] /\ d1 <> [] /\ d2 <> []
      /\ forallb emailChar l = true
      /\ forallb emailChar d1 = true
      /\ forallb emailChar d2 = true.
Proof.
  split.
  - unfold validateInput_email. destruct (negb (truthy v)); [discriminate|].
    destruct v as [| | b | x | t | i]; try discriminate.
    destruct (emailRegex t) eqn:E; [|discriminate]. intros [= ->].
    split; [reflexivity|]. unfold emailRegex in E.
    destruct (spanEmail_spec s) as [S L].
    destruct (spanEmail s) as [[|c l] [|a d]]; try discriminate.
    simpl in S, L.
    destruct a as [|p]; [discriminate|].
    assert (p = 64%positive) as ->.
    { repeat (destruct p as [p|p|]; try discriminate E); reflexivity. }
    apply andb_true_iff in E as [F D].
    apply hasInnerDot_spec in D as (d1 & d2 & -> & H1 & H2).
    rewrite forallb_app in F. simpl in F.
    apply andb_true_iff in F as [F1 F2].
    exists (c :: l), d1, d2. repeat split; auto.
  - intros (-> & l & d1 & d2 & -> & Hl & H1 & H2 & Fl & F1 & F2).
    unfold validateInput_email.
    assert (T : truthy (VString (l ++ 64%N :: d1 ++ 46%N :: d2)) = true)
      by (destruct l; [now destruct Hl | reflexivity]).
    rewrite T. cbn [negb]. unfold emailRegex.
    rewrite (spanEmail_app l 64 _ Fl eq_refl).
    destruct l as [|c l]; [now destruct Hl|].
    rewrite forallb_app, F1. simpl. rewrite F2.
    assert (D : hasInnerDot (d1 ++ 46%N :: d2) = true)
      by (apply hasInnerDot_spec; eauto).
    now rewrite D.
Qed.

Lemma email_shape_witness :
  validateInput_email (VString (str "<b>admin@otp.shop"))
  = Some (str "<b>admin@otp.shop")
  /\ validateInput_email (VString (str "admin@shop")) = None
  /\ validateInput_email (VString (str "ad min@otp.shop")) = None.
Proof.
  split; [|split; reflexivity].
  apply (proj2 (email_shape _ _)). split; [reflexivity|].
  exists (str "<b>admin"), (str "otp"), (str "shop"). repeat split; discriminate.
Defined.


(** *** Numbers *)

Lemma iter_pos_nonneg (p : positive) (r : shr_record) :
  0 <= shr_m r -> 0 <= shr_m (SpecFloat.iter_pos shr_1 p r).
Proof.
  assert (S1 : forall r, 0 <= shr_m r -> 0 <= shr_m (shr_1 r)).
  { intros [[|[q|q|]|q] b c]; simpl; lia. }
  revert r. induction p as [p IH|p IH|]; intros r H; simpl; auto.
Qed.

Lemma shr_fexp_nonneg m e l :
  0 <= m -> 0 <= shr_m (fst (shr_fexp prec64 emax64 m e l)).
Proof.
  intros H. unfold shr_fexp, shr.
  assert (R : 0 <= shr_m (shr_record_of_loc m l))
    by (destruct l as [|[]]; exact H).
  destruct (_ - e) as [|p|p]; simpl; auto using iter_pos_nonneg.
Qed.

Lemma binary_round_aux_not_nan s m e l :
  0 <= m -> binary_round_aux prec64 emax64 s m e l <> S754_nan.
Proof.
  intros H. unfold binary_round_aux.
  pose proof (shr_fexp_nonneg m e l H) as H1.
  destruct (shr_fexp prec64 emax64 m e l) as [r1 e1]. simpl in H1.
  assert (H2 : 0 <= round_nearest_even (shr_m r1) (loc_of_shr_record r1)).
  { unfold round_nearest_even.
    destruct (loc_of_shr_record r1) as [|[]]; try lia.
    destruct (Z.even (shr_m r1)); lia. }
  pose proof (shr_fexp_nonneg _ e1 loc_Exact H2) as H3.
  destruct (shr_fexp prec64 emax64 _ e1 loc_Exact) as [r2 e2]. simpl in H3.
  destruct (shr_m r2) as [|q|q]; [discriminate| |lia].
  destruct (e2 <=? _); discriminate.
Qed.

Lemma binary_round_not_nan s mx ex :
  binary_round prec64 emax64 s mx ex <> S754_nan.
Proof.
  unfold binary_round.
  destruct (shl_align mx ex _) as [mz ez].
  apply binary_round_aux_not_nan. lia.
Qed.

Lemma decToNum_not_nan neg m e10 : decToNum neg m e10 <> S754_nan.
Proof.
  unfold decToNum. destruct m as [|p|p]; try discriminate.
  destruct (0 <=? e10) eqn:E.
  - assert (P : 0 < Z.pos p * 10 ^ e10).
    { apply Z.leb_le in E. apply Z.mul_pos_pos; [lia|].
      apply Z.pow_pos_nonneg; lia. }
    unfold binary_normalize.
    destruct neg; simpl cond_Zopp;
      destruct (Z.pos p * 10 ^ e10) as [|q|q]; try lia;
      simpl Z.opp; apply binary_round_not_nan.
  - unfold num_div, SFdiv.
    destruct (SFdiv_core_binary _ _ _ _ _ _) as [[mz ez] lz] eqn:D.
    apply binary_round_aux_not_nan.
    unfold SFdiv_core_binary in D.
    set (m' := match _ - _ with Z0 => _ | Zpos _ => _ | Zneg _ => _ end) in D.
    assert (M : 0 <= m').
    { unfold m'. destruct (_ - _ - _); try lia. apply Z.shiftl_nonneg. lia. }
    pose proof (Z_div_mod m' (Z.pos (Z.to_pos (10 ^ (- e10)))) eq_refl) as Q.
    destruct (Z.div_eucl m' _) as [q r]. injection D as <- _ _.
    destruct Q as [Q1 Q2]. nia.
Qed.

Lemma parseFloat_nan s : isNaN (parseFloat s) = negb (numericPrefix s).
Proof.
  unfold parseFloat, numericPrefix.
  destruct (spanSign (trimStart s)) as [neg s1].
  destruct (prefix_eqb (str "Infinity") s1); [reflexivity|].
  cbn [orb].
  destruct s1 as [|c r].
  - reflexivity.
  - simpl spanDigits. destruct (isDigit c) eqn:Dc.
    + destruct (spanDigits r) as [ds r2].
      destruct (match r2 with 46%N :: r0 => spanDigits r0 | _ => ([], r2) end)
        as [fp s3].
      simpl app. cbn [orb negb].
      destruct (decToNum neg _ _) eqn:E; try reflexivity.
      now apply decToNum_not_nan in E.
    + cbn [orb].
      destruct (N.eqb c 46) eqn:E46.
      * apply N.eqb_eq in E46. subst c. cbn [andb].
        destruct r as [|c' r']; [reflexivity|].
        simpl spanDigits. destruct (isDigit c') eqn:Dc'.
        -- destruct (spanDigits r') as [ds r2]. simpl app. cbn [negb].
           destruct (decToNum neg _ _) eqn:E; try reflexivity.
           now apply decToNum_not_nan in E.
        -- reflexivity.
      * cbn [andb negb].
        assert (c <> 46%N) by now apply N.eqb_neq.
        destruct c as [|p]; [reflexivity|].
        repeat (destruct p as [p|p|]; try reflexivity; try congruence).
Qed.

(** X4: [validateInput.number] looks at the start of its argument only.
    It rejects a string exactly when the string, after leading white
    space and an optional sign, starts neither with [Infinity], nor with
    a digit, nor with a point and a digit; whatever follows such a start
    is ignored.  It rejects [undefined], [null], the booleans and [NaN],
    and what it returns is never [NaN]. *)
Theorem number_accepts_by_prefix (v : value) :
  (validateInput_number v = None <->
   match v with
   | VString s => numericPrefix s = false
   | VNumber x => x = S754_nan
   | VObjectId i => numericPrefix (toHexString i) = false
   | _ => True
   end)
  /\ (forall x, validateInput_number v = Some x -> x <> S754_nan)
  /\ (forall c rest, v = VString (c :: rest) -> isDigit c = true ->
      validateInput_number v <> None).
Proof.
  assert (S : forall s, validateInput_number (VString s) = None
                        <-> numericPrefix s = false).
  { intros s. unfold validateInput_number. cbn [parseFloatOf].
    rewrite parseFloat_nan. destruct (numericPrefix s); simpl; split;
      try discriminate; reflexivity. }
  split; [|split].
  - destruct v as [| | b | x | s | i]; try (split; reflexivity).
    + unfold validateInput_number.
      destruct x; simpl; split; try discriminate; reflexivity.
    + apply S.
    + apply (S (toHexString i)).
  - intros x. unfold validateInput_number.
    destruct (parseFloatOf v); simpl; intros [= <-]; discriminate.
  - intros c rest -> D H. apply S in H. unfold numericPrefix in H.
    assert (W : isWhiteSpace c = false).
    { unfold isDigit in D. unfold isWhiteSpace.
      apply andb_true_iff in D as [D1 D2]. apply N.leb_le in D1, D2.
      repeat (apply orb_false_iff; split);
        try (apply andb_false_iff); try (apply N.eqb_neq);
        try (rewrite !N.leb_gt); try lia. }
    simpl trimStart in H. rewrite W in H.
    assert (Sg : spanSign (c :: rest) = (false, c :: rest)).
    { unfold isDigit in D. apply andb_true_iff in D as [D1 D2].
      apply N.leb_le in D1, D2. unfold spanSign.
      destruct c as [|p]; [reflexivity|].
      repeat (destruct p as [p|p|]; try reflexivity; try (exfalso; lia)). }
    rewrite Sg, D in H. rewrite orb_true_r in H. discriminate.
Qed.

Lemma number_accepts_by_prefix_witness :
  validateInput_number (VString (str "12 rupees")) = Some (lit "12")
  /\ validateInput_number (VString (str "12 rupees")) <> None
  /\ validateInput_number (VString (str "rupees 12")) = None.
Proof.
  split; [reflexivity|]. split; [|reflexivity].
  exact (proj2 (proj2 (number_accepts_by_prefix (VString (str "12 rupees"))))
               _ _ eq_refl eq_refl).
Defined.

(** ** The accessor without a connection *)

Lemma rethrow_disconnected {A} (k : jsstring -> M A) c w :
  ~ connected w ->
  try_catch (h <- getCollection c ;; k h) (fun error => throw error) w
  = (Thrown NotConnected, w).
Proof.
  intros H. rewrite rethrow_id.
  now rewrite (bind_Thrown _ _ _ _ _ (getCollection_disconnected _ c H)).
Qed.

(** X5: without an established connection every method of the accessor
    that reaches the store throws the connection error and leaves the
    process and the store as they were; [addServer] and [deleteServer] do
    so once their argument has passed validation. *)
Theorem accessor_fails_hard_when_disconnected (w : World) :
  ~ connected w ->
  getServers w = (Thrown NotConnected, w)
  /\ getServices w = (Thrown NotConnected, w)
  /\ getUsers w = (Thrown NotConnected, w)
  /\ deleteAllServers w = (Thrown NotConnected, w)
  /\ getFlags w = (Thrown NotConnected, w)
  /\ clearDashboardStats w = (Thrown NotConnected, w)
  /\ updateDashboardStats w = (Thrown NotConnected, w)
  /\ (forall serviceData, addService serviceData w = (Thrown NotConnected, w))
  /\ (forall flagData, addFlag flagData w = (Thrown NotConnected, w))
  /\ (forall flagsData, updateFlags flagsData w = (Thrown NotConnected, w))
  /\ (forall serverData,
         validServerData serverData ->
         addServer serverData w = (Thrown NotConnected, w))
  /\ (forall id s,
         validateInput.objectId id = Some s ->
         deleteServer id w = (Thrown NotConnected, w)).
Proof.
  intros H.
  repeat split; intros;
    try (apply (rethrow_disconnected _ _ _ H)).
  - unfold updateDashboardStats. rewrite rethrow_id.
    unfold bind at 1. unfold get at 1.
    now rewrite (bind_Thrown _ _ _ _ _ (getCollection_disconnected _ _ H)).
  - destruct H0 as (V1 & V2 & V3). unfold addServer. rewrite rethrow_id.
    unfold validField in *. rewrite V1, V2, V3. cbn [negb orb].
    now rewrite (bind_Thrown _ _ _ _ _ (getCollection_disconnected _ _ H)).
  - unfold deleteServer. rewrite rethrow_id, H0.
    now rewrite (bind_Thrown _ _ _ _ _ (getCollection_disconnected _ _ H)).
Qed.

Lemma accessor_fails_hard_when_disconnected_witness :
  ~ connected disconnectedWorld
  /\ getUsers disconnectedWorld = (Thrown NotConnected, disconnectedWorld)
  /\ addServer goodServerData disconnectedWorld
     = (Thrown NotConnected, disconnectedWorld).
Proof.
  assert (H : ~ connected disconnectedWorld) by (intros [H _]; discriminate H).
  split; [exact H|].
  destruct (accessor_fails_hard_when_disconnected disconnectedWorld H)
    as (_ & _ & U & _ & _ & _ & _ & _ & _ & _ & A & _).
  split; [exact U|]. apply A. repeat split.
Defined.

(** ** Deleting servers *)

Lemma coll_insert_ne (w : World) (s : gmap (list N) (list Doc)) c c' ds :
  c' <> c -> coll (setStore w (<[c := ds]> s)) c' = default [] (s !! c').
Proof. intros H. unfold coll. simpl. now rewrite lookup_insert_ne. Qed.

Lemma filter_negb_everyDoc ds :
  List.filter (fun d => negb (everyDoc d)) ds = [].
Proof. induction ds; simpl; auto. Qed.

Lemma deleteMany_all_nofault w c :
  faults w = [] ->
  exists w1,
    deleteMany c everyDoc w = (Returned (length (coll w c)), w1)
    /\ coll w1 c = []
    /\ (forall c', c' <> c -> coll w1 c' = coll w c')
    /\ faults w1 = [] /\ (connected w -> connected w1)
    /\ now w1 = now w /\ oidGen w1 = oidGen w /\ oidNext w1 = oidNext w.
Proof.
  intros Hf. unfold deleteMany.
  rewrite (bind_Returned _ _ _ _ _ (roundTrip_nofault w Hf)).
  cbv [bind get]. rewrite filter_negb_everyDoc. simpl length.
  rewrite Nat.sub_0_r.
  destruct (coll w c) as [|d ds] eqn:E.
  - exists w. simpl. repeat split; auto; now destruct H.
  - simpl length. eexists. split; [reflexivity|].
    split; [apply coll_insert|]. split.
    + intros c' Hc. now apply coll_insert_ne.
    + repeat split; auto; now destruct H.
Qed.

Lemma removeFirst_spec f ds :
  snd (removeFirst f ds) = (if existsb f ds then 1 else 0)%nat
  /\ (length (fst (removeFirst f ds)) + snd (removeFirst f ds))%nat = length ds
  /\ List.filter (fun d => negb (f d)) (fst (removeFirst f ds))
     = List.filter (fun d => negb (f d)) ds
  /\ (forall d, In d (fst (removeFirst f ds)) -> In d ds).
Proof.
  induction ds as [|d ds (I1 & I2 & I3 & I4)]; simpl; [auto|].
  destruct (f d) eqn:E; simpl.
  - split; [reflexivity|]. split; [lia|]. split; [reflexivity | auto].
  - destruct (removeFirst f ds) as [r n]. simpl in *. rewrite E. simpl.
    split; [exact I1|]. split; [lia|]. split; [congruence|].
    intros x [->|Hx]; auto.
Qed.

Lemma deleteServer_accepted w id s :
  validateInput.objectId id = Some s -> connected w -> faults w = [] ->
  deleteServer id w =
  match removeFirst (hasId (ObjectId s)) (coll w (str "servers")) with
  | (_, O) => (Returned (mkDeleteResult O), w)
  | (r, n) => (Returned (mkDeleteResult n),
               setStore w (<[str "servers" := r]> (store w)))
  end.
Proof.
  intros Hi Hc Hf. unfold deleteServer. rewrite rethrow_id, Hi.
  rewrite (bind_Returned _ _ _ _ _ (getCollection_ok _ (str "servers") Hc eq_refl)).
  unfold bind. rewrite deleteOne_nofault by exact Hf.
  destruct (removeFirst _ (coll w (str "servers"))) as [r [|n]]; reflexivity.
Qed.

(** X6: [deleteServer] on an accepted identifier removes at most one
    document, the first of that [_id], and nothing else.  The count it
    returns is 1 when the collection holds such a document and 0 when it
    does not, which is no error and changes nothing; the documents of any
    other [_id] stay, in their order, and so does every other
    collection. *)
Theorem deleteServer_removes_at_most_one (w : World) (id : value) (s : jsstring) :
  validateInput.objectId id = Some s -> connected w -> faults w = [] ->
  exists n w1,
    deleteServer id w = (Returned (mkDeleteResult n), w1)
    /\ n = (if existsb (hasId (ObjectId s)) (coll w (str "servers"))
            then 1 else 0)%nat
    /\ (length (coll w1 (str "servers")) + n)%nat
       = length (coll w (str "servers"))
    /\ List.filter (fun d => negb (hasId (ObjectId s) d)) (coll w1 (str "servers"))
       = List.filter (fun d => negb (hasId (ObjectId s) d)) (coll w (str "servers"))
    /\ (forall c, c <> str "servers" -> coll w1 c = coll w c)
    /\ (n = O -> w1 = w).
Proof.
  intros Hi Hc Hf. rewrite (deleteServer_accepted w id s Hi Hc Hf).
  destruct (removeFirst_spec (hasId (ObjectId s)) (coll w (str "servers")))
    as (S1 & S2 & S3 & _).
  destruct (removeFirst _ (coll w (str "servers"))) as [r [|n]];
    simpl in S1, S2, S3.
  - exists O, w. repeat split; auto.
  - eexists _, _. split; [reflexivity|]. rewrite coll_insert.
    repeat split; auto; try discriminate.
    intros c Hne. now apply coll_insert_ne.
Qed.

Lemma deleteServer_removes_at_most_one_witness :
  exists n w1,
    deleteServer (VString (toHexString 7)) stockedWorld
    = (Returned (mkDeleteResult n), w1)
    /\ n = 1%nat
    /\ length (coll w1 (str "servers")) = 1%nat
    /\ coll w1 (str "services") = stampedServices.
Proof.
  destruct (deleteServer_removes_at_most_one
              stockedWorld (VString (toHexString 7)) (toHexString 7)
              ltac:(vm_compute; reflexivity) (conj eq_refl eq_refl) eq_refl)
    as (n & w1 & D & N & L & _ & O & _).
  assert (N1 : n = 1%nat) by (rewrite N; vm_compute; reflexivity).
  assert (L2 : length (coll stockedWorld (str "servers")) = 2%nat)
    by (vm_compute; reflexivity).
  exists n, w1. split; [exact D|]. split; [exact N1|].
  split; [rewrite L2, N1 in L; lia|].
  rewrite O by discriminate. reflexivity.
Defined.

(** X7: [deleteAllServers] returns the number of servers there were and
    leaves none, and every other collection as it was; called again, or
    followed by [deleteServer] on any accepted identifier, the count is
    0. *)
Theorem deleteAllServers_empties (w : World) :
  connected w -> faults w = [] ->
  exists w1,
    deleteAllServers w
    = (Returned (mkDeleteResult (length (coll w (str "servers")))), w1)
    /\ coll w1 (str "servers") = []
    /\ (forall c, c <> str "servers" -> coll w1 c = coll w c)
    /\ deleteAllServers w1 = (Returned (mkDeleteResult 0), w1)
    /\ (forall id s, validateInput.objectId id = Some s ->
        deleteServer id w1 = (Returned (mkDeleteResult 0), w1))
    /\ getServers w1 = (Returned [], w1).
Proof.
  intros Hc Hf.
  destruct (deleteMany_all_nofault w (str "servers") Hf)
    as (w1 & D & E & O & Hf1 & Hc1 & _).
  specialize (Hc1 Hc).
  assert (A : forall w, connected w -> forall n w1,
            deleteMany (str "servers") everyDoc w = (Returned n, w1) ->
            deleteAllServers w = (Returned (mkDeleteResult n), w1)).
  { clear. intros w Hc n w1 D. unfold deleteAllServers. rewrite rethrow_id.
    rewrite (bind_Returned _ _ _ _ _
               (getCollection_ok _ (str "servers") Hc eq_refl)).
    now rewrite (bind_Returned _ _ _ _ _ D). }
  exists w1. split; [now apply A|]. split; [exact E|]. split; [exact O|].
  split; [|split].
  - destruct (deleteMany_all_nofault w1 (str "servers") Hf1) as (w2 & D2 & _).
    rewrite E in D2. simpl in D2.
    assert (w2 = w1) as ->.
    { unfold deleteMany in D2.
      rewrite (bind_Returned _ _ _ _ _ (roundTrip_nofault w1 Hf1)) in D2.
      cbv [bind get] in D2. rewrite E in D2. simpl in D2.
      now injection D2. }
    now apply A.
  - intros id s Hi. rewrite (deleteServer_accepted w1 id s Hi Hc1 Hf1).
    now rewrite E.
  - unfold getServers. rewrite rethrow_id.
    rewrite (bind_Returned _ _ _ _ _
               (getCollection_ok _ (str "servers") Hc1 eq_refl)).
    rewrite (find_nofault _ _ _ Hf1). now rewrite E.
Qed.

Lemma deleteAllServers_empties_witness :
  exists w1,
    deleteAllServers stockedWorld = (Returned (mkDeleteResult 2), w1)
    /\ coll w1 (str "servers") = []
    /\ coll w1 (str "services") = stampedServices
    /\ getServers w1 = (Returned [], w1).
Proof.
  destruct (deleteAllServers_empties stockedWorld (conj eq_refl eq_refl) eq_refl)
    as (w1 & D & E & O & _ & _ & G).
  assert (L2 : length (coll stockedWorld (str "servers")) = 2%nat)
    by (vm_compute; reflexivity).
  rewrite L2 in D.
  exists w1. split; [exact D|]. split; [exact E|]. split; [|exact G].
  rewrite O by discriminate. reflexivity.
Defined.

(** ** What [addServer] stores *)

Lemma string_clean v n r :
  validateInput.string v n = Some r ->
  Forall (fun c => dangerous c = false) r /\ (length r <= n)%nat.
Proof.
  destruct v as [| | b | x | s | i]; try discriminate. simpl.
  destruct (n <? length s)%nat eqn:E; [discriminate|].
  intros [= <-]. apply Nat.ltb_ge in E. split.
  - apply List.Forall_forall. intros c Hc. apply filter_In in Hc as [_ Hc].
    now destruct (dangerous c).
  - pose proof (filter_length_le (fun c => negb (dangerous c)) s). lia.
Qed.

Lemma str_or_clean o n dflt :
  (forall r, o = Some r ->
             Forall (fun c => dangerous c = false) r /\ (length r <= n)%nat) ->
  Forall (fun c => dangerous c = false) dflt -> (length dflt <= n)%nat ->
  Forall (fun c => dangerous c = false) (str_or o dflt)
  /\ (length (str_or o dflt) <= n)%nat.
Proof.
  intros H D L. destruct o as [[|c s]|]; simpl; auto.
Qed.

Lemma roundTrip_inv w w1 :
  roundTrip w = (Returned tt, w1) -> sameData w w1.
Proof. apply roundTrip_sameData. Qed.

(** An insertion that returns has appended the document under an [_id]
    the collection did not hold. *)
Lemma insertOne_inv c b w i w1 :
  insertOne c b w = (Returned i, w1) ->
  coll w1 c = coll w c ++ [mkDoc i None b]
  /\ existsb (hasId i) (coll w c) = false
  /\ touchesOnly c w w1.
Proof.
  unfold insertOne, newObjectId. cbv [bind get put ret].
  set (w0 := setOidNext w (S (oidNext w))).
  destruct (roundTrip w0) as [[[]|e] w2] eqn:R; [|discriminate].
  apply roundTrip_sameData in R. destruct R as [fs ->].
  change (coll (setFaults w0 fs) c) with (coll w c).
  destruct (existsb _ (coll w c)) eqn:E; [discriminate|].
  intros [= <- <-]. split; [apply coll_insert|]. split; [exact E|].
  unfold touchesOnly. repeat split.
  intros c' Hc. now apply coll_insert_ne.
Qed.

(** X8: whenever [addServer] returns, it has appended exactly one server
    document, under the [insertedId] it returns, which no server had;
    the name, country and flag stored are the sanitized ones, not empty,
    free of the five stripped characters and within 100, 10 and 50
    characters; the status and the description stored are sanitized too,
    [active] and the empty string when none is given; the two dates are
    the time of the call; every other collection is as it was. *)
Theorem addServer_stores_sanitized
        (w w1 : World) (serverData : ServerData) (r : InsertOneResult) :
  addServer serverData w = (Returned r, w1) ->
  exists server,
    coll w1 (str "servers")
    = coll w (str "servers") ++ [mkDoc (insertedId r) None (BServer server)]
    /\ existsb (hasId (insertedId r)) (coll w (str "servers")) = false
    /\ (forall c, c <> str "servers" -> coll w1 c = coll w c)
    /\ validateInput.string (sd_server_name serverData) 100
       = Some (Server.server_name server)
    /\ validateInput.string (sd_country serverData) 10
       = Some (Server.country server)
    /\ validateInput.string (sd_flag serverData) 50 = Some (Server.flag server)
    /\ Server.server_name server <> [] /\ Server.country server <> []
    /\ Server.flag server <> []
    /\ Server.status server
       = str_or (validateInput.string (sd_status serverData) 20) (str "active")
    /\ Server.description server
       = str_or (validateInput.string (sd_description serverData) 500) []
    /\ Forall (fun c => dangerous c = false)
              (Server.server_name server ++ Server.country server
               ++ Server.flag server ++ Server.status server
               ++ Server.description server)
    /\ (length (Server.server_name server) <= 100)%nat
    /\ (length (Server.country server) <= 10)%nat
    /\ (length (Server.flag server) <= 50)%nat
    /\ (length (Server.status server) <= 20)%nat
    /\ (length (Server.description server) <= 500)%nat
    /\ Server.createdAt server = now w /\ Server.updatedAt server = now w.
Proof.
  unfold addServer. rewrite rethrow_id.
  destruct (validateInput.string (sd_server_name serverData) 100)
    as [[|c1 s1]|] eqn:V1; try discriminate.
  destruct (validateInput.string (sd_country serverData) 10)
    as [[|c2 s2]|] eqn:V2; try discriminate.
  destruct (validateInput.string (sd_flag serverData) 50)
    as [[|c3 s3]|] eqn:V3; try discriminate.
  cbn [str_truthy negb orb str_or]. intros H.
  apply bind_inv in H as (h & w' & G & H).
  apply getCollection_inv in G as [-> G]. destruct (G _ eq_refl) as [-> _].
  rewrite !(bind_Returned _ _ _ _ _ (newDate_eq _)) in H.
  apply bind_inv in H as (i & w2 & I & H).
  cbv [ret] in H. injection H as <- <-.
  apply insertOne_inv in I as (C & F & T).
  destruct (string_clean _ _ _ V1) as [K1 L1].
  destruct (string_clean _ _ _ V2) as [K2 L2].
  destruct (string_clean _ _ _ V3) as [K3 L3].
  destruct (str_or_clean (validateInput.string (sd_status serverData) 20)
                         20 (str "active")) as [K4 L4];
    [intros; eapply string_clean; eassumption
    | repeat constructor | simpl; lia |].
  destruct (str_or_clean (validateInput.string (sd_description serverData) 500)
                         500 []) as [K5 L5];
    [intros; eapply string_clean; eassumption
    | constructor | simpl; lia |].
  eexists. split; [exact C|]. split; [exact F|].
  split; [apply T|]. cbn [Server.server_name Server.country Server.flag
                          Server.status Server.description
                          Server.createdAt Server.updatedAt insertedId].
  repeat split; try assumption; try discriminate.
  rewrite !Forall_app. auto.
Qed.

Lemma addServer_stores_sanitized_witness :
  exists r w1 server,
    addServer (mkServerData (VString (str "<b>Mumbai</b>")) (VString (str "IN"))
                            (VString (str "in")) VUndefined VUndefined)
              emptyWorld = (Returned r, w1)
    /\ coll w1 (str "servers") = [mkDoc (insertedId r) None (BServer server)]
    /\ Server.server_name server = str "bMumbai/b"
    /\ Server.status server = str "active".
Proof.
  destruct (addServer (mkServerData (VString (str "<b>Mumbai</b>"))
                                    (VString (str "IN")) (VString (str "in"))
                                    VUndefined VUndefined) emptyWorld)
    as [[r|e] w1] eqn:E; [|vm_compute in E; discriminate E].
  destruct (addServer_stores_sanitized _ _ _ _ E)
    as (server & C & _ & _ & N & _ & _ & _ & _ & _ & S & _).
  exists r, w1, server. split; [reflexivity|]. split; [exact C|].
  split; [|exact S]. simpl in N. now injection N.
Defined.


(** ** The dashboard cache *)

Lemma touchesOnly_refl c w : touchesOnly c w w.
Proof. unfold touchesOnly. auto 10. Qed.

Lemma touchesOnly_trans c w1 w2 w3 :
  touchesOnly c w1 w2 -> touchesOnly c w2 w3 -> touchesOnly c w1 w3.
Proof.
  intros (A1 & A2 & A3 & A4 & A5 & A6) (B1 & B2 & B3 & B4 & B5 & B6).
  unfold touchesOnly. repeat split; try congruence.
  intros c' H. now rewrite B1, A1.
Qed.

Lemma sameData_touchesOnly c w w' : sameData w w' -> touchesOnly c w w'.
Proof. intros [fs ->]. unfold touchesOnly. auto 10. Qed.

Lemma updateFirst_None f set ds :
  updateFirst f set ds = None <-> existsb f ds = false.
Proof.
  induction ds as [|d ds IH]; simpl; [tauto|].
  destruct (f d); simpl; [split; discriminate|].
  destruct (updateFirst f set ds); simpl.
  - split; [discriminate|]. intros H. now apply IH in H.
  - tauto.
Qed.

(** [updateFirst] rewrites the first match and nothing else. *)
Lemma updateFirst_Some f set ds ds' :
  updateFirst f set ds = Some ds' ->
  exists pre d post,
    ds = pre ++ d :: post /\ existsb f pre = false /\ f d = true
    /\ ds' = pre ++ mkDoc (_id d) (last_sync d) (set (body d)) :: post.
Proof.
  revert ds'. induction ds as [|x ds IH]; simpl; [discriminate|].
  intros ds'. destruct (f x) eqn:E.
  - intros [= <-]. now exists [], x, ds.
  - destruct (updateFirst f set ds) as [r|]; [|discriminate].
    intros [= <-]. destruct (IH _ eq_refl) as (pre & d & post & -> & P & D & ->).
    exists (x :: pre), d, post. simpl. now rewrite E, P.
Qed.

Lemma updateOneUpsert_inv c f set fresh w w1 :
  updateOneUpsert c f set fresh w = (Returned tt, w1) ->
  touchesOnly c w w1
  /\ match updateFirst f set (coll w c) with
     | Some ds => coll w1 c = ds
     | None =>
         exists i, coll w1 c = coll w c ++ [mkDoc i None fresh]
                   /\ existsb (hasId i) (coll w c) = false
     end.
Proof.
  unfold updateOneUpsert. intros H.
  apply bind_inv in H as ([] & w0 & R & H).
  apply roundTrip_sameData in R. destruct R as [fs ->].
  cbv [bind get] in H.
  change (coll (setFaults w fs) c) with (coll w c) in H.
  destruct (updateFirst f set (coll w c)) as [ds|].
  - cbv [put] in H. injection H as <-. split; [|apply coll_insert].
    unfold touchesOnly. repeat split. intros c' Hc. now apply coll_insert_ne.
  - cbv [newObjectId bind get put ret] in H.
    match type of H with
    | context [existsb ?g ?l] => destruct (existsb g l) eqn:E
    end; [discriminate|].
    injection H as <-. split.
    + unfold touchesOnly. repeat split. intros c' Hc. now apply coll_insert_ne.
    + eexists. split; [apply coll_insert | exact E].
Qed.

Lemma lift_inv {A} (r : Result A) w a w1 :
  lift r w = (Returned a, w1) -> r = Returned a /\ w1 = w.
Proof. destruct r; cbv [lift ret throw]; intros [= <- <-]; auto. Qed.

(** What a refresh that returns has done. *)
Lemma updateDashboardStats_inv w w1 b :
  updateDashboardStats w = (Returned b, w1) ->
  exists e,
    b = true /\ connected w
    /\ totalEarningsOf (coll w (str "services")) = Returned e
    /\ touchesOnly (str "stats") w w1
    /\ match updateFirst isDashboard (fun _ => BStats (statsOf w e))
                         (coll w (str "stats")) with
       | Some ds => coll w1 (str "stats") = ds
       | None =>
           exists i,
             coll w1 (str "stats")
             = coll w (str "stats") ++ [mkDoc i None (BStats (statsOf w e))]
             /\ existsb (hasId i) (coll w (str "stats")) = false
       end.
Proof.
  unfold updateDashboardStats. rewrite rethrow_id. intros H.
  unfold bind at 1 in H. unfold get at 1 in H.
  apply bind_inv in H as (h1 & w' & G & H).
  apply getCollection_inv in G as [-> G]. destruct (G _ eq_refl) as [-> Hc].
  apply bind_inv in H as (h2 & w' & G2 & H).
  apply getCollection_inv in G2 as [-> G2]. destruct (G2 _ eq_refl) as [-> _].
  apply bind_inv in H as (h3 & w' & G3 & H).
  apply getCollection_inv in G3 as [-> G3]. destruct (G3 _ eq_refl) as [-> _].
  apply bind_inv in H as (n1 & w2 & C1 & H).
  apply countDocuments_inv in C1 as [S1 ->].
  apply bind_inv in H as (n2 & w3 & C2 & H).
  apply countDocuments_inv in C2 as [S2 ->].
  apply bind_inv in H as (services & w4 & F & H).
  apply find_inv in F as [S3 ->].
  apply bind_inv in H as (e & w5 & L & H).
  apply lift_inv in L as [L ->].
  rewrite (bind_Returned _ _ _ _ _ (newDate_eq _)) in H.
  apply bind_inv in H as ([] & w6 & U & H).
  cbv [ret] in H. injection H as <- <-.
  pose proof (sameData_trans _ _ _ S1 S2) as T2.
  pose proof (sameData_trans _ _ _ T2 S3) as T3.
  apply updateOneUpsert_inv in U as [T U].
  rewrite (sameData_coll _ _ _ T2) in L.
  rewrite (sameData_coll _ _ _ T3) in U.
  rewrite filter_everyDoc, (sameData_coll _ _ _ T2),
    (sameData_now _ _ T3) in U.
  exists e. split; [reflexivity|]. split; [exact Hc|]. split; [exact L|].
  split.
  - eapply touchesOnly_trans; [apply sameData_touchesOnly, T3 | exact T].
  - exact U.
Qed.

Lemma isDashboard_statsOf i ls w e :
  isDashboard (mkDoc i ls (BStats (statsOf w e))) = true.
Proof. reflexivity. Qed.

Lemma filter_length_app (f : Doc -> bool) a b :
  length (List.filter f (a ++ b))
  = (length (List.filter f a) + length (List.filter f b))%nat.
Proof. now rewrite List.filter_app, length_app. Qed.

Lemma filter_none (f : Doc -> bool) ds :
  existsb f ds = false -> List.filter f ds = [].
Proof.
  induction ds as [|d ds IH]; simpl; [reflexivity|].
  intros H. apply orb_false_iff in H as [-> H]. auto.
Qed.

Lemma find_none (f : Doc -> bool) ds :
  existsb f ds = false -> List.find f ds = None.
Proof.
  induction ds as [|d ds IH]; simpl; [reflexivity|].
  intros H. apply orb_false_iff in H as [-> H]. auto.
Qed.

Lemma find_app_first (f : Doc -> bool) pre d post :
  existsb f pre = false -> f d = true ->
  List.find f (pre ++ d :: post) = Some d.
Proof.
  induction pre as [|x pre IH]; simpl; intros P D.
  - now rewrite D.
  - apply orb_false_iff in P as [-> P]. auto.
Qed.

(** X9: a refresh that returns has left exactly as many dashboard
    documents as there were, and one when there was none: the cache stays
    a singleton.  The first dashboard document then holds the totals of
    the services of the store: their number as [totalSold], the sum of
    their users, the earnings printed with two decimals.  No other
    collection is written, and no other document of the cache. *)
Theorem refresh_keeps_singleton (w w1 : World) (b : bool) :
  updateDashboardStats w = (Returned b, w1) ->
  b = true
  /\ length (List.filter isDashboard (coll w1 (str "stats")))
     = Nat.max 1 (length (List.filter isDashboard (coll w (str "stats"))))
  /\ (forall c, c <> str "stats" -> coll w1 c = coll w c)
  /\ List.filter (fun d => negb (isDashboard d)) (coll w1 (str "stats"))
     = List.filter (fun d => negb (isDashboard d)) (coll w (str "stats"))
  /\ exists e d,
      totalEarningsOf (coll w (str "services")) = Returned e
      /\ List.find isDashboard (coll w1 (str "stats")) = Some d
      /\ body d = BStats (statsOf w e)
      /\ Stats.totalSold (statsOf w e) = length (coll w (str "services"))
      /\ Stats.totalEarnings (statsOf w e) = rupee :: toFixed e 2.
Proof.
  intros H. apply updateDashboardStats_inv in H as (e & -> & Hc & E & T & U).
  split; [reflexivity|].
  destruct (updateFirst isDashboard _ (coll w (str "stats"))) as [ds|] eqn:F.
  - apply updateFirst_Some in F as (pre & d & post & S & P & D & ->).
    rewrite U, S. rewrite !filter_length_app, !List.filter_app. simpl.
    rewrite D. simpl. split; [lia|]. split; [apply T|]. split; [reflexivity|].
    exists e. eexists. split; [exact E|]. split.
    + apply find_app_first; [exact P | reflexivity].
    + repeat split.
  - apply updateFirst_None in F. destruct U as (i & U & Hi).
    rewrite U, filter_length_app, !List.filter_app, (filter_none _ _ F). simpl.
    split; [reflexivity|]. split; [apply T|].
    split; [now rewrite app_nil_r|].
    exists e. eexists. split; [exact E|]. split.
    + apply find_app_first; [exact F | reflexivity].
    + repeat split.
Qed.

Lemma refresh_keeps_singleton_witness :
  exists w1,
    updateDashboardStats malformedWorld = (Returned true, w1)
    /\ length (List.filter isDashboard (coll w1 (str "stats"))) = 1%nat
    /\ coll w1 (str "services") = malformedServices.
Proof.
  destruct (updateDashboardStats malformedWorld) as [[b|e] w1] eqn:E;
    [|vm_compute in E; discriminate E].
  destruct (refresh_keeps_singleton _ _ _ E) as (-> & C & O & _).
  exists w1. split; [reflexivity|]. split; [exact C|].
  rewrite O by discriminate. reflexivity.
Defined.

Lemma updateFirst_app f set pre d post :
  existsb f pre = false -> f d = true ->
  updateFirst f set (pre ++ d :: post)
  = Some (pre ++ mkDoc (_id d) (last_sync d) (set (body d)) :: post).
Proof.
  induction pre as [|x pre IH]; simpl; intros P D.
  - now rewrite D.
  - apply orb_false_iff in P as [-> P]. now rewrite IH.
Qed.

Lemma updateOneUpsert_existing c f set fresh w ds :
  faults w = [] -> updateFirst f set (coll w c) = Some ds ->
  updateOneUpsert c f set fresh w
  = (Returned tt, setStore w (<[c := ds]> (store w))).
Proof.
  intros Hf U. unfold updateOneUpsert.
  rewrite (bind_Returned _ _ _ _ _ (roundTrip_nofault w Hf)).
  cbv [bind get]. now rewrite U.
Qed.

Lemma updateDashboardStats_existing w e ds :
  connected w -> faults w = [] ->
  totalEarningsOf (coll w (str "services")) = Returned e ->
  updateFirst isDashboard (fun _ => BStats (statsOf w e)) (coll w (str "stats"))
  = Some ds ->
  updateDashboardStats w
  = (Returned true, setStore w (<[str "stats" := ds]> (store w))).
Proof.
  intros Hc Hf E U. unfold updateDashboardStats. rewrite rethrow_id.
  unfold bind at 1. unfold get at 1.
  rewrite (bind_Returned _ _ _ _ _ (getCollection_ok _ (str "services") Hc eq_refl)).
  rewrite (bind_Returned _ _ _ _ _ (getCollection_ok _ (str "servers") Hc eq_refl)).
  rewrite (bind_Returned _ _ _ _ _ (getCollection_ok _ (str "stats") Hc eq_refl)).
  rewrite !(bind_Returned _ _ _ _ _ (countDocuments_nofault _ _ _ Hf)).
  rewrite (bind_Returned _ _ _ _ _ (find_nofault _ _ _ Hf)).
  rewrite E. cbn [lift].
  unfold bind at 1. cbv [ret].
  rewrite (bind_Returned _ _ _ _ _ (newDate_eq _)).
  rewrite filter_everyDoc.
  now rewrite (bind_Returned _ _ _ _ _
                 (updateOneUpsert_existing _ _ _ _ _ _ Hf U)).
Qed.

(** After a refresh the cache holds a first dashboard document with the
    totals of that refresh. *)
Lemma refresh_shape w w1 b :
  updateDashboardStats w = (Returned b, w1) ->
  exists e pre d post,
    totalEarningsOf (coll w (str "services")) = Returned e
    /\ connected w /\ touchesOnly (str "stats") w w1
    /\ coll w1 (str "stats") = pre ++ d :: post
    /\ existsb isDashboard pre = false
    /\ body d = BStats (statsOf w e).
Proof.
  intros H. apply updateDashboardStats_inv in H as (e & -> & Hc & E & T & U).
  exists e.
  destruct (updateFirst isDashboard _ (coll w (str "stats"))) as [ds|] eqn:F.
  - apply updateFirst_Some in F as (pre & d & post & S & P & D & ->).
    eexists pre, _, post.
    split; [exact E|]. split; [exact Hc|]. split; [exact T|].
    split; [exact U|]. split; [exact P | reflexivity].
  - apply updateFirst_None in F. destruct U as (i & U & _).
    eexists _, _, [].
    split; [exact E|]. split; [exact Hc|]. split; [exact T|].
    split; [exact U|]. split; [exact F | reflexivity].
Qed.

(** X10: a refresh run again on unchanged services, at whatever later
    time and with no failing round trip, leaves the cache as the first
    run left it but for the time of the update, and inserts no second
    dashboard document. *)
Theorem refresh_twice (w w1 : World) (b : bool) (t : Z) :
  updateDashboardStats w = (Returned b, w1) -> faults w1 = [] ->
  exists w2,
    updateDashboardStats (setNow w1 t) = (Returned true, w2)
    /\ map eraseUpdatedAt (coll w2 (str "stats"))
       = map eraseUpdatedAt (coll w1 (str "stats"))
    /\ map _id (coll w2 (str "stats")) = map _id (coll w1 (str "stats"))
    /\ (forall c, c <> str "stats" -> coll w2 c = coll w c).
Proof.
  intros H Hf.
  apply refresh_shape in H as (e & pre & d & post & E & Hc & T & S & P & B).
  destruct T as (T1 & T2 & T3 & T4 & T5 & T6).
  assert (Hc1 : connected (setNow w1 t)).
  { destruct Hc. split; simpl; congruence. }
  assert (Sv : coll (setNow w1 t) (str "services") = coll w (str "services"))
    by (apply T1; discriminate).
  assert (D : isDashboard d = true).
  { unfold isDashboard, docType. now rewrite B. }
  eexists. split.
  - eapply (updateDashboardStats_existing (setNow w1 t) e); auto.
    + now rewrite Sv.
    + change (coll (setNow w1 t) (str "stats")) with (coll w1 (str "stats")).
      rewrite S. now apply updateFirst_app.
  - rewrite coll_insert, S, !map_app. simpl map.
    split; [|split; [reflexivity|]].
    + f_equal. f_equal. unfold eraseUpdatedAt. simpl. rewrite B. simpl.
      unfold statsOf. simpl. rewrite Sv, T3. reflexivity.
    + intros c Hne. rewrite coll_insert_ne by exact Hne.
      now apply T1.
Qed.

Lemma refresh_twice_witness :
  exists w1 w2,
    updateDashboardStats malformedWorld = (Returned true, w1)
    /\ updateDashboardStats (setNow w1 1800000000000) = (Returned true, w2)
    /\ map eraseUpdatedAt (coll w2 (str "stats"))
       = map eraseUpdatedAt (coll w1 (str "stats")).
Proof.
  destruct (updateDashboardStats malformedWorld) as [[b|e] w1] eqn:E;
    [|vm_compute in E; discriminate E].
  assert (Hf : faults w1 = []).
  { vm_compute in E. injection E as _ <-. reflexivity. }
  destruct (refresh_twice _ _ _ 1800000000000 E Hf) as (w2 & U & M & _).
  exists w1, w2. split; [|split; assumption].
  vm_compute in E. injection E as <- _. reflexivity.
Defined.

Lemma removeFirst_filter (f : Doc -> bool) ds :
  length (List.filter f (fst (removeFirst f ds)))
  = pred (length (List.filter f ds)).
Proof.
  induction ds as [|d ds IH]; simpl; [reflexivity|].
  destruct (f d) eqn:E; simpl; [reflexivity|].
  destruct (removeFirst f ds) as [r n]. simpl in *. now rewrite E.
Qed.

Lemma clearDashboardStats_nofault w :
  connected w -> faults w = [] ->
  exists w1,
    clearDashboardStats w
    = (Returned (existsb isDashboard (coll w (str "stats"))), w1)
    /\ coll w1 (str "stats")
       = fst (removeFirst isDashboard (coll w (str "stats")))
    /\ (forall c, c <> str "stats" -> coll w1 c = coll w c)
    /\ connected w1 /\ faults w1 = []
    /\ (existsb isDashboard (coll w (str "stats")) = false -> w1 = w).
Proof.
  intros Hc Hf. unfold clearDashboardStats. rewrite rethrow_id.
  rewrite (bind_Returned _ _ _ _ _ (getCollection_ok _ (str "stats") Hc eq_refl)).
  unfold bind. rewrite deleteOne_nofault by exact Hf.
  destruct (removeFirst_spec isDashboard (coll w (str "stats")))
    as (S1 & _).
  destruct (removeFirst isDashboard (coll w (str "stats"))) as [r [|n]] eqn:R;
    simpl in S1.
  - exists w. destruct (existsb isDashboard _); [discriminate|].
    split; [reflexivity|]. split.
    + pose proof (removeFirst_absent isDashboard (coll w (str "stats"))) as A.
      destruct (existsb isDashboard (coll w (str "stats"))) eqn:X.
      * destruct (removeFirst_spec isDashboard (coll w (str "stats")))
          as (S1' & _). rewrite R, X in S1'. discriminate.
      * rewrite R in A. now injection (A eq_refl).
    + auto.
  - eexists. destruct (existsb isDashboard _); [|discriminate].
    split; [reflexivity|]. split; [apply coll_insert|].
    split; [intros c Hne; now apply coll_insert_ne|].
    split; [exact Hc|]. split; [exact Hf | discriminate].
Qed.

(** X11: [clearDashboardStats] returns whether the cache held a
    dashboard document, removes the first one and nothing else; after a
    refresh of a cache that held at most one, it returns true and leaves
    no dashboard document, and called again it returns false and changes
    nothing. *)
Theorem clear_after_refresh (w : World) :
  (connected w -> faults w = [] ->
   exists w1,
     clearDashboardStats w
     = (Returned (existsb isDashboard (coll w (str "stats"))), w1)
     /\ length (List.filter isDashboard (coll w1 (str "stats")))
        = pred (length (List.filter isDashboard (coll w (str "stats"))))
     /\ List.filter (fun d => negb (isDashboard d)) (coll w1 (str "stats"))
        = List.filter (fun d => negb (isDashboard d)) (coll w (str "stats"))
     /\ (forall c, c <> str "stats" -> coll w1 c = coll w c))
  /\ (forall b w1,
         updateDashboardStats w = (Returned b, w1) -> faults w1 = [] ->
         (length (List.filter isDashboard (coll w (str "stats"))) <= 1)%nat ->
         exists w2,
           clearDashboardStats w1 = (Returned true, w2)
           /\ List.filter isDashboard (coll w2 (str "stats")) = []
           /\ clearDashboardStats w2 = (Returned false, w2)).
Proof.
  split.
  - intros Hc Hf.
    destruct (clearDashboardStats_nofault w Hc Hf) as (w1 & C & S & O & _).
    exists w1. split; [exact C|]. rewrite S.
    split; [apply removeFirst_filter|]. split; [|exact O].
    now destruct (removeFirst_spec isDashboard (coll w (str "stats")))
      as (_ & _ & F & _).
  - intros b w1 U Hf L.
    pose proof (refresh_shape _ _ _ U)
      as (e & pre & d & post & E & Hc & T & S & P & B).
    assert (C1 : length (List.filter isDashboard (coll w1 (str "stats")))
                 = 1%nat).
    { apply updateDashboardStats_inv in U as (e' & _ & _ & _ & _ & U).
      destruct (updateFirst isDashboard _ (coll w (str "stats"))) as [ds|] eqn:F.
      - apply updateFirst_Some in F as (pre' & d' & post' & S' & P' & D' & ->).
        rewrite U. rewrite S' in L.
        rewrite filter_length_app in *. simpl in *. rewrite D' in L.
        simpl in *. lia.
      - apply updateFirst_None in F. destruct U as (i & -> & _).
        rewrite filter_length_app, (filter_none _ _ F). reflexivity. }
    assert (Hc1 : connected w1).
    { destruct T as (_ & _ & _ & T4 & T5 & _). destruct Hc.
      split; congruence. }
    destruct (clearDashboardStats_nofault w1 Hc1 Hf)
      as (w2 & C & S2 & _ & Hc2 & Hf2 & _).
    assert (X : existsb isDashboard (coll w1 (str "stats")) = true).
    { destruct (existsb isDashboard (coll w1 (str "stats"))) eqn:X; auto.
      rewrite (filter_none _ _ X) in C1. discriminate. }
    rewrite X in C.
    assert (N : List.filter isDashboard (coll w2 (str "stats")) = []).
    { apply length_zero_iff_nil. rewrite S2, removeFirst_filter, C1.
      reflexivity. }
    exists w2. split; [exact C|]. split; [exact N|].
    destruct (clearDashboardStats_nofault w2 Hc2 Hf2)
      as (w3 & C3 & _ & _ & _ & _ & Z).
    assert (X2 : existsb isDashboard (coll w2 (str "stats")) = false).
    { destruct (existsb isDashboard (coll w2 (str "stats"))) eqn:X2; auto.
      apply existsb_exists in X2 as (x & Hin & Hx).
      assert (In x (List.filter isDashboard (coll w2 (str "stats"))))
        by (apply filter_In; auto).
      rewrite N in H. destruct H. }
    rewrite X2 in C3. now rewrite (Z X2) in C3.
Qed.

Lemma clear_after_refresh_witness :
  exists w1 w2,
    updateDashboardStats malformedWorld = (Returned true, w1)
    /\ clearDashboardStats w1 = (Returned true, w2)
    /\ clearDashboardStats w2 = (Returned false, w2).
Proof.
  destruct (updateDashboardStats malformedWorld) as [[b|e] w1] eqn:E;
    [|vm_compute in E; discriminate E].
  assert (Hf : faults w1 = []).
  { vm_compute in E. injection E as _ <-. reflexivity. }
  assert (L : (length (List.filter isDashboard
                                   (coll malformedWorld (str "stats"))) <= 1)%nat)
    by (vm_compute; lia).
  destruct (proj2 (clear_after_refresh malformedWorld) _ _ E Hf L)
    as (w2 & C1 & _ & C2).
  exists w1, w2. split; [|split; assumption].
  vm_compute in E. injection E as <- _. reflexivity.
Defined.

(** ** Flags: writing and reading back *)

Lemma setOidNext_same w : setOidNext w (oidNext w) = w.
Proof. now destruct w. Qed.

Lemma nextIds_S n w :
  nextIds (S n) w = nextId w :: nextIds n (setOidNext w (S (oidNext w))).
Proof.
  unfold nextIds, nextId. simpl seq. simpl map. rewrite Nat.add_0_r. f_equal.
  rewrite <- seq_shift, map_map. apply map_ext. intros k.
  cbn [oidGen oidNext setOidNext]. now rewrite Nat.add_succ_r.
Qed.

Lemma nextIds_length n w : length (nextIds n w) = n.
Proof. unfold nextIds. now rewrite length_map, length_seq. Qed.

Lemma newObjectIds_eq n :
  forall w,
    newObjectIds n w = (Returned (nextIds n w), setOidNext w (n + oidNext w)).
Proof.
  induction n as [|n IH]; intros w.
  - simpl. now rewrite setOidNext_same.
  - simpl newObjectIds. unfold newObjectId at 1. cbv [bind get put ret].
    rewrite IH. rewrite nextIds_S. unfold nextId.
    cbn [oidGen oidNext setOidNext]. now rewrite Nat.add_succ_r.
Qed.

Lemma insertEach_frame c ds :
  forall w r w',
    insertEach c ds w = (r, w') ->
    touchesOnly c w w' /\ faults w' = faults w /\ oidNext w' = oidNext w.
Proof.
  induction ds as [|d ds IH]; intros w r w'; simpl insertEach.
  - intros [= <- <-]. split; [apply touchesOnly_refl | auto].
  - cbv [bind get put].
    destruct (existsb (hasId (_id d)) (coll w c)).
    + intros [= <- <-]. split; [apply touchesOnly_refl | auto].
    + intros H. apply IH in H as (T & F & O). split; [|auto].
      eapply touchesOnly_trans; [|exact T].
      unfold touchesOnly. split; [|auto 10].
      intros c' Hne. now apply coll_insert_ne.
Qed.

Lemma combine_ids (ids : list N) (bs : list Body) :
  length ids = length bs ->
  map _id (map (fun '(i, b) => mkDoc i None b) (combine ids bs)) = ids
  /\ map body (map (fun '(i, b) => mkDoc i None b) (combine ids bs)) = bs.
Proof.
  revert bs. induction ids as [|i ids IH]; intros [|b bs] H;
    try discriminate; [auto|].
  simpl. injection H as H. destruct (IH bs H) as [-> ->]. auto.
Qed.

Lemma insertMany_fresh w c bs :
  faults w = [] -> coll w c = [] ->
  List.NoDup (nextIds (length bs) w) ->
  exists w1,
    insertMany c bs w = (Returned tt, w1)
    /\ map _id (coll w1 c) = nextIds (length bs) w
    /\ map body (coll w1 c) = bs
    /\ touchesOnly c w w1 /\ faults w1 = [].
Proof.
  intros Hf He ND. unfold insertMany.
  rewrite (bind_Returned _ _ _ _ _ (newObjectIds_eq _ w)).
  set (w0 := setOidNext w (length bs + oidNext w)).
  assert (Hf0 : faults w0 = []) by exact Hf.
  rewrite (bind_Returned _ _ _ _ _ (roundTrip_nofault w0 Hf0)).
  set (docs := map (fun '(i, b) => mkDoc i None b)
                   (combine (nextIds (length bs) w) bs)).
  destruct (combine_ids (nextIds (length bs) w) bs (nextIds_length _ _))
    as [Hids Hbodies]. fold docs in Hids, Hbodies.
  destruct (insertEach_fresh c docs w0) as (w1 & E & C).
  - now rewrite Hids.
  - intros d _. change (coll w0 c) with (coll w c). now rewrite He.
  - change (coll w0 c) with (coll w c) in C. rewrite He in C. simpl in C.
    exists w1. split; [exact E|]. rewrite C.
    split; [exact Hids|]. split; [exact Hbodies|].
    destruct (insertEach_frame _ _ _ _ _ E) as (T & F & _).
    split; [|now rewrite F].
    eapply touchesOnly_trans; [|exact T].
    unfold touchesOnly. auto 10.
Qed.

Lemma assignFlag_fold_other t (fd : list (jsstring * jsstring)) :
  forall m k,
    k = str "__proto__" \/ ~ In k (map fst fd) ->
    fold_left assignFlag
              (map (fun '(country, flag) => BFlag (Flag.mk country flag t t)) fd)
              m !! k
    = m !! k.
Proof.
  induction fd as [|[c f] fd IH]; intros m k H; simpl; [reflexivity|].
  rewrite IH by (destruct H as [H|H]; [now left | right; simpl in H; tauto]).
  unfold assignFlag. cbn [fieldCountry fieldFlag Flag.country Flag.flag].
  destruct (str_eqb c (str "__proto__")) eqn:E; [reflexivity|].
  apply lookup_insert_ne. intros ->. destruct H as [->|H].
  - assert (X : str_eqb (str "__proto__") (str "__proto__") = true)
      by now apply str_eqb_eq.
    rewrite X in E. discriminate.
  - apply H. now left.
Qed.

Lemma assignFlag_fold_in t (fd : list (jsstring * jsstring)) :
  forall m k v,
    List.NoDup (map fst fd) -> In (k, v) fd -> k <> str "__proto__" ->
    fold_left assignFlag
              (map (fun '(country, flag) => BFlag (Flag.mk country flag t t)) fd)
              m !! k
    = Some (Some v).
Proof.
  induction fd as [|[c f] fd IH]; intros m k v ND Hin Hk; [destruct Hin|].
  simpl in ND. inversion ND as [|? ? Hc ND']; subst.
  destruct Hin as [[= -> ->]|Hin]; simpl.
  - rewrite assignFlag_fold_other by now right.
    unfold assignFlag. cbn [fieldCountry fieldFlag Flag.country Flag.flag].
    destruct (str_eqb k (str "__proto__")) eqn:E.
    + apply str_eqb_eq in E. contradiction.
    + apply lookup_insert_eq.
  - now apply IH.
Qed.

Lemma updateFlags_nofault w (flagsData : list (jsstring * jsstring)) :
  connected w -> faults w = [] ->
  List.NoDup (nextIds (length flagsData) w) ->
  exists w1,
    updateFlags flagsData w = (Returned true, w1)
    /\ map _id (coll w1 (str "flags"))
       = match flagsData with
         | [] => []
         | _ => nextIds (length flagsData) w
         end
    /\ map body (coll w1 (str "flags"))
       = map (fun '(country, flag) =>
                BFlag (Flag.mk country flag (now w) (now w))) flagsData
    /\ (forall c, c <> str "flags" -> coll w1 c = coll w c)
    /\ connected w1 /\ faults w1 = [] /\ now w1 = now w
    /\ oidGen w1 = oidGen w
    /\ (flagsData = [] -> oidNext w1 = oidNext w).
Proof.
  intros Hc Hf ND. unfold updateFlags. rewrite rethrow_id.
  rewrite (bind_Returned _ _ _ _ _ (getCollection_ok _ (str "flags") Hc eq_refl)).
  destruct (deleteMany_all_nofault w (str "flags") Hf)
    as (w0 & D & E0 & O0 & F0 & C0 & N0 & G0 & X0).
  rewrite (bind_Returned _ _ _ _ _ D).
  rewrite (bind_Returned _ _ _ _ _ (newDate_eq _)). rewrite N0.
  destruct flagsData as [|e fd].
  - exists w0. cbv [map ret]. rewrite E0. auto 10.
  - set (bs := map (fun '(country, flag) =>
                      BFlag (Flag.mk country flag (now w) (now w))) (e :: fd)).
    assert (L : length bs = length (e :: fd)) by apply length_map.
    assert (NI : nextIds (length bs) w0 = nextIds (length (e :: fd)) w).
    { rewrite L. unfold nextIds. now rewrite G0, X0. }
    destruct (insertMany_fresh w0 (str "flags") bs F0 E0)
      as (w1 & I & Hids & Hb & T & F1); [now rewrite NI|].
    exists w1.
    assert (R : (match bs with
                 | [] => ret true
                 | _ :: _ => insertMany (str "flags") bs ;; ret true
                 end) w0 = (Returned true, w1)).
    { subst bs. destruct e. cbn [map].
      cbn [map] in I. now rewrite (bind_Returned _ _ _ _ _ I). }
    split; [exact R|].
    destruct T as (T1 & T2 & T3 & T4 & T5 & T6).
    split; [now rewrite Hids, NI|]. split; [exact Hb|].
    split; [intros c Hne; now rewrite T1, O0|].
    split.
    { specialize (C0 Hc). destruct C0. split; congruence. }
    split; [exact F1|]. split; [congruence|]. split; [congruence|].
    discriminate.
Qed.

(** X12: [updateFlags] followed by [getFlags] gives back the entries
    written, except an entry under the key [__proto__], and nothing of
    what the collection held before; no default flag is seeded and no
    other collection changes. *)
Theorem updateFlags_then_getFlags
        (w : World) (flagsData : list (jsstring * jsstring)) :
  connected w -> faults w = [] -> flagsData <> [] ->
  List.NoDup (map fst flagsData) ->
  List.NoDup (nextIds (length flagsData) w) ->
  exists w1 m,
    updateFlags flagsData w = (Returned true, w1)
    /\ getFlags w1 = (Returned m, w1)
    /\ (forall country flag,
           In (country, flag) flagsData -> country <> str "__proto__" ->
           m !! country = Some (Some flag))
    /\ (forall country, ~ In country (map fst flagsData) -> m !! country = None)
    /\ m !! str "__proto__" = None
    /\ length (coll w1 (str "flags")) = length flagsData
    /\ (forall c, c <> str "flags" -> coll w1 c = coll w c).
Proof.
  intros Hc Hf Hne NDk NDi.
  destruct (updateFlags_nofault w flagsData Hc Hf NDi)
    as (w1 & U & Hids & Hb & O & Hc1 & Hf1 & _).
  assert (Hne1 : coll w1 (str "flags") <> []).
  { intros E. rewrite E in Hb. destruct flagsData; [now apply Hne|].
    discriminate. }
  exists w1, (flagsObjectOf (coll w1 (str "flags"))).
  split; [exact U|].
  split; [now apply getFlags_nonempty_nofault|].
  unfold flagsObjectOf. rewrite Hb.
  split; [intros country flag Hin Hk; now apply assignFlag_fold_in|].
  split; [intros country Hn; rewrite assignFlag_fold_other by (now right);
          apply lookup_empty|].
  split; [rewrite assignFlag_fold_other by (now left); apply lookup_empty|].
  split; [|exact O].
  rewrite <- (length_map body), Hb. apply length_map.
Qed.

Lemma updateFlags_then_getFlags_witness :
  exists w1 m,
    updateFlags [(str "Nepal", str "NP"); (str "__proto__", str "x")] flagWorld
    = (Returned true, w1)
    /\ getFlags w1 = (Returned m, w1)
    /\ m !! str "Nepal" = Some (Some (str "NP"))
    /\ m !! str "__proto__" = None.
Proof.
  assert (ND1 : List.NoDup
                  (map fst [(str "Nepal", str "NP"); (str "__proto__", str "x")])).
  { repeat constructor; simpl; [|tauto]. intros [H|[]]. discriminate H. }
  assert (ND2 : List.NoDup (nextIds 2 flagWorld)).
  { vm_compute. repeat constructor; simpl; [|tauto]. intros [H|[]].
    discriminate H. }
  destruct (updateFlags_then_getFlags flagWorld
              [(str "Nepal", str "NP"); (str "__proto__", str "x")]
              (conj eq_refl eq_refl) eq_refl ltac:(discriminate) ND1 ND2)
    as (w1 & m & U & G & In1 & _ & P & _).
  exists w1, m. split; [exact U|]. split; [exact G|]. split; [|exact P].
  apply In1; [now left | discriminate].
Defined.

(** X13: [updateFlags] with an object without entries empties the flag
    collection and reports success; the next [getFlags] then finds it
    empty, stores the five default flags and returns them. *)
Theorem updateFlags_empty_then_getFlags (w : World) :
  connected w -> faults w = [] -> List.NoDup (nextIds 5 w) ->
  exists w1 w2,
    updateFlags [] w = (Returned true, w1)
    /\ coll w1 (str "flags") = []
    /\ (forall c, c <> str "flags" -> coll w1 c = coll w c)
    /\ getFlags w1
       = (Returned (fold_left assignFlag (defaultFlags 0) empty), w2)
    /\ map body (coll w2 (str "flags")) = defaultFlags (now w).
Proof.
  intros Hc Hf ND.
  destruct (updateFlags_nofault w [] Hc Hf ltac:(constructor))
    as (w1 & U & Hids & _ & O & Hc1 & Hf1 & N1 & G1 & X1).
  assert (E1 : coll w1 (str "flags") = []) by now apply map_eq_nil in Hids.
  assert (ND1 : List.NoDup (nextIds 5 w1)).
  { unfold nextIds in *. now rewrite G1, (X1 eq_refl). }
  destruct (getFlags_empty w1 E1 Hc1 Hf1 ND1) as (w2 & G & B & _).
  exists w1, w2. rewrite N1 in B. auto 10.
Qed.

Lemma updateFlags_empty_then_getFlags_witness :
  exists w1 w2 m,
    updateFlags [] flagWorld = (Returned true, w1)
    /\ getFlags w1 = (Returned m, w2)
    /\ m !! str "Nepal" = None
    /\ m !! str "India" = Some (Some [55356; 56814; 55356; 56819]%N).
Proof.
  assert (ND : List.NoDup (nextIds 5 flagWorld)).
  { vm_compute. repeat constructor; simpl; intuition discriminate. }
  destruct (updateFlags_empty_then_getFlags flagWorld
              (conj eq_refl eq_refl) eq_refl ND)
    as (w1 & w2 & U & _ & _ & G & _).
  exists w1, w2, (fold_left assignFlag (defaultFlags 0) empty).
  split; [exact U|]. split; [exact G|]. split; reflexivity.
Defined.

(** X14: [updateFlags] is not atomic.  When the round trip of its
    [deleteMany] succeeds and the round trip of its [insertMany] fails,
    it throws the failure and the flag collection is left empty: the
    flags stored before are lost and none of the new ones is stored. *)
Theorem updateFlags_not_atomic
        (w : World) (flagsData : list (jsstring * jsstring)) (fs : list bool) :
  connected w -> flagsData <> [] -> faults w = false :: true :: fs ->
  exists w1,
    updateFlags flagsData w = (Thrown StoreFailure, w1)
    /\ coll w1 (str "flags") = []
    /\ (forall c, c <> str "flags" -> coll w1 c = coll w c)
    /\ faults w1 = fs.
Proof.
  intros Hc Hne Hf. unfold updateFlags. rewrite rethrow_id.
  rewrite (bind_Returned _ _ _ _ _ (getCollection_ok _ (str "flags") Hc eq_refl)).
  set (wa := setFaults w (true :: fs)).
  assert (R : roundTrip w = (Returned tt, wa))
    by (rewrite roundTrip_eq, Hf; reflexivity).
  assert (D : exists w0,
             deleteMany (str "flags") everyDoc w
             = (Returned (length (coll w (str "flags"))), w0)
             /\ coll w0 (str "flags") = []
             /\ (forall c, c <> str "flags" -> coll w0 c = coll w c)
             /\ faults w0 = true :: fs).
  { unfold deleteMany. rewrite (bind_Returned _ _ _ _ _ R).
    cbv [bind get]. rewrite filter_negb_everyDoc. simpl length.
    rewrite Nat.sub_0_r. change (coll wa (str "flags")) with (coll w (str "flags")).
    destruct (coll w (str "flags")) as [|d ds] eqn:E.
    - exists wa. simpl. split; [reflexivity|].
      change (coll wa (str "flags")) with (coll w (str "flags")).
      rewrite E. auto.
    - eexists. simpl length. cbv [put ret]. split; [reflexivity|].
      split; [apply coll_insert|]. split; [|reflexivity].
      intros c Hn. now apply coll_insert_ne. }
  destruct D as (w0 & D & E0 & O0 & F0).
  rewrite (bind_Returned _ _ _ _ _ D).
  rewrite (bind_Returned _ _ _ _ _ (newDate_eq _)).
  destruct flagsData as [|[c f] fd]; [now destruct Hne|].
  cbn [map]. unfold insertMany.
  set (bs := BFlag _ :: _).
  exists (setFaults (setOidNext w0 (length bs + oidNext w0)) fs).
  split; [|split; [exact E0 | split; [exact O0 | reflexivity]]].
  unfold bind at 1. unfold bind at 1.
  rewrite newObjectIds_eq. unfold bind at 1.
  rewrite roundTrip_eq. cbn [faults setOidNext]. rewrite F0. reflexivity.
Qed.

Lemma updateFlags_not_atomic_witness :
  exists w1,
    updateFlags [(str "Nepal", str "NP")]
                (setFaults flagWorld [false; true])
    = (Thrown StoreFailure, w1)
    /\ coll flagWorld (str "flags") <> []
    /\ coll w1 (str "flags") = [].
Proof.
  destruct (updateFlags_not_atomic (setFaults flagWorld [false; true])
              [(str "Nepal", str "NP")] []
              (conj eq_refl eq_refl) ltac:(discriminate) eq_refl)
    as (w1 & U & E & _).
  exists w1. split; [exact U|]. split; [discriminate | exact E].
Defined.

Lemma flagsObjectOf_snoc ds d :
  flagsObjectOf (ds ++ [d]) = assignFlag (flagsObjectOf ds) (body d).
Proof. unfold flagsObjectOf. now rewrite map_app, fold_left_app. Qed.

(** X15: [addFlag] followed by [getFlags]: the flag is stored after the
    ones the collection has, with the ObjectId the driver generated, and
    the mapping read back is the one of the flags held before with the
    new country set to the new flag; a country [__proto__] is stored but
    does not show in the mapping.  Added to an empty collection, the
    flag stops [getFlags] from ever storing the default flags. *)
Theorem addFlag_then_getFlags (w : World) (flagData : FlagData) :
  connected w -> faults w = [] -> nextIdFresh w (str "flags") ->
  exists w1 m,
    addFlag flagData w = (Returned (mkInsertOneResult (nextId w)), w1)
    /\ coll w1 (str "flags")
       = coll w (str "flags")
         ++ [mkDoc (nextId w) None
                   (BFlag (Flag.mk (fd_country flagData) (fd_flag flagData)
                                   (now w) (now w)))]
    /\ (forall c, c <> str "flags" -> coll w1 c = coll w c)
    /\ getFlags w1 = (Returned m, w1)
    /\ (fd_country flagData <> str "__proto__" ->
        m = <[fd_country flagData := Some (fd_flag flagData)]>
              (flagsObjectOf (coll w (str "flags"))))
    /\ (fd_country flagData = str "__proto__" ->
        m = flagsObjectOf (coll w (str "flags"))).
Proof.
  intros Hc Hf Hn. unfold addFlag. rewrite rethrow_id.
  rewrite (bind_Returned _ _ _ _ _ (getCollection_ok _ (str "flags") Hc eq_refl)).
  rewrite (bind_Returned _ _ _ _ _ (newDate_eq _)).
  rewrite (bind_Returned _ _ _ _ _ (newDate_eq _)).
  rewrite (bind_Returned _ _ _ _ _ (insertOne_fresh _ _ _ Hf Hn)).
  set (d := mkDoc (nextId w) None _).
  set (w1 := setStore _ _).
  assert (C1 : coll w1 (str "flags") = coll w (str "flags") ++ [d])
    by apply coll_insert.
  exists w1, (flagsObjectOf (coll w1 (str "flags"))).
  split; [reflexivity|]. split; [exact C1|].
  split; [intros c Hne; now apply coll_insert_ne|].
  split.
  { apply getFlags_nonempty_nofault; [|exact Hc|exact Hf].
    rewrite C1. now destruct (coll w (str "flags")). }
  rewrite C1, flagsObjectOf_snoc. subst d. unfold assignFlag.
  cbn [body fieldCountry fieldFlag Flag.country Flag.flag].
  destruct (str_eqb (fd_country flagData) (str "__proto__")) eqn:E.
  - apply str_eqb_eq in E. split; [contradiction | reflexivity].
  - split; [reflexivity|]. intros H. apply str_eqb_eq in H.
    rewrite H in E. discriminate.
Qed.

Lemma addFlag_then_getFlags_witness :
  exists w1 m,
    addFlag (mkFlagData (str "Nepal") (str "NP")) emptyWorld
    = (Returned (mkInsertOneResult (nextId emptyWorld)), w1)
    /\ getFlags w1 = (Returned m, w1)
    /\ m !! str "Nepal" = Some (Some (str "NP"))
    /\ m !! str "India" = None.
Proof.
  destruct (addFlag_then_getFlags emptyWorld
              (mkFlagData (str "Nepal") (str "NP"))
              (conj eq_refl eq_refl) eq_refl eq_refl)
    as (w1 & m & A & _ & _ & G & M & _).
  exists w1, m. split; [exact A|]. split; [exact G|].
  rewrite (M ltac:(discriminate)). split; reflexivity.
Defined.

(** ** Invariants of the metrics *)

Lemma filter_length_mono {A} (f g : A -> bool) (l : list A) :
  (forall x, f x = true -> g x = true) ->
  (length (List.filter f l) <= length (List.filter g l))%nat.
Proof.
  intros H. induction l as [|x l IH]; simpl; [lia|].
  destruct (f x) eqn:E.
  - rewrite (H x E). simpl. lia.
  - destruct (g x); simpl; lia.
Qed.

Lemma filter_length_bound {A} (f : A -> bool) (l : list A) :
  (length (List.filter f l) <= length l)%nat.
Proof.
  induction l as [|x l IH]; simpl; [lia|]. destruct (f x); simpl; lia.
Qed.

Lemma getBotStats_counts w s :
  fst (getBotStats w) = Returned s ->
  (todaysUsers s <= totalUsers s)%nat
  /\ (todaysNumbersSold s <= totalNumbersSold s)%nat
  /\ (todaysNumbersSold s <= todaysTransactions s)%nat
  /\ totalTransactions s = 0%nat.
Proof.
  rewrite getBotStats_fst.
  destruct (getBotStats_try_cases w) as [E|[e E]]; rewrite E;
    intros [= <-]; [|simpl; repeat split; lia].
  unfold metricsOf. cbn [todaysUsers totalUsers todaysNumbersSold
                         totalNumbersSold todaysTransactions totalTransactions].
  split; [apply filter_length_bound|].
  split; [apply filter_length_mono; intros x H;
          now apply andb_true_iff in H|].
  split; [apply filter_length_mono; intros x H;
          now apply andb_true_iff in H|].
  reflexivity.
Qed.

(** X16: whatever [getBotStats] returns, the counts of today are within
    the counts of all time: the users of today within the users, the
    numbers sold in the trailing day within the numbers sold and within
    the transactions of the trailing day; [totalTransactions] is always
    0; and with no user in the collection the object is the all-zero one
    that a failure gives. *)
Theorem getBotStats_counts_consistent (w : World) (s : BotStats) :
  fst (getBotStats w) = Returned s ->
  (todaysUsers s <= totalUsers s)%nat
  /\ (todaysNumbersSold s <= totalNumbersSold s)%nat
  /\ (todaysNumbersSold s <= todaysTransactions s)%nat
  /\ totalTransactions s = 0%nat
  /\ (totalUsers s = 0%nat -> s = zeroStats).
Proof.
  intros H. pose proof (getBotStats_counts w s H) as (A & B & C & D).
  split; [exact A|]. split; [exact B|]. split; [exact C|].
  split; [exact D|].
  revert H. rewrite getBotStats_fst.
  destruct (getBotStats_try_cases w) as [E|[e E]]; rewrite E;
    intros [= <-]; [|reflexivity].
  unfold metricsOf. cbn [totalUsers]. intros L.
  apply length_zero_iff_nil in L. rewrite L. reflexivity.
Qed.

Lemma getBotStats_counts_consistent_witness :
  exists s,
    fst (getBotStats scenarioWorld) = Returned s
    /\ (todaysUsers s <= totalUsers s)%nat
    /\ totalUsers s = 3%nat.
Proof.
  destruct (fst (getBotStats scenarioWorld)) as [s|e] eqn:E;
    [|vm_compute in E; discriminate E].
  exists s. split; [reflexivity|].
  split; [exact (proj1 (getBotStats_counts_consistent scenarioWorld s E))|].
  vm_compute in E. injection E as <-. reflexivity.
Defined.

(** ** Invariants of the dashboard snapshot *)

Lemma reads_getDashboardData : reads getDashboardData.
Proof.
  unfold getDashboardData.
  apply reads_try_catch; [apply reads_getDashboardData_try | intros; reads_tac].
Qed.

Lemma insertDesc_In x d l : In x (insertDesc d l) <-> x = d \/ In x l.
Proof.
  induction l as [|y l IH]; simpl; [intuition|].
  destruct (usersBelow (docUsers y) (docUsers d)); simpl; [intuition|].
  rewrite IH. intuition.
Qed.

Lemma insertDesc_length d l : length (insertDesc d l) = S (length l).
Proof.
  induction l as [|y l IH]; simpl; [reflexivity|].
  destruct (usersBelow (docUsers y) (docUsers d)); simpl; [reflexivity|].
  now rewrite IH.
Qed.

Lemma sortUsersDesc_spec ds :
  length (sortUsersDesc ds) = length ds
  /\ (forall x, In x (sortUsersDesc ds) <-> In x ds).
Proof.
  unfold sortUsersDesc.
  assert (G : forall acc,
             length (fold_left (fun acc d => insertDesc d acc) ds acc)
             = (length acc + length ds)%nat
             /\ (forall x,
                    In x (fold_left (fun acc d => insertDesc d acc) ds acc)
                    <-> In x acc \/ In x ds)).
  { induction ds as [|d ds IH]; intros acc; simpl.
    - split; [lia | intuition].
    - destruct (IH (insertDesc d acc)) as [L I]. split.
      + rewrite L, insertDesc_length. simpl. lia.
      + intros x. rewrite I, insertDesc_In. intuition. }
  destruct (G []) as [L I]. split; [exact L|].
  intros x. rewrite I. simpl. intuition.
Qed.

Lemma firstn_In_list {A} n (l : list A) x : In x (firstn n l) -> In x l.
Proof.
  revert l. induction n as [|n IH]; intros [|y l]; simpl; try tauto.
  intros [H|H]; auto.
Qed.

(** X17: [getDashboardData] always returns, and only reads.  In what it
    returns the earnings of today are the same string as the total
    earnings, which starts with the rupee sign; both dates are the time
    of the call; the counts of today are within the totals; and the top
    services are services of the store, three of them or all when there
    are fewer, as many as the service count allows. *)
Theorem dashboard_snapshot_consistent
        (w w1 : World) (r : Result DashboardData) :
  getDashboardData w = (r, w1) ->
  sameData w w1
  /\ exists d,
      r = Returned d
      /\ dd_todaysEarnings d = dd_totalEarnings d
      /\ hd_error (dd_totalEarnings d) = Some rupee
      /\ dd_createdAt d = now w /\ dd_updatedAt d = now w
      /\ (dd_todaysUsers d <= dd_totalUsers d)%nat
      /\ (dd_todaysSold d <= dd_totalSold d)%nat
      /\ length (dd_topServices d) = Nat.min 3 (dd_serviceCount d)
      /\ (forall x, In x (dd_topServices d) -> In x (coll w (str "services")))
      /\ (dd_serviceCount d <= length (coll w (str "services")))%nat
      /\ (dd_serverCount d <= length (coll w (str "servers")))%nat.
Proof.
  intros H. split; [exact (reads_getDashboardData _ _ _ H)|].
  assert (F : fst (getDashboardData w) = r) by now rewrite H.
  rewrite getDashboardData_fst in F.
  destruct (getDashboardData_try w) as [[d|e] w2] eqn:E; simpl in F; subst r.
  - exists d. split; [reflexivity|].
    apply getDashboardData_try_inv in E as (s & S & _ & ->).
    destruct (getBotStats_counts w s S) as (A & B & _).
    destruct (sortUsersDesc_spec (coll w (str "services"))) as [L I].
    cbn [dd_todaysEarnings dd_totalEarnings dd_createdAt dd_updatedAt
         dd_todaysUsers dd_totalUsers dd_todaysSold dd_totalSold
         dd_topServices dd_serviceCount dd_serverCount hd_error].
    split; [reflexivity|]. split; [reflexivity|].
    split; [reflexivity|]. split; [reflexivity|].
    split; [exact A|]. split; [exact B|].
    split; [now rewrite length_firstn, L|].
    split; [intros x Hx; apply I; eapply firstn_In_list; exact Hx|].
    split; lia.
  - eexists. split; [reflexivity|]. simpl.
    split; [reflexivity|]. split; [reflexivity|].
    split; [reflexivity|]. split; [reflexivity|].
    split; [lia|]. split; [lia|]. split; [reflexivity|].
    split; [tauto|]. split; lia.
Qed.

Lemma dashboard_snapshot_consistent_witness :
  exists d w1,
    getDashboardData malformedWorld = (Returned d, w1)
    /\ dd_todaysEarnings d = dd_totalEarnings d
    /\ length (dd_topServices d) = Nat.min 3 (dd_serviceCount d).
Proof.
  destruct (getDashboardData malformedWorld) as [r w1] eqn:E.
  destruct (dashboard_snapshot_consistent malformedWorld w1 r E)
    as (_ & d & -> & A & _ & _ & _ & _ & _ & B & _).
  exists d, w1. auto.
Defined.

(** ** The sync status reporter under a fault plan *)

Lemma roundTrip_read w :
  roundTrip w =
  (if hd false (faults w) then Thrown StoreFailure else Returned tt,
   setFaults w (tl (faults w))).
Proof.
  rewrite roundTrip_eq. destruct w as [h c s [|[] fs] g n t e]; reflexivity.
Qed.

Lemma findOneLatest_eq c w :
  findOneLatest c w =
  (if hd false (faults w) then Thrown StoreFailure
   else Returned (firstLatest (coll w c)),
   setFaults w (tl (faults w))).
Proof. unfold findOneLatest. now rewrite read_eq. Qed.

Lemma reads_getSyncStatus : reads getSyncStatus.
Proof.
  intros w r w'. unfold getSyncStatus, try_finally, closeClient.
  destruct (try_catch getSyncStatus_try _ w) as [r0 w0] eqn:E.
  simpl. intros [= <- <-]. revert E.
  apply reads_try_catch; [|intros; apply reads_ret].
  unfold getSyncStatus_try, connectToDatabase. reads_tac.
Qed.

Lemma getSyncStatus_try_eq w :
  fst (getSyncStatus_try w) =
  if existsb (fun b => b) (firstn 10 (faults w)) then Thrown StoreFailure
  else Returned (Success (reportOf w)).
Proof.
  unfold getSyncStatus_try.
  unfold bind at 1. unfold get at 1.
  assert (C : connectToDatabase w
              = (if hd false (faults w) then Thrown StoreFailure
                 else Returned tt, setFaults w (tl (faults w)))).
  { unfold connectToDatabase. rewrite rethrow_id. apply roundTrip_read. }
  rewrite (bind_read _ _ _ _ _ _ C).
  rewrite (bind_read _ _ _ _ _ _ (countDocuments_eq _ _ _)).
  rewrite (bind_read _ _ _ _ _ _ (countDocuments_eq _ _ _)).
  rewrite (bind_read _ _ _ _ _ _ (countDocuments_eq _ _ _)).
  rewrite (bind_read _ _ _ _ _ _ (countDocuments_eq _ _ _)).
  rewrite (bind_read _ _ _ _ _ _ (countDocuments_eq _ _ _)).
  rewrite (bind_read _ _ _ _ _ _ (countDocuments_eq _ _ _)).
  rewrite (bind_read _ _ _ _ _ _ (findOneLatest_eq _ _)).
  rewrite (bind_read _ _ _ _ _ _ (findOneLatest_eq _ _)).
  rewrite (bind_read _ _ _ _ _ _ (findOneLatest_eq _ _)).
  rewrite (bind_Returned _ _ _ _ _ (newDate_eq _)).
  unfold ret, collection. cbn [faults setFaults now env].
  rewrite !filter_everyDoc.
  fold (usersName w).
  repeat match goal with
         | |- context [coll (setFaults ?x ?f) ?c] =>
             change (coll (setFaults x f) c) with (coll x c)
         end.
  fold (reportOf w).
  destruct (faults w) as [|[] [|[] [|[] [|[] [|[] [|[] [|[] [|[] [|[] [|[] fs]]]]]]]]]];
    reflexivity.
Qed.

Lemma getSyncStatus_closed w :
  exists w1,
    getSyncStatus w
    = (Returned (if existsb (fun b => b) (firstn 10 (faults w))
                 then Failure StoreFailure
                 else Success (reportOf w)), w1)
    /\ sameData w w1.
Proof.
  destruct (getSyncStatus w) as [r w1] eqn:E. exists w1.
  split; [|exact (reads_getSyncStatus _ _ _ E)].
  assert (F : fst (getSyncStatus w) = r) by now rewrite E.
  rewrite getSyncStatus_fst, getSyncStatus_try_eq in F. subst r.
  now destruct (existsb _ _).
Qed.

Lemma reportOf_ext w w' :
  store w' = store w -> now w' = now w -> env w' = env w ->
  reportOf w' = reportOf w.
Proof.
  intros S N E. unfold reportOf, usersName, coll. now rewrite S, N, E.
Qed.

(** X18: [getSyncStatus] never throws and only reads.  Of its ten round
    trips (the connection of its own client, six counts, three look-ups
    of the latest stamp) the failure of any one makes the report the one
    of failure, carrying that error; with none failing the report is one
    of success.  The report depends on the store, the clock, the
    environment and the fault plan only: it is the same whether or not
    the connection of the accessor is established. *)
Theorem getSyncStatus_fails_exactly_on_fault (w : World) :
  exists r w1,
    getSyncStatus w = (Returned r, w1)
    /\ sameData w w1
    /\ (existsb (fun b => b) (firstn 10 (faults w)) = true ->
        r = Failure StoreFailure)
    /\ (existsb (fun b => b) (firstn 10 (faults w)) = false ->
        exists data, r = Success data)
    /\ (forall w',
           store w' = store w -> faults w' = faults w ->
           now w' = now w -> env w' = env w ->
           fst (getSyncStatus w') = Returned r).
Proof.
  destruct (getSyncStatus_closed w) as (w1 & E & S).
  eexists _, w1. split; [exact E|]. split; [exact S|].
  split; [now intros ->|]. split; [intros ->; eauto|].
  intros w' Hs Hf Hn He.
  destruct (getSyncStatus_closed w') as (w1' & E' & _).
  rewrite E'. simpl. now rewrite Hf, (reportOf_ext w w' Hs Hn He).
Qed.

Lemma getSyncStatus_fails_exactly_on_fault_witness :
  exists w1,
    getSyncStatus (world0 false (storeOf (str "servers") []) [false; false; true])
    = (Returned (Failure StoreFailure), w1).
Proof.
  destruct (getSyncStatus_fails_exactly_on_fault
              (world0 false (storeOf (str "servers") []) [false; false; true]))
    as (r & w1 & E & _ & F & _).
  exists w1. now rewrite <- (F eq_refl).
Defined.

Lemma later_trans (a b c : option Z) :
  later b a = false -> later c b = false -> later c a = false.
Proof.
  destruct a as [x|], b as [y|], c as [z|]; simpl; try congruence.
  rewrite !Z.ltb_ge. lia.
Qed.

Lemma later_asym (a b : option Z) : later a b = true -> later b a = false.
Proof.
  destruct a as [x|], b as [y|]; simpl; try congruence.
  rewrite Z.ltb_lt, Z.ltb_ge. lia.
Qed.

Lemma later_irrefl (a : option Z) : later a a = false.
Proof. destruct a as [x|]; simpl; [apply Z.ltb_irrefl | reflexivity]. Qed.

Lemma latestBy_spec ds :
  forall best,
    In (latestBy best ds) (best :: ds)
    /\ forall d, In d (best :: ds) ->
                 later (last_sync d) (last_sync (latestBy best ds)) = false.
Proof.
  induction ds as [|d ds IH]; intros best; simpl.
  - split; [now left|]. intros d [<-|[]]. apply later_irrefl.
  - destruct (IH (if later (last_sync d) (last_sync best) then d else best))
      as [I G].
    set (r := latestBy _ ds) in *.
    destruct (later (last_sync d) (last_sync best)) eqn:L.
    + split; [simpl in I; tauto|].
      intros x [<-|[<-|Hx]].
      * apply (later_trans _ (last_sync d)); [apply G; now left|].
        now apply later_asym.
      * apply G. now left.
      * apply G. now right.
    + split; [simpl in I; tauto|].
      intros x [<-|[<-|Hx]].
      * apply G. now left.
      * apply (later_trans _ (last_sync best)); [apply G; now left | exact L].
      * apply G. now right.
Qed.

Lemma stampsOf_In t ds :
  In t (stampsOf ds) <-> exists d, In d ds /\ last_sync d = Some t.
Proof.
  unfold stampsOf. rewrite in_flat_map. split.
  - intros (d & Hd & Ht). exists d. split; [exact Hd|].
    destruct (last_sync d) as [x|]; simpl in Ht; [|tauto].
    destruct Ht as [->|[]]. reflexivity.
  - intros (d & Hd & Ht). exists d. split; [exact Hd|]. rewrite Ht. now left.
Qed.

Lemma firstLatest_spec ds :
  latestOf (lastSyncOf (firstLatest ds)) (stampsOf ds).
Proof.
  destruct ds as [|best ds]; [reflexivity|].
  destruct (latestBy_spec ds best) as [I G].
  unfold firstLatest, lastSyncOf, latestOf.
  destruct (last_sync (latestBy best ds)) as [t|] eqn:T.
  - split; [apply stampsOf_In; eauto|].
    apply List.Forall_forall. intros x Hx.
    apply stampsOf_In in Hx as (d & Hd & Hs).
    specialize (G d Hd). rewrite Hs in G. simpl in G.
    apply Z.ltb_ge in G. exact G.
  - destruct (stampsOf (best :: ds)) as [|x l] eqn:S; [reflexivity|].
    assert (Hx : In x (stampsOf (best :: ds))) by (rewrite S; now left).
    apply stampsOf_In in Hx as (d & Hd & Hs).
    specialize (G d Hd). rewrite Hs in G. discriminate G.
Qed.

(** X19: in a report of success the [last_sync] of a kind is the latest
    stamp among the documents of the collection it is read from
    ([website_users], [services], [servers]), documents without a stamp
    not counting, and [null] exactly when no document has one; the
    [timestamp] is the time of the call. *)
Theorem last_sync_is_latest (w : World) (data : SyncData) :
  fst (getSyncStatus w) = Returned (Success data) ->
  latestOf (ks_last_sync (sy_users data))
           (stampsOf (coll w (str "website_users")))
  /\ latestOf (ks_last_sync (sy_services data))
              (stampsOf (coll w (str "services")))
  /\ latestOf (ks_last_sync (sy_servers data))
              (stampsOf (coll w (str "servers")))
  /\ timestamp data = now w.
Proof.
  rewrite getSyncStatus_fst, getSyncStatus_try_eq.
  destruct (existsb _ _); [discriminate|]. intros [= <-].
  unfold reportOf. cbn [sy_users sy_services sy_servers ks_last_sync timestamp].
  repeat split; apply firstLatest_spec.
Qed.

Lemma last_sync_is_latest_witness :
  exists data,
    fst (getSyncStatus stockedWorld) = Returned (Success data)
    /\ latestOf (ks_last_sync (sy_services data)) [50; 70]%Z
    /\ ks_last_sync (sy_services data) = Some 70%Z
    /\ ks_last_sync (sy_servers data) = Some 30%Z
    /\ ks_last_sync (sy_users data) = None.
Proof.
  destruct (fst (getSyncStatus stockedWorld)) as [[data|e]|e] eqn:E;
    try (vm_compute in E; discriminate E).
  exists data. split; [reflexivity|].
  destruct (last_sync_is_latest stockedWorld data E) as (U & S & V & _).
  change (stampsOf (coll stockedWorld (str "services"))) with [50; 70]%Z in S.
  change (stampsOf (coll stockedWorld (str "servers"))) with [30]%Z in V.
  change (stampsOf (coll stockedWorld (str "website_users"))) with (@nil Z) in U.
  split; [exact S|].
  unfold latestOf in S, V, U.
  destruct (ks_last_sync (sy_services data)) as [t|]; [|discriminate S].
  destruct (ks_last_sync (sy_servers data)) as [t'|]; [|discriminate V].
  destruct (ks_last_sync (sy_users data)) as [t''|]; [now destruct U|].
  destruct S as [I F], V as [I' _].
  split.
  - f_equal. inversion F as [|? ? _ F']. inversion F' as [|? ? H70 _].
    destruct I as [<-|[<-|[]]]; [lia | reflexivity].
  - split; [|reflexivity]. destruct I' as [<-|[]]. reflexivity.
Defined.

(** ** The handler of the sync status *)

(** X20: the handler of [api/sync-status.js] always answers, with the
    three headers, and only reads.  [OPTIONS] is answered 200 with no
    body and any method but [GET] and [OPTIONS] is answered 405, [POST]
    included although the headers allow it, both without a round trip.
    [GET] is answered 200 with a report of success when none of the ten
    round trips fails and 500 with the report of failure when one does;
    the body of the handler's own [catch] is never sent. *)
Theorem syncStatusHandler_answers (method : jsstring) (w : World) :
  exists resp w1,
    syncStatusHandler method w = (Returned resp, w1)
    /\ sameData w w1
    /\ sr_headers resp = corsHeaders
    /\ (forall error, sr_body resp <> InternalError error)
    /\ (method = str "OPTIONS" ->
        sr_status resp = 200%nat /\ sr_body resp = NoBody /\ w1 = w)
    /\ (method <> str "OPTIONS" -> method <> str "GET" ->
        sr_status resp = 405%nat /\ sr_body resp = MethodNotAllowed /\ w1 = w)
    /\ (method = str "GET" ->
        (existsb (fun b => b) (firstn 10 (faults w)) = false ->
         sr_status resp = 200%nat
         /\ exists data, sr_body resp = Report (Success data))
        /\ (existsb (fun b => b) (firstn 10 (faults w)) = true ->
            sr_status resp = 500%nat
            /\ sr_body resp = Report (Failure StoreFailure))).
Proof.
  unfold syncStatusHandler.
  destruct (str_eqb method (str "OPTIONS")) eqn:O.
  - apply str_eqb_eq in O. subst method.
    eexists _, w. split; [reflexivity|]. split; [apply sameData_refl|].
    split; [reflexivity|]. split; [discriminate|]. split; [auto|].
    split; [congruence | discriminate].
  - assert (HO : method <> str "OPTIONS").
    { intros ->. discriminate O. }
    destruct (str_eqb method (str "GET")) eqn:G; cbn [negb].
    + apply str_eqb_eq in G. subst method.
      destruct (getSyncStatus_closed w) as (w1 & E & S).
      unfold try_catch. rewrite (bind_Returned _ _ _ _ _ E).
      destruct (existsb (fun b => b) (firstn 10 (faults w))).
      * eexists _, w1. split; [reflexivity|]. split; [exact S|].
        split; [reflexivity|]. split; [discriminate|].
        split; [discriminate|]. split; [congruence|].
        intros _. split; [discriminate | auto].
      * eexists _, w1. split; [reflexivity|]. split; [exact S|].
        split; [reflexivity|]. split; [discriminate|].
        split; [discriminate|]. split; [congruence|].
        intros _. split; [eauto | discriminate].
    + assert (HG : method <> str "GET").
      { intros ->. discriminate G. }
      eexists _, w. split; [reflexivity|]. split; [apply sameData_refl|].
      split; [reflexivity|]. split; [discriminate|].
      split; [contradiction|]. split; [auto | contradiction].
Qed.

Lemma syncStatusHandler_answers_witness :
  exists resp,
    syncStatusHandler (str "POST") unsyncedWorld = (Returned resp, unsyncedWorld)
    /\ In (str "Access-Control-Allow-Methods", str "GET, POST, OPTIONS")
          (sr_headers resp)
    /\ sr_status resp = 405%nat.
Proof.
  destruct (syncStatusHandler_answers (str "POST") unsyncedWorld)
    as (resp & w1 & E & _ & H & _ & _ & P & _).
  destruct (P ltac:(discriminate) ltac:(discriminate)) as (S & _ & ->).
  exists resp. split; [exact E|]. split; [|exact S].
  rewrite H. right. now left.
Defined.

(** ** The routes that write servers *)

Lemma addServer_inv sd w r w1 :
  addServer sd w = (Returned r, w1) ->
  validServerData sd
  /\ touchesOnly (str "servers") w w1
  /\ exists server,
      coll w1 (str "servers")
      = coll w (str "servers") ++ [mkDoc (insertedId r) None (BServer server)].
Proof.
  unfold addServer, validServerData, validField. rewrite rethrow_id.
  destruct (validateInput.string (sd_server_name sd) 100)
    as [[|c1 s1]|] eqn:V1; try discriminate.
  destruct (validateInput.string (sd_country sd) 10)
    as [[|c2 s2]|] eqn:V2; try discriminate.
  destruct (validateInput.string (sd_flag sd) 50)
    as [[|c3 s3]|] eqn:V3; try discriminate.
  cbn [str_truthy negb orb str_or]. intros H.
  apply bind_inv in H as (h & w' & G & H).
  apply getCollection_inv in G as [-> G]. destruct (G _ eq_refl) as [-> _].
  rewrite !(bind_Returned _ _ _ _ _ (newDate_eq _)) in H.
  apply bind_inv in H as (i & w2 & I & H).
  cbv [ret] in H. injection H as <- <-.
  apply insertOne_inv in I as (C & _ & T).
  split; [auto|]. split; [exact T|]. eexists. exact C.
Qed.

Lemma validField_truthy v n : validField v n -> truthy v = true.
Proof.
  unfold validField. destruct v as [| |b|x|s|i]; simpl; try discriminate.
  destruct (n <? length s)%nat; [discriminate|].
  destruct s; [discriminate | reflexivity].
Qed.

Lemma updateDashboardStats_throws w e :
  connected w -> faults w = [] ->
  totalEarningsOf (coll w (str "services")) = Thrown e ->
  updateDashboardStats w = (Thrown e, w).
Proof.
  intros Hc Hf E. unfold updateDashboardStats. rewrite rethrow_id.
  unfold bind at 1. unfold get at 1.
  rewrite (bind_Returned _ _ _ _ _ (getCollection_ok _ (str "services") Hc eq_refl)).
  rewrite (bind_Returned _ _ _ _ _ (getCollection_ok _ (str "servers") Hc eq_refl)).
  rewrite (bind_Returned _ _ _ _ _ (getCollection_ok _ (str "stats") Hc eq_refl)).
  rewrite !(bind_Returned _ _ _ _ _ (countDocuments_nofault _ _ _ Hf)).
  rewrite (bind_Returned _ _ _ _ _ (find_nofault _ _ _ Hf)).
  rewrite E. reflexivity.
Qed.

Lemma refresh_cacheShows w w1 b :
  updateDashboardStats w = (Returned b, w1) ->
  cacheShows w1 (length (coll w (str "services"))) (now w)
  /\ touchesOnly (str "stats") w w1.
Proof.
  intros U.
  destruct (refresh_shape _ _ _ U) as (e & pre & d & post & _ & _ & T & S & P & B).
  split; [|exact T].
  exists d, (statsOf w e). split; [|auto].
  rewrite S. apply find_app_first; [exact P|].
  destruct d as [i ls bd]. simpl in B. subst bd. apply isDashboard_statsOf.
Qed.

(** X21: the route that adds a server always answers.  A request
    without a body is answered 500, the destructuring having thrown,
    with nothing read or written.  A body in which [name], [code] or
    [flag] is missing or falsy is answered 400 with nothing read or
    written; fields that are all truthy but that [addServer] refuses,
    such as a name made of stripped characters only, are answered 500,
    not 400, again with nothing written.  An answer of 200 means that
    there was a body, carries the [insertedId] of the one server
    appended, and the cache then shows the number of services of the
    store, updated at the time of the call; the other collections are
    as they were. *)
Theorem addServerRoute_answers (body : option AddServerBody) (w : World) :
  exists resp w1,
    addServerRoute body w = (Returned resp, w1)
    /\ (rs_code resp = 200%nat \/ rs_code resp = 400%nat
        \/ rs_code resp = 500%nat)
    /\ (body = None ->
        resp = mkResponse 500 0 (str "Error adding server") None /\ w1 = w)
    /\ (forall fields,
           body = Some fields ->
           (truthy (rb_name fields) && truthy (rb_code fields)
            && truthy (rb_flag fields))%bool = false ->
           resp = mkResponse 400 0 (str "All fields are required") None
           /\ w1 = w)
    /\ (forall fields,
           body = Some fields ->
           (truthy (rb_name fields) && truthy (rb_code fields)
            && truthy (rb_flag fields))%bool = true ->
           ~ validServerData
               (mkServerData (rb_name fields) (rb_code fields)
                             (rb_flag fields) VUndefined VUndefined) ->
           resp = mkResponse 500 0 (str "Error adding server") None
           /\ w1 = w)
    /\ (rs_code resp = 200%nat ->
        body <> None
        /\ exists i server,
            rs_data resp = Some (mkInsertOneResult i)
            /\ coll w1 (str "servers")
               = coll w (str "servers") ++ [mkDoc i None (BServer server)]
            /\ cacheShows w1 (length (coll w (str "services"))) (now w)
            /\ (forall c, c <> str "servers" -> c <> str "stats" ->
                          coll w1 c = coll w c)).
Proof.
  unfold addServerRoute. destruct body as [fields|].
  2:{ eexists _, w. split; [reflexivity|]. simpl.
      split; [auto|]. split; [auto|].
      split; [discriminate|]. split; discriminate. }
  destruct fields as [name code flag]. cbn [rb_name rb_code rb_flag].
  destruct (truthy name && truthy code && truthy flag)%bool eqn:T.
  - assert (N : (negb (truthy name) || negb (truthy code)
                 || negb (truthy flag))%bool = false)
      by (destruct (truthy name), (truthy code), (truthy flag);
          simpl in *; congruence).
    rewrite N. unfold try_catch, bind.
    set (sd := mkServerData name code flag VUndefined VUndefined).
    destruct (addServer sd w) as [[r|e] wa] eqn:A.
    + apply addServer_inv in A as (V & Ta & server & Ca).
      destruct (updateDashboardStats wa) as [[b|e] wb] eqn:U.
      * eexists _, wb. split; [reflexivity|]. simpl.
        split; [auto|]. split; [discriminate|].
        split; [intros f [= <-]; cbn; rewrite T; discriminate|].
        split; [intros f [= <-] _ NV; contradiction|]. intros _.
        split; [discriminate|].
        apply refresh_cacheShows in U as [CS Tb].
        destruct Ta as (Oa & Na & _). destruct Tb as (Ob & _).
        exists (insertedId r), server. split; [now destruct r|].
        split; [rewrite Ob by discriminate; exact Ca|].
        split; [rewrite <- Na, <- (Oa (str "services")) by discriminate;
                exact CS|].
        intros c H1 H2. now rewrite Ob, Oa.
      * eexists _, wb. split; [reflexivity|]. simpl.
        split; [auto|]. split; [discriminate|].
        split; [intros f [= <-]; cbn; rewrite T; discriminate|].
        split; [intros f [= <-] _ NV; contradiction | discriminate].
    + eexists _, wa. split; [reflexivity|]. simpl.
      split; [auto|]. split; [discriminate|].
      split; [intros f [= <-]; cbn; rewrite T; discriminate|].
      split; [|discriminate].
      intros f [= <-] _ NV. split; [reflexivity|].
      cbn [rb_name rb_code rb_flag] in NV. fold sd in NV.
      rewrite (addServer_invalid w sd NV) in A. now injection A.
  - assert (N : (negb (truthy name) || negb (truthy code)
                 || negb (truthy flag))%bool = true)
      by (destruct (truthy name), (truthy code), (truthy flag);
          simpl in *; congruence).
    rewrite N. eexists _, w. split; [reflexivity|]. simpl.
    split; [auto|]. split; [discriminate|]. split; [auto|].
    split; [|discriminate].
    intros f [= <-]. cbn. rewrite T. discriminate.
Qed.

Lemma addServerRoute_answers_witness :
  addServerRoute None stockedWorld
  = (Returned (mkResponse 500 0 (str "Error adding server") None),
     stockedWorld)
  /\ addServerRoute
       (Some (mkAddServerBody (VString (str "Mumbai")) VUndefined
                              (VString (str "flag")))) stockedWorld
     = (Returned (mkResponse 400 0 (str "All fields are required") None),
        stockedWorld)
  /\ addServerRoute
       (Some (mkAddServerBody (VString (str "<>")) (VString (str "IN"))
                              (VString (str "flag")))) stockedWorld
     = (Returned (mkResponse 500 0 (str "Error adding server") None),
        stockedWorld).
Proof.
  split; [|split].
  - destruct (addServerRoute_answers None stockedWorld)
      as (resp & w1 & E & _ & A & _).
    destruct (A eq_refl) as [-> ->]. exact E.
  - destruct (addServerRoute_answers
                (Some (mkAddServerBody (VString (str "Mumbai")) VUndefined
                                       (VString (str "flag")))) stockedWorld)
      as (resp & w1 & E & _ & _ & B & _).
    destruct (B _ eq_refl eq_refl) as [-> ->]. exact E.
  - destruct (addServerRoute_answers
                (Some (mkAddServerBody (VString (str "<>")) (VString (str "IN"))
                                       (VString (str "flag")))) stockedWorld)
      as (resp & w1 & E & _ & _ & _ & C & _).
    assert (NV : ~ validServerData
                   (mkServerData (VString (str "<>")) (VString (str "IN"))
                                 (VString (str "flag")) VUndefined VUndefined)).
    { intros (V & _). discriminate V. }
    destruct (C _ eq_refl eq_refl NV) as [-> ->]. exact E.
Defined.

(** X22: the route that adds a server is not atomic.  When the server
    is accepted and stored but the refresh of the cache throws, as it
    does whenever a stored service has a price that is not a string,
    the route answers 500 with its error message although the server
    has been added. *)
Theorem addServerRoute_not_atomic
        (name code flag : value) (w : World) (e : Error) :
  validServerData (mkServerData name code flag VUndefined VUndefined) ->
  connected w -> faults w = [] -> nextIdFresh w (str "servers") ->
  totalEarningsOf (coll w (str "services")) = Thrown e ->
  exists w1 server,
    addServerRoute (Some (mkAddServerBody name code flag)) w
    = (Returned (mkResponse 500 0 (str "Error adding server") None), w1)
    /\ coll w1 (str "servers")
       = coll w (str "servers") ++ [mkDoc (nextId w) None (BServer server)]
    /\ coll w1 (str "stats") = coll w (str "stats").
Proof.
  intros V Hc Hf Hn E.
  destruct (addServer_valid w _ V Hc Hf Hn) as (server & A & _).
  destruct V as (V1 & V2 & V3). simpl in V1, V2, V3.
  unfold addServerRoute. cbn [rb_name rb_code rb_flag].
  rewrite (validField_truthy _ _ V1), (validField_truthy _ _ V2),
    (validField_truthy _ _ V3). cbn [negb orb].
  unfold try_catch. rewrite (bind_Returned _ _ _ _ _ A).
  set (wa := setStore _ _) in *.
  assert (Hca : connected wa) by exact Hc.
  assert (Hfa : faults wa = []) by exact Hf.
  assert (Ea : totalEarningsOf (coll wa (str "services")) = Thrown e).
  { subst wa. rewrite coll_insert_ne by discriminate. exact E. }
  rewrite (bind_Thrown _ _ _ _ _ (updateDashboardStats_throws wa e Hca Hfa Ea)).
  exists wa, server. split; [reflexivity|].
  split; [apply coll_insert|]. subst wa. now rewrite coll_insert_ne.
Qed.

Lemma addServerRoute_not_atomic_witness :
  exists w1,
    addServerRoute (Some (mkAddServerBody (VString (str "Mumbai"))
                                          (VString (str "IN"))
                                          (VString (str "flag"))))
                   (world0 true
                      (storeOf (str "services")
                         [mkDoc 7 None
                                (BService (Service.mk (str "WhatsApp")
                                                      (VNumber zero) None))])
                      [])
    = (Returned (mkResponse 500 0 (str "Error adding server") None), w1)
    /\ length (coll w1 (str "servers")) = 1%nat.
Proof.
  destruct (addServerRoute_not_atomic
              (VString (str "Mumbai")) (VString (str "IN"))
              (VString (str "flag"))
              (world0 true
                 (storeOf (str "services")
                    [mkDoc 7 None
                           (BService (Service.mk (str "WhatsApp")
                                                 (VNumber zero) None))])
                 [])
              TypeError
              (conj eq_refl (conj eq_refl eq_refl))
              (conj eq_refl eq_refl) eq_refl eq_refl eq_refl)
    as (w1 & server & E & C & _).
  exists w1. split; [exact E|]. rewrite C. reflexivity.
Defined.

Lemma deleteServer_inv id w r w1 :
  deleteServer id w = (Returned r, w1) ->
  exists s,
    validateInput.objectId id = Some s
    /\ connected w
    /\ deletedCount r = snd (removeFirst (hasId (ObjectId s))
                                         (coll w (str "servers")))
    /\ touchesOnly (str "servers") w w1
    /\ coll w1 (str "servers")
       = fst (removeFirst (hasId (ObjectId s)) (coll w (str "servers"))).
Proof.
  unfold deleteServer. rewrite rethrow_id.
  destruct (validateInput.objectId id) as [s|]; [|discriminate].
  intros H. exists s. split; [reflexivity|].
  apply bind_inv in H as (h & w' & G & H).
  apply getCollection_inv in G as [-> G]. destruct (G _ eq_refl) as [-> Hc].
  split; [exact Hc|].
  apply bind_inv in H as (n & w2 & D & H).
  cbv [ret] in H. injection H as <- <-. simpl.
  unfold deleteOne in D.
  apply bind_inv in D as ([] & w0 & R & D).
  apply roundTrip_inv in R as S0.
  cbv [bind get] in D. rewrite (sameData_coll _ _ _ S0) in D.
  pose proof (removeFirst_absent (hasId (ObjectId s)) (coll w (str "servers")))
    as Abs.
  destruct (removeFirst_spec (hasId (ObjectId s)) (coll w (str "servers")))
    as (Sn & _).
  destruct (removeFirst (hasId (ObjectId s)) (coll w (str "servers")))
    as [rest k] eqn:RF.
  simpl in Sn. destruct k as [|k].
  - cbv [ret] in D. injection D as <- <-.
    split; [reflexivity|].
    split; [now apply sameData_touchesOnly|].
    rewrite (sameData_coll _ _ _ S0). simpl.
    destruct (existsb (hasId (ObjectId s)) (coll w (str "servers")));
      [discriminate|]. now injection (Abs eq_refl).
  - cbv [put ret] in D. injection D as <- <-.
    split; [reflexivity|]. split.
    + eapply touchesOnly_trans; [apply sameData_touchesOnly, S0|].
      unfold touchesOnly. split; [|auto 10].
      intros c' Hne. now apply coll_insert_ne.
    + apply coll_insert.
Qed.

Lemma deleteServer_rejected id w :
  validateInput.objectId id = None ->
  deleteServer id w = (Thrown InvalidServerId, w).
Proof. intros H. unfold deleteServer. now rewrite rethrow_id, H. Qed.

Lemma objectId_string id s :
  validateInput.objectId (VString id) = Some s -> s = id.
Proof.
  unfold validateInput.objectId.
  destruct (negb (truthy (VString id))); [discriminate|].
  destruct (_ && _)%bool; [|discriminate]. now intros [= ->].
Qed.

(** X23: the route that deletes a server always answers.  An [id] that
    is not 24 hexadecimal digits is answered 500, not 400, with nothing
    read or written; an accepted [id] that no server has is answered 404
    when the connection is established and no round trip fails, with
    nothing written.  An answer of 200 means that exactly one server,
    of that [_id], has been removed and that the cache has been
    refreshed at the time of the call; an answer of 404 means that no
    collection has changed. *)
Theorem deleteServerRoute_answers (id : jsstring) (w : World) :
  exists resp w1,
    deleteServerRoute id w = (Returned resp, w1)
    /\ (rs_code resp = 200%nat \/ rs_code resp = 404%nat
        \/ rs_code resp = 500%nat)
    /\ (validateInput.objectId (VString id) = None ->
        rs_code resp = 500%nat /\ w1 = w)
    /\ (validateInput.objectId (VString id) = Some id ->
        connected w -> faults w = [] ->
        existsb (hasId (ObjectId id)) (coll w (str "servers")) = false ->
        rs_code resp = 404%nat /\ w1 = w)
    /\ (rs_code resp = 404%nat -> forall c, coll w1 c = coll w c)
    /\ (rs_code resp = 200%nat ->
        existsb (hasId (ObjectId id)) (coll w (str "servers")) = true
        /\ S (length (coll w1 (str "servers")))
           = length (coll w (str "servers"))
        /\ List.filter (fun d => negb (hasId (ObjectId id) d))
                       (coll w1 (str "servers"))
           = List.filter (fun d => negb (hasId (ObjectId id) d))
                         (coll w (str "servers"))
        /\ cacheShows w1 (length (coll w (str "services"))) (now w)
        /\ (forall c, c <> str "servers" -> c <> str "stats" ->
                      coll w1 c = coll w c)).
Proof.
  unfold deleteServerRoute, try_catch, bind.
  destruct (deleteServer (VString id) w) as [[r|e] wa] eqn:D.
  - destruct (deleteServer_inv _ _ _ _ D) as (s & V & Hc & N & Ta & Ca).
    pose proof (objectId_string _ _ V) as ->.
    destruct (removeFirst_spec (hasId (ObjectId id)) (coll w (str "servers")))
      as (Sn & Sl & Sf & _).
    rewrite <- N in Sn, Sl. rewrite <- Ca in Sl, Sf.
    destruct (existsb (hasId (ObjectId id)) (coll w (str "servers"))) eqn:X.
    + rewrite Sn. cbn [Nat.ltb Nat.leb].
      destruct (updateDashboardStats wa) as [[b|e] wb] eqn:U.
      * eexists _, wb. split; [reflexivity|]. simpl.
        split; [auto|]. split; [rewrite V; discriminate|].
        split; [discriminate|]. split; [discriminate|]. intros _.
        apply refresh_cacheShows in U as [CS Tb].
        destruct Ta as (Oa & Na & _). destruct Tb as (Ob & _).
        split; [reflexivity|].
        rewrite Ob by discriminate.
        split; [rewrite Sn in Sl; lia|]. split; [exact Sf|].
        split; [rewrite <- Na, <- (Oa (str "services")) by discriminate;
                exact CS|].
        intros c H1 H2. now rewrite Ob, Oa.
      * eexists _, wb. split; [reflexivity|]. simpl.
        split; [auto|]. split; [rewrite V; discriminate|].
        split; [discriminate|]. split; discriminate.
    + rewrite Sn. cbn [Nat.ltb Nat.leb].
      eexists _, wa. split; [reflexivity|]. simpl.
      split; [auto|]. split; [rewrite V; discriminate|].
      split.
      { intros _ Hc' Hf _. split; [reflexivity|].
        pose proof (deleteServer_accepted w (VString id) id V Hc' Hf) as A.
        rewrite (removeFirst_absent _ _ X) in A.
        rewrite A in D. now injection D. }
      split; [|discriminate].
      intros _ c. destruct Ta as (Oa & _).
      destruct (decide (c = str "servers")) as [->|Hne];
        [|now apply Oa].
      rewrite Ca. now rewrite (removeFirst_absent _ _ X).
  - eexists _, wa. split; [reflexivity|]. simpl.
    split; [auto|].
    split.
    { intros V. split; [reflexivity|].
      rewrite (deleteServer_rejected _ w V) in D. now injection D. }
    split.
    { intros V Hc Hf X.
      pose proof (deleteServer_accepted w (VString id) id V Hc Hf) as A.
      rewrite (removeFirst_absent _ _ X) in A. rewrite A in D. discriminate. }
    split; discriminate.
Qed.

Lemma deleteServerRoute_answers_witness :
  exists resp,
    deleteServerRoute (str "not-an-id") emptyWorld = (Returned resp, emptyWorld)
    /\ rs_code resp = 500%nat.
Proof.
  destruct (deleteServerRoute_answers (str "not-an-id") emptyWorld)
    as (resp & w1 & E & _ & A & _).
  destruct (A eq_refl) as [C ->].
  exists resp. split; [exact E | exact C].
Defined.

(** X24: the route that deletes a server is not atomic either.  When
    the server is found and removed but the refresh of the cache
    throws, the route answers 500 with its error message although the
    server is gone. *)
Theorem deleteServerRoute_not_atomic (id : jsstring) (w : World) (e : Error) :
  validateInput.objectId (VString id) = Some id ->
  connected w -> faults w = [] ->
  existsb (hasId (ObjectId id)) (coll w (str "servers")) = true ->
  totalEarningsOf (coll w (str "services")) = Thrown e ->
  exists w1,
    deleteServerRoute id w
    = (Returned (mkResponse 500 0 (str "Error deleting server") None), w1)
    /\ S (length (coll w1 (str "servers"))) = length (coll w (str "servers"))
    /\ coll w1 (str "stats") = coll w (str "stats").
Proof.
  intros V Hc Hf X E.
  pose proof (deleteServer_accepted w (VString id) id V Hc Hf) as A.
  destruct (removeFirst_spec (hasId (ObjectId id)) (coll w (str "servers")))
    as (Sn & Sl & _).
  rewrite X in Sn.
  destruct (removeFirst (hasId (ObjectId id)) (coll w (str "servers")))
    as [rest k] eqn:RF.
  simpl in Sn, Sl. subst k.
  unfold deleteServerRoute, try_catch.
  rewrite (bind_Returned _ _ _ _ _ A). cbn [deletedCount Nat.ltb Nat.leb].
  set (wa := setStore _ _) in *.
  assert (Hca : connected wa) by exact Hc.
  assert (Hfa : faults wa = []) by exact Hf.
  assert (Ea : totalEarningsOf (coll wa (str "services")) = Thrown e).
  { subst wa. rewrite coll_insert_ne by discriminate. exact E. }
  rewrite (bind_Thrown _ _ _ _ _ (updateDashboardStats_throws wa e Hca Hfa Ea)).
  exists wa. split; [reflexivity|].
  split; [subst wa; rewrite coll_insert; lia|].
  subst wa. now rewrite coll_insert_ne.
Qed.

Lemma deleteServerRoute_not_atomic_witness :
  exists w1,
    deleteServerRoute
      (toHexString 7)
      (world0 true
         (<[str "servers" :=
              [mkDoc 7 None
                     (BServer (Server.mk (str "Mumbai") (str "IN") (str "flag")
                                         (str "active") [] 0 0))]]>
            (storeOf (str "services")
               [mkDoc 8 None
                      (BService (Service.mk (str "WhatsApp")
                                            (VNumber zero) None))]))
         [])
    = (Returned (mkResponse 500 0 (str "Error deleting server") None), w1)
    /\ coll w1 (str "servers") = [].
Proof.
  destruct (deleteServerRoute_not_atomic
              (toHexString 7)
              (world0 true
                 (<[str "servers" :=
                      [mkDoc 7 None
                             (BServer (Server.mk (str "Mumbai") (str "IN")
                                                 (str "flag") (str "active")
                                                 [] 0 0))]]>
                    (storeOf (str "services")
                       [mkDoc 8 None
                              (BService (Service.mk (str "WhatsApp")
                                                    (VNumber zero) None))]))
                 [])
              TypeError
              ltac:(vm_compute; reflexivity) (conj eq_refl eq_refl) eq_refl
              ltac:(vm_compute; reflexivity) ltac:(vm_compute; reflexivity))
    as (w1 & E & L & _).
  exists w1. split; [exact E|].
  destruct (coll w1 (str "servers")); [reflexivity|].
  vm_compute in L. discriminate L.
Defined.

(** ** The page of servers, services and APIs *)

Lemma listing_inv c w r w1 :
  try_catch (h <- getCollection c ;; find h (fun ds => ds))
            (fun error => throw error) w = (Returned r, w1) ->
  connected w /\ sameData w w1 /\ r = coll w c.
Proof.
  rewrite rethrow_id. intros H.
  apply bind_inv in H as (h & w' & G & H).
  apply getCollection_inv in G as [-> G]. destruct (G _ eq_refl) as [-> Hc].
  apply find_inv in H as [S ->]. auto.
Qed.

Lemma sameData_connected w w' : sameData w w' -> connected w -> connected w'.
Proof. now intros [fs ->]. Qed.

(** X25: what [getMyServicesData] returns.  It only reads; its three
    sections list, in their stored order, all the servers, all the
    services and all the APIs of the store, however many, each section
    announcing a limit of 10.  Every row of every section carries the
    hexadecimal spelling of its document's [_id], and for a listed
    server that spelling is an identifier [deleteServer] accepts: with
    no failing round trip, deleting by a listed id removes exactly one
    server, one of that [_id]. *)
Theorem listed_server_can_be_deleted
        (w w1 : World) (sections : list PageSection) :
  getMyServicesData w = (Returned sections, w1) ->
  sameData w w1
  /\ exists servers services apis,
      sections = [servers; services; apis]
      /\ map row_doc (ps_data servers) = coll w (str "servers")
      /\ map row_doc (ps_data services) = coll w (str "services")
      /\ map row_doc (ps_data apis) = coll w (str "apis")
      /\ ps_limit servers = 10%nat
      /\ ps_limit services = 10%nat
      /\ ps_limit apis = 10%nat
      /\ (forall row,
             In row (ps_data servers ++ ps_data services ++ ps_data apis) ->
             row_id row = toHexString (_id (row_doc row)))
      /\ (forall row,
             In row (ps_data servers) ->
             (_id (row_doc row) < 2 ^ 96)%N -> faults w1 = [] ->
             validateInput.objectId (VString (row_id row)) = Some (row_id row)
             /\ ObjectId (row_id row) = _id (row_doc row)
             /\ exists w2,
                 deleteServer (VString (row_id row)) w1
                 = (Returned (mkDeleteResult 1), w2)
                 /\ S (length (coll w2 (str "servers")))
                    = length (coll w (str "servers"))
                 /\ List.filter (fun d => negb (hasId (_id (row_doc row)) d))
                                (coll w2 (str "servers"))
                    = List.filter (fun d => negb (hasId (_id (row_doc row)) d))
                                  (coll w (str "servers"))).
Proof.
  unfold getMyServicesData. rewrite rethrow_id. intros H.
  apply bind_inv in H as (sv & wa & A & H).
  apply listing_inv in A as (Hc & Sa & ->).
  apply bind_inv in H as (sc & wb & B & H).
  apply listing_inv in B as (_ & Sb & ->).
  apply bind_inv in H as (ap & wc & C & H).
  apply listing_inv in C as (_ & Sc & ->).
  cbv [ret] in H. injection H as <- <-.
  pose proof (sameData_trans _ _ _ Sa Sb) as Sab.
  pose proof (sameData_trans _ _ _ Sab Sc) as S1.
  split; [exact S1|].
  eexists _, _, _. split; [reflexivity|].
  cbn [ps_data ps_limit].
  rewrite !map_map. cbn [withId row_doc]. rewrite !map_id.
  split; [reflexivity|].
  split; [now rewrite (sameData_coll _ _ _ Sa)|].
  split; [now rewrite (sameData_coll _ _ _ Sab)|].
  split; [reflexivity|]. split; [reflexivity|]. split; [reflexivity|].
  split.
  { intros row Hin. rewrite !in_app_iff, !in_map_iff in Hin.
    destruct Hin as [(d & <- & _)|[(d & <- & _)|(d & <- & _)]]; reflexivity. }
  intros row Hin Hb Hf.
  apply in_map_iff in Hin as (d & <- & Hd). cbn [withId row_doc row_id] in *.
  destruct (toHexString_roundtrip _ Hb) as [V O].
  split; [exact V|]. split; [exact O|].
  pose proof (sameData_connected _ _ S1 Hc) as Hc1.
  rewrite (deleteServer_accepted wc _ _ V Hc1 Hf), O.
  rewrite (sameData_coll _ _ _ S1).
  destruct (removeFirst_spec (hasId (_id d)) (coll w (str "servers")))
    as (Sn & Sl & Sf & _).
  assert (X : existsb (hasId (_id d)) (coll w (str "servers")) = true).
  { apply existsb_exists. exists d. split; [exact Hd|].
    unfold hasId. apply N.eqb_refl. }
  rewrite X in Sn.
  destruct (removeFirst (hasId (_id d)) (coll w (str "servers")))
    as [rest k] eqn:RF.
  simpl in Sn, Sl, Sf. subst k.
  eexists. split; [reflexivity|]. rewrite coll_insert.
  split; [lia | exact Sf].
Qed.

Lemma listed_server_can_be_deleted_witness :
  exists sections w1 servers services apis row w2,
    getMyServicesData stockedWorld = (Returned sections, w1)
    /\ sections = [servers; services; apis]
    /\ length (ps_data servers) = 2%nat
    /\ length (ps_data services) = 3%nat
    /\ hd_error (ps_data servers) = Some row
    /\ row_id row = str "000000000000000000000007"
    /\ deleteServer (VString (row_id row)) w1
       = (Returned (mkDeleteResult 1), w2)
    /\ length (coll w2 (str "servers")) = 1%nat.
Proof.
  destruct (getMyServicesData stockedWorld) as [[sections|e] w1] eqn:E;
    [|vm_compute in E; discriminate E].
  assert (Hf : faults w1 = []).
  { pose proof E as E'. vm_compute in E'. injection E' as _ <-. reflexivity. }
  destruct (listed_server_can_be_deleted stockedWorld w1 sections E)
    as (S1 & servers & services & apis & -> & Dv & Dc & _ & _ & _ & _
        & Ids & Del).
  change (coll stockedWorld (str "servers")) with twoServers in Dv, Del.
  change (coll stockedWorld (str "services")) with stampedServices in Dc.
  destruct (ps_data servers) as [|row rows] eqn:Rs; [discriminate Dv|].
  injection Dv as Dr Drs.
  assert (Hid : row_id row = toHexString 7).
  { rewrite (Ids row) by (now left). now rewrite Dr. }
  destruct (Del row ltac:(now left)
                ltac:(rewrite Dr; vm_compute; reflexivity) Hf)
    as (_ & _ & w2 & D & L & _).
  exists [servers; services; apis], w1, servers, services, apis, row, w2.
  split; [reflexivity|]. split; [reflexivity|].
  split; [rewrite Rs; simpl; f_equal;
          rewrite <- (length_map row_doc), Drs; reflexivity|].
  split; [rewrite <- (length_map row_doc), Dc; reflexivity|].
  split; [now rewrite Rs|].
  split; [rewrite Hid; vm_compute; reflexivity|].
  split; [exact D|].
  simpl in L. lia.
Defined.

(** ** Connecting the accessor *)

(** X26: [connect] on an accessor that is connected makes no round
    trip and changes nothing.  Otherwise it makes one round trip: when
    that succeeds the connection is established, and when it fails the
    error is thrown again, the accessor is left not connected with the
    handle it had, and [getBotStats] then returns the all-zero object.
    The store is never written, and a [connect] that has returned
    returns the same again without a round trip. *)
Theorem connect_establishes (w : World) :
  exists r w1,
    connect w = (r, w1)
    /\ store w1 = store w
    /\ (isConnected w = true -> r = Returned (dbHandle w) /\ w1 = w)
    /\ (isConnected w = false -> hd false (faults w) = false ->
        r = Returned true /\ connected w1 /\ faults w1 = tl (faults w))
    /\ (isConnected w = false -> hd false (faults w) = true ->
        r = Thrown StoreFailure
        /\ isConnected w1 = false /\ dbHandle w1 = dbHandle w
        /\ fst (getBotStats w1) = Returned zeroStats)
    /\ (forall h, r = Returned h -> connect w1 = (Returned h, w1)).
Proof.
  unfold connect, try_catch. unfold bind at 1. unfold get at 1.
  destruct (isConnected w) eqn:C.
  - exists (Returned (dbHandle w)), w. split; [reflexivity|].
    split; [reflexivity|]. split; [auto|].
    split; [discriminate|]. split; [discriminate|].
    intros h [= <-]. unfold bind at 1. unfold get at 1. now rewrite C.
  - unfold bind at 1. rewrite roundTrip_read.
    destruct (hd false (faults w)) eqn:F.
    + eexists _, _. cbv [bind get put throw]. split; [reflexivity|].
      cbn [store setConnection setFaults isConnected dbHandle].
      split; [reflexivity|]. split; [discriminate|].
      split; [discriminate|].
      split; [|discriminate].
      intros _ _. split; [reflexivity|]. split; [reflexivity|].
      split; [reflexivity|].
      rewrite getBotStats_fst, getBotStats_try_disconnected; [reflexivity|].
      intros [_ H]. discriminate H.
    + eexists _, _. cbv [bind get put ret]. split; [reflexivity|].
      cbn [store setConnection setFaults].
      split; [reflexivity|]. split; [discriminate|].
      split; [intros _ _; split; [reflexivity|]; split; [split|]; reflexivity|].
      split; [discriminate|].
      intros h [= <-]. reflexivity.
Qed.

Lemma connect_establishes_witness :
  exists w1,
    connect disconnectedWorld = (Returned true, w1) /\ connected w1.
Proof.
  destruct (connect_establishes disconnectedWorld)
    as (r & w1 & E & _ & _ & A & _).
  destruct (A eq_refl eq_refl) as (-> & Hc & _).
  exists w1. split; [exact E | exact Hc].
Defined.

(** ** The readers of the user count *)





